(** * PkClient: the PackageKit transaction client

    A shallow embedding of the client library of PackageKit (the file that
    defines [PkClient]: [pk_client_error_fixup], the signal callbacks,
    [pk_client_cancel], the action methods, [pk_client_requeue],
    [pk_client_set_tid], [pk_client_reset]) and the properties the
    specification states about it.

    The private data of a client is a record; the daemon, the session bus,
    PolicyKit and the headers that are not part of the sources are the
    fields of an environment [Env]; every function of the client is a
    computation in a small state monad that threads the private data and the
    trace of what the client did to the outside world. *)

From Stdlib Require Import ZArith List String Ascii Bool Lia Permutation.
Import ListNotations.

Local Open Scope string_scope.
Local Open Scope list_scope.
Local Open Scope Z_scope.

(** ** GLib: errors, strings *)

(** A [GQuark] error domain.  The client tells two domains apart, the one of
    the bus bindings and its own; every other domain is named. *)
Inductive GQuark : Type :=
| DBUS_GERROR
| PK_CLIENT_ERROR
| G_QUARK (name : string).

Definition GQuark_eqb (a b : GQuark) : bool :=
  match a, b with
  | DBUS_GERROR, DBUS_GERROR => true
  | PK_CLIENT_ERROR, PK_CLIENT_ERROR => true
  | G_QUARK x, G_QUARK y => String.eqb x y
  | _, _ => false
  end.

(** [struct GError { GQuark domain; gint code; gchar *message; }] *)
Record GError : Type := mkGError {
  domain : GQuark;
  code : Z;
  message : string
}.

(** [DBusGError]: the code the bus bindings give an error raised by the
    remote method itself. *)
Definition DBUS_GERROR_REMOTE_EXCEPTION : Z := 32.

(** Modelled from the spec: [PkClientError] is declared in pk-client.h, which
    is not part of the sources.  Its codes are the taxonomy of the spec
    (Failed, FailedAuth, NoTransaction, AlreadyBound, RoleUnknown,
    InvalidPackageId), under the names the client uses and numbered in the
    order [pk_client_error_get_type] registers them. *)
Definition PK_CLIENT_ERROR_FAILED : Z := 0.
Definition PK_CLIENT_ERROR_FAILED_AUTH : Z := 1.
Definition PK_CLIENT_ERROR_NO_TID : Z := 2.
Definition PK_CLIENT_ERROR_ALREADY_TID : Z := 3.
Definition PK_CLIENT_ERROR_ROLE_UNKNOWN : Z := 4.
Definition PK_CLIENT_ERROR_INVALID_PACKAGEID : Z := 5.

(** [pk_strequal] of pk-common, as the client uses it: both strings are
    present and equal. *)
Definition pk_strequal (a b : option string) : bool :=
  match a, b with
  | Some x, Some y => String.eqb x y
  | _, _ => false
  end.

(** [g_str_has_suffix (str, suffix)] *)
Definition g_str_has_suffix (str suffix : string) : bool :=
  let n := String.length str in
  let k := String.length suffix in
  (k <=? n)%nat && String.eqb (String.substring (n - k)%nat k str) suffix.

(** [g_vasprintf (&buffer, format, args)] for a caller that passes no
    argument behind the format: a text without [%] is copied, ["%%"] writes
    one [%].  Any other conversion specification takes an argument that is
    not there, and a [%] that ends the format is no specification at all:
    the C library leaves both undefined, and the result is [None]. *)
Fixpoint g_vasprintf_no_args (format : string) : option string :=
  match format with
  | EmptyString => Some EmptyString
  | String "%" (String "%" rest) =>
      option_map (String "%") (g_vasprintf_no_args rest)
  | String "%" _ => None
  | String c rest => option_map (String c) (g_vasprintf_no_args rest)
  end.

(** [g_strsplit (string, delimiter, 1)]: with room for one token only, the
    whole string is the one token; the empty string has no token. *)
Definition g_strsplit_1 (s : string) : list string :=
  match s with
  | EmptyString => []
  | _ => [s]
  end.

(** A [gchar **] under construction: entries may be [NULL], and the vector
    ends at the first [NULL]. *)
Fixpoint strv_of (entries : list (option string)) : list string :=
  match entries with
  | Some s :: rest => s :: strv_of rest
  | _ => []
  end.

(** Modelled from the spec: [pk_package_ids_to_text] of pk-package-ids is not
    part of the sources; the error text carries "the original id text", the
    ids joined by the delimiter. *)
Definition pk_package_ids_to_text (package_ids : list string) (delimiter : string) : string :=
  String.concat delimiter package_ids.

(** ** The enumerations of pk-enum.h that the client names *)

(** Modelled from the spec: pk-enum.h is not part of the sources.  The roles
    are the ones the spec lists for Role, under the names the client uses. *)
Inductive PkRoleEnum : Type :=
| PK_ROLE_ENUM_SEARCH_NAME
| PK_ROLE_ENUM_SEARCH_DETAILS
| PK_ROLE_ENUM_SEARCH_GROUP
| PK_ROLE_ENUM_SEARCH_FILE
| PK_ROLE_ENUM_GET_DEPENDS
| PK_ROLE_ENUM_GET_REQUIRES
| PK_ROLE_ENUM_GET_DETAILS
| PK_ROLE_ENUM_GET_FILES
| PK_ROLE_ENUM_GET_UPDATES
| PK_ROLE_ENUM_GET_UPDATE_DETAIL
| PK_ROLE_ENUM_RESOLVE
| PK_ROLE_ENUM_ROLLBACK
| PK_ROLE_ENUM_INSTALL_PACKAGES
| PK_ROLE_ENUM_INSTALL_FILES
| PK_ROLE_ENUM_INSTALL_SIGNATURE
| PK_ROLE_ENUM_REMOVE_PACKAGES
| PK_ROLE_ENUM_UPDATE_PACKAGES
| PK_ROLE_ENUM_UPDATE_SYSTEM
| PK_ROLE_ENUM_REFRESH_CACHE
| PK_ROLE_ENUM_GET_REPO_LIST
| PK_ROLE_ENUM_REPO_ENABLE
| PK_ROLE_ENUM_REPO_SET_DATA
| PK_ROLE_ENUM_ACCEPT_EULA
| PK_ROLE_ENUM_GET_PACKAGES
| PK_ROLE_ENUM_GET_OLD_TRANSACTIONS
| PK_ROLE_ENUM_WHAT_PROVIDES
| PK_ROLE_ENUM_UNKNOWN.

(** Modelled from the spec: the statuses of pk-enum.h.  The client names
    two of them; the others (running, downloading, installing, ...) are kept
    by their number. *)
Inductive PkStatusEnum : Type :=
| PK_STATUS_ENUM_UNKNOWN
| PK_STATUS_ENUM_WAIT
| PK_STATUS_ENUM_VALUE (n : Z).

(** Modelled from the spec: what a what-provides query asks for, and the
    type of a signature; of each the client names the unknown value, which
    it refuses, and gives one example. *)
Inductive PkProvidesEnum : Type :=
| PK_PROVIDES_ENUM_ANY
| PK_PROVIDES_ENUM_MODALIAS
| PK_PROVIDES_ENUM_CODEC
| PK_PROVIDES_ENUM_UNKNOWN.

Inductive PkSigTypeEnum : Type :=
| PK_SIGTYPE_ENUM_GPG
| PK_SIGTYPE_ENUM_UNKNOWN.

(** Modelled from the spec: the restart levels are an ordered enumeration
    (none, session, system, ...).  The client compares them with [>], so an
    enumerator is its C integer; [PK_RESTART_ENUM_NONE] is the first one. *)
Definition PkRestartEnum : Type := Z.
Definition PK_RESTART_ENUM_NONE : PkRestartEnum := 0.

(** Modelled from the spec: [PkFilterEnum] is a bit mask, and the mask
    without any bit is "unknown". *)
Definition PkFilterEnum : Type := Z.
Definition PK_FILTER_ENUM_UNKNOWN : PkFilterEnum := 0.

(** Enumerations the client only decodes and hands on, as their C integer. *)
Definition PkExitEnum : Type := Z.
Definition PkInfoEnum : Type := Z.
Definition PkGroupEnum : Type := Z.
Definition PkErrorCodeEnum : Type := Z.
Definition PkMessageEnum : Type := Z.

Definition PkRoleEnum_eqb (a b : PkRoleEnum) : bool :=
  match a, b with
  | PK_ROLE_ENUM_SEARCH_NAME, PK_ROLE_ENUM_SEARCH_NAME
  | PK_ROLE_ENUM_SEARCH_DETAILS, PK_ROLE_ENUM_SEARCH_DETAILS
  | PK_ROLE_ENUM_SEARCH_GROUP, PK_ROLE_ENUM_SEARCH_GROUP
  | PK_ROLE_ENUM_SEARCH_FILE, PK_ROLE_ENUM_SEARCH_FILE
  | PK_ROLE_ENUM_GET_DEPENDS, PK_ROLE_ENUM_GET_DEPENDS
  | PK_ROLE_ENUM_GET_REQUIRES, PK_ROLE_ENUM_GET_REQUIRES
  | PK_ROLE_ENUM_GET_DETAILS, PK_ROLE_ENUM_GET_DETAILS
  | PK_ROLE_ENUM_GET_FILES, PK_ROLE_ENUM_GET_FILES
  | PK_ROLE_ENUM_GET_UPDATES, PK_ROLE_ENUM_GET_UPDATES
  | PK_ROLE_ENUM_GET_UPDATE_DETAIL, PK_ROLE_ENUM_GET_UPDATE_DETAIL
  | PK_ROLE_ENUM_RESOLVE, PK_ROLE_ENUM_RESOLVE
  | PK_ROLE_ENUM_ROLLBACK, PK_ROLE_ENUM_ROLLBACK
  | PK_ROLE_ENUM_INSTALL_PACKAGES, PK_ROLE_ENUM_INSTALL_PACKAGES
  | PK_ROLE_ENUM_INSTALL_FILES, PK_ROLE_ENUM_INSTALL_FILES
  | PK_ROLE_ENUM_INSTALL_SIGNATURE, PK_ROLE_ENUM_INSTALL_SIGNATURE
  | PK_ROLE_ENUM_REMOVE_PACKAGES, PK_ROLE_ENUM_REMOVE_PACKAGES
  | PK_ROLE_ENUM_UPDATE_PACKAGES, PK_ROLE_ENUM_UPDATE_PACKAGES
  | PK_ROLE_ENUM_UPDATE_SYSTEM, PK_ROLE_ENUM_UPDATE_SYSTEM
  | PK_ROLE_ENUM_REFRESH_CACHE, PK_ROLE_ENUM_REFRESH_CACHE
  | PK_ROLE_ENUM_GET_REPO_LIST, PK_ROLE_ENUM_GET_REPO_LIST
  | PK_ROLE_ENUM_REPO_ENABLE, PK_ROLE_ENUM_REPO_ENABLE
  | PK_ROLE_ENUM_REPO_SET_DATA, PK_ROLE_ENUM_REPO_SET_DATA
  | PK_ROLE_ENUM_ACCEPT_EULA, PK_ROLE_ENUM_ACCEPT_EULA
  | PK_ROLE_ENUM_GET_PACKAGES, PK_ROLE_ENUM_GET_PACKAGES
  | PK_ROLE_ENUM_GET_OLD_TRANSACTIONS, PK_ROLE_ENUM_GET_OLD_TRANSACTIONS
  | PK_ROLE_ENUM_WHAT_PROVIDES, PK_ROLE_ENUM_WHAT_PROVIDES
  | PK_ROLE_ENUM_UNKNOWN, PK_ROLE_ENUM_UNKNOWN => true
  | _, _ => false
  end.

(** ** The bus: values, inbound signals, outbound notifications *)

(** An argument of [dbus_g_proxy_call]. *)
Inductive GValue : Type :=
| G_TYPE_STRING (s : option string)
| G_TYPE_BOOLEAN (b : bool)
| G_TYPE_UINT (n : Z)
| G_TYPE_STRV (v : list string).

(** A [const gchar *] of which the client hands on the pointer itself: where
    the text lies, and the text. *)
Record GCharPointer : Type := mkGCharPointer {
  pointer_address : Z;
  pointer_text : string
}.

(** The [guint] that [g_signal_emit] collects for a parameter registered as
    [G_TYPE_UINT] when it is passed a pointer: a number read from the
    argument slot that holds the address; which bits of the address it has
    is up to the calling convention. *)
Inductive GUIntFromPointer : Type :=
| guint_from_pointer (address : Z).

(** A signal of the transaction interface, as the daemon sends it. *)
Inductive BusSignal : Type :=
| Finished (exit_text : string) (runtime : Z)
| ProgressChanged (percentage subpercentage elapsed remaining : Z)
| StatusChanged (status_text : string)
| Package (info_text package_id summary : string)
| Transaction (old_tid timespec : string) (succeeded : bool)
              (role_text : string) (duration : Z) (data : string)
| UpdateDetail (package_id updates obsoletes vendor_url bugzilla_url
                cve_url restart_text update_text : string)
| Details (package_id license group_text description url : string) (size : Z)
| Files (package_id filelist : string)
| RepoSignatureRequired (package_id repository_name key_url key_userid key_id
                         key_fingerprint key_timestamp : string)
                        (type_text : GCharPointer)
| EulaRequired (eula_id package_id vendor_name license_agreement : string)
| RepoDetail (repo_id description : string) (enabled : bool)
| ErrorCode (code_text details : string)
| RequireRestart (restart_text details : string)
| Message (message_text details : string)
| CallerActiveChanged (is_active : bool)
| AllowCancel (allow_cancel : bool).

(** The member name of a signal. *)
Definition signal_name (ev : BusSignal) : string :=
  match ev with
  | Finished _ _ => "Finished"
  | ProgressChanged _ _ _ _ => "ProgressChanged"
  | StatusChanged _ => "StatusChanged"
  | Package _ _ _ => "Package"
  | Transaction _ _ _ _ _ _ => "Transaction"
  | UpdateDetail _ _ _ _ _ _ _ _ => "UpdateDetail"
  | Details _ _ _ _ _ _ => "Details"
  | Files _ _ => "Files"
  | RepoSignatureRequired _ _ _ _ _ _ _ _ => "RepoSignatureRequired"
  | EulaRequired _ _ _ _ => "EulaRequired"
  | RepoDetail _ _ _ => "RepoDetail"
  | ErrorCode _ _ => "ErrorCode"
  | RequireRestart _ _ => "RequireRestart"
  | Message _ _ => "Message"
  | CallerActiveChanged _ => "CallerActiveChanged"
  | AllowCancel _ => "AllowCancel"
  end.

(** What the client emits to its observers with [g_signal_emit], one
    constructor per entry of [PkSignals], with the parameters as
    [pk_client_class_init] registers them.  The last parameter of
    repo-signature-required is registered as [G_TYPE_UINT]. *)
Inductive PkSignals : Type :=
| PK_CLIENT_DETAILS (package_id license : string) (group : PkGroupEnum)
                    (description url : string) (size : Z)
| PK_CLIENT_ERROR_CODE (code : PkErrorCodeEnum) (details : string)
| PK_CLIENT_FILES (package_id filelist : string)
| PK_CLIENT_FINISHED (exit : PkExitEnum) (runtime : Z)
| PK_CLIENT_PACKAGE (info : PkInfoEnum) (package_id summary : string)
| PK_CLIENT_PROGRESS_CHANGED (percentage subpercentage elapsed remaining : Z)
| PK_CLIENT_REQUIRE_RESTART (restart : PkRestartEnum) (details : string)
| PK_CLIENT_MESSAGE (message : PkMessageEnum) (details : string)
| PK_CLIENT_TRANSACTION (old_tid timespec : string) (succeeded : bool)
                        (role : PkRoleEnum) (duration : Z) (data : string)
| PK_CLIENT_STATUS_CHANGED (status : PkStatusEnum)
| PK_CLIENT_UPDATE_DETAIL (package_id updates obsoletes vendor_url bugzilla_url
                           cve_url : string) (restart : PkRestartEnum)
                          (update_text : string)
| PK_CLIENT_REPO_SIGNATURE_REQUIRED (package_id repository_name key_url
                                     key_userid key_id key_fingerprint
                                     key_timestamp : string)
                                    (type : GUIntFromPointer)
| PK_CLIENT_EULA_REQUIRED (eula_id package_id vendor_name
                           license_agreement : string)
| PK_CLIENT_CALLER_ACTIVE_CHANGED (is_active : bool)
| PK_CLIENT_REPO_DETAIL (repo_id description : string) (enabled : bool)
| PK_CLIENT_ALLOW_CANCEL (allow_cancel : bool).

(** What the client does to the outside world, in the order it does it.
    The last two are the ways the client goes wrong: it reads the message
    of [*error] where the caller passed no error location, and it formats a
    text that asks for an argument it was not given. *)
Inductive Ext : Type :=
| ControlAllocateTid
| ProxyNewForName (path : string)
| ProxyCall (path method : string) (args : list GValue)
| PolkitGainPrivilege (error_str : string)
| SignalEmit (signal : PkSignals)
| MainLoopRun
| NullDereference
| FormatWithoutArgument (format : string).

Definition Trace : Type := list Ext.

(** [DBusGProxy]: the object path it was made for and the members that have
    a callback connected, in the order they were connected. *)
Record DBusGProxy : Type := mkProxy {
  proxy_path : string;
  proxy_connected : list string
}.

(** [GMainLoop]: whether the loop is running. *)
Record GMainLoop : Type := mkLoop {
  is_running : bool
}.

(** One row of a [PkPackageList]. *)
Record PkPackageItem : Type := mkItem {
  item_info : PkInfoEnum;
  item_package_id : string;
  item_summary : string
}.

Definition PkPackageList : Type := list PkPackageItem.

(** [pk_package_list_add], [pk_package_list_clear] *)
Definition pk_package_list_add (plist : PkPackageList) (info : PkInfoEnum)
    (package_id summary : string) : PkPackageList :=
  plist ++ [mkItem info package_id summary].

Definition pk_package_list_clear (plist : PkPackageList) : PkPackageList := [].

(** ** The private data of a client

    [struct _PkClientPrivate], without the handles of the connection, of the
    control object and of PolicyKit, which the environment stands for. *)
Record PkClientPrivate : Type := mkPriv {
  proxy : option DBusGProxy;
  loop : GMainLoop;
  is_finished : bool;
  use_buffer : bool;
  synchronous : bool;
  tid : option string;
  package_list : PkPackageList;
  require_restart : PkRestartEnum;
  last_status : PkStatusEnum;
  role : PkRoleEnum;
  cached_force : bool;
  cached_allow_deps : bool;
  cached_autoremove : bool;
  cached_trusted : bool;
  cached_package_id : option string;
  cached_package_ids : option (list string);
  cached_transaction_id : option string;
  cached_key_id : option string;
  cached_full_path : option string;
  cached_full_paths : option (list string);
  cached_search : option string;
  cached_provides : PkProvidesEnum;
  cached_filters : PkFilterEnum
}.

Definition with_proxy (v : option DBusGProxy) (c : PkClientPrivate) : PkClientPrivate :=
  mkPriv v (loop c) (is_finished c) (use_buffer c) (synchronous c) (tid c)
    (package_list c) (require_restart c) (last_status c) (role c)
    (cached_force c) (cached_allow_deps c) (cached_autoremove c)
    (cached_trusted c) (cached_package_id c) (cached_package_ids c)
    (cached_transaction_id c) (cached_key_id c) (cached_full_path c)
    (cached_full_paths c) (cached_search c) (cached_provides c)
    (cached_filters c).

Definition with_loop (v : GMainLoop) (c : PkClientPrivate) : PkClientPrivate :=
  mkPriv (proxy c) v (is_finished c) (use_buffer c) (synchronous c) (tid c)
    (package_list c) (require_restart c) (last_status c) (role c)
    (cached_force c) (cached_allow_deps c) (cached_autoremove c)
    (cached_trusted c) (cached_package_id c) (cached_package_ids c)
    (cached_transaction_id c) (cached_key_id c) (cached_full_path c)
    (cached_full_paths c) (cached_search c) (cached_provides c)
    (cached_filters c).

Definition with_is_finished (v : bool) (c : PkClientPrivate) : PkClientPrivate :=
  mkPriv (proxy c) (loop c) v (use_buffer c) (synchronous c) (tid c)
    (package_list c) (require_restart c) (last_status c) (role c)
    (cached_force c) (cached_allow_deps c) (cached_autoremove c)
    (cached_trusted c) (cached_package_id c) (cached_package_ids c)
    (cached_transaction_id c) (cached_key_id c) (cached_full_path c)
    (cached_full_paths c) (cached_search c) (cached_provides c)
    (cached_filters c).

Definition with_use_buffer (v : bool) (c : PkClientPrivate) : PkClientPrivate :=
  mkPriv (proxy c) (loop c) (is_finished c) v (synchronous c) (tid c)
    (package_list c) (require_restart c) (last_status c) (role c)
    (cached_force c) (cached_allow_deps c) (cached_autoremove c)
    (cached_trusted c) (cached_package_id c) (cached_package_ids c)
    (cached_transaction_id c) (cached_key_id c) (cached_full_path c)
    (cached_full_paths c) (cached_search c) (cached_provides c)
    (cached_filters c).

Definition with_synchronous (v : bool) (c : PkClientPrivate) : PkClientPrivate :=
  mkPriv (proxy c) (loop c) (is_finished c) (use_buffer c) v (tid c)
    (package_list c) (require_restart c) (last_status c) (role c)
    (cached_force c) (cached_allow_deps c) (cached_autoremove c)
    (cached_trusted c) (cached_package_id c) (cached_package_ids c)
    (cached_transaction_id c) (cached_key_id c) (cached_full_path c)
    (cached_full_paths c) (cached_search c) (cached_provides c)
    (cached_filters c).

Definition with_tid (v : option string) (c : PkClientPrivate) : PkClientPrivate :=
  mkPriv (proxy c) (loop c) (is_finished c) (use_buffer c) (synchronous c) v
    (package_list c) (require_restart c) (last_status c) (role c)
    (cached_force c) (cached_allow_deps c) (cached_autoremove c)
    (cached_trusted c) (cached_package_id c) (cached_package_ids c)
    (cached_transaction_id c) (cached_key_id c) (cached_full_path c)
    (cached_full_paths c) (cached_search c) (cached_provides c)
    (cached_filters c).

Definition with_package_list (v : PkPackageList) (c : PkClientPrivate) : PkClientPrivate :=
  mkPriv (proxy c) (loop c) (is_finished c) (use_buffer c) (synchronous c)
    (tid c) v (require_restart c) (last_status c) (role c) (cached_force c)
    (cached_allow_deps c) (cached_autoremove c) (cached_trusted c)
    (cached_package_id c) (cached_package_ids c) (cached_transaction_id c)
    (cached_key_id c) (cached_full_path c) (cached_full_paths c)
    (cached_search c) (cached_provides c) (cached_filters c).

Definition with_require_restart (v : PkRestartEnum) (c : PkClientPrivate) : PkClientPrivate :=
  mkPriv (proxy c) (loop c) (is_finished c) (use_buffer c) (synchronous c)
    (tid c) (package_list c) v (last_status c) (role c) (cached_force c)
    (cached_allow_deps c) (cached_autoremove c) (cached_trusted c)
    (cached_package_id c) (cached_package_ids c) (cached_transaction_id c)
    (cached_key_id c) (cached_full_path c) (cached_full_paths c)
    (cached_search c) (cached_provides c) (cached_filters c).

Definition with_last_status (v : PkStatusEnum) (c : PkClientPrivate) : PkClientPrivate :=
  mkPriv (proxy c) (loop c) (is_finished c) (use_buffer c) (synchronous c)
    (tid c) (package_list c) (require_restart c) v (role c) (cached_force c)
    (cached_allow_deps c) (cached_autoremove c) (cached_trusted c)
    (cached_package_id c) (cached_package_ids c) (cached_transaction_id c)
    (cached_key_id c) (cached_full_path c) (cached_full_paths c)
    (cached_search c) (cached_provides c) (cached_filters c).

Definition with_role (v : PkRoleEnum) (c : PkClientPrivate) : PkClientPrivate :=
  mkPriv (proxy c) (loop c) (is_finished c) (use_buffer c) (synchronous c)
    (tid c) (package_list c) (require_restart c) (last_status c) v
    (cached_force c) (cached_allow_deps c) (cached_autoremove c)
    (cached_trusted c) (cached_package_id c) (cached_package_ids c)
    (cached_transaction_id c) (cached_key_id c) (cached_full_path c)
    (cached_full_paths c) (cached_search c) (cached_provides c)
    (cached_filters c).

Definition with_cached_force (v : bool) (c : PkClientPrivate) : PkClientPrivate :=
  mkPriv (proxy c) (loop c) (is_finished c) (use_buffer c) (synchronous c)
    (tid c) (package_list c) (require_restart c) (last_status c) (role c) v
    (cached_allow_deps c) (cached_autoremove c) (cached_trusted c)
    (cached_package_id c) (cached_package_ids c) (cached_transaction_id c)
    (cached_key_id c) (cached_full_path c) (cached_full_paths c)
    (cached_search c) (cached_provides c) (cached_filters c).

Definition with_cached_allow_deps (v : bool) (c : PkClientPrivate) : PkClientPrivate :=
  mkPriv (proxy c) (loop c) (is_finished c) (use_buffer c) (synchronous c)
    (tid c) (package_list c) (require_restart c) (last_status c) (role c)
    (cached_force c) v (cached_autoremove c) (cached_trusted c)
    (cached_package_id c) (cached_package_ids c) (cached_transaction_id c)
    (cached_key_id c) (cached_full_path c) (cached_full_paths c)
    (cached_search c) (cached_provides c) (cached_filters c).

Definition with_cached_autoremove (v : bool) (c : PkClientPrivate) : PkClientPrivate :=
  mkPriv (proxy c) (loop c) (is_finished c) (use_buffer c) (synchronous c)
    (tid c) (package_list c) (require_restart c) (last_status c) (role c)
    (cached_force c) (cached_allow_deps c) v (cached_trusted c)
    (cached_package_id c) (cached_package_ids c) (cached_transaction_id c)
    (cached_key_id c) (cached_full_path c) (cached_full_paths c)
    (cached_search c) (cached_provides c) (cached_filters c).

Definition with_cached_trusted (v : bool) (c : PkClientPrivate) : PkClientPrivate :=
  mkPriv (proxy c) (loop c) (is_finished c) (use_buffer c) (synchronous c)
    (tid c) (package_list c) (require_restart c) (last_status c) (role c)
    (cached_force c) (cached_allow_deps c) (cached_autoremove c) v
    (cached_package_id c) (cached_package_ids c) (cached_transaction_id c)
    (cached_key_id c) (cached_full_path c) (cached_full_paths c)
    (cached_search c) (cached_provides c) (cached_filters c).

Definition with_cached_package_id (v : option string) (c : PkClientPrivate) : PkClientPrivate :=
  mkPriv (proxy c) (loop c) (is_finished c) (use_buffer c) (synchronous c)
    (tid c) (package_list c) (require_restart c) (last_status c) (role c)
    (cached_force c) (cached_allow_deps c) (cached_autoremove c)
    (cached_trusted c) v (cached_package_ids c) (cached_transaction_id c)
    (cached_key_id c) (cached_full_path c) (cached_full_paths c)
    (cached_search c) (cached_provides c) (cached_filters c).

Definition with_cached_package_ids (v : option (list string)) (c : PkClientPrivate) : PkClientPrivate :=
  mkPriv (proxy c) (loop c) (is_finished c) (use_buffer c) (synchronous c)
    (tid c) (package_list c) (require_restart c) (last_status c) (role c)
    (cached_force c) (cached_allow_deps c) (cached_autoremove c)
    (cached_trusted c) (cached_package_id c) v (cached_transaction_id c)
    (cached_key_id c) (cached_full_path c) (cached_full_paths c)
    (cached_search c) (cached_provides c) (cached_filters c).

Definition with_cached_transaction_id (v : option string) (c : PkClientPrivate) : PkClientPrivate :=
  mkPriv (proxy c) (loop c) (is_finished c) (use_buffer c) (synchronous c)
    (tid c) (package_list c) (require_restart c) (last_status c) (role c)
    (cached_force c) (cached_allow_deps c) (cached_autoremove c)
    (cached_trusted c) (cached_package_id c) (cached_package_ids c) v
    (cached_key_id c) (cached_full_path c) (cached_full_paths c)
    (cached_search c) (cached_provides c) (cached_filters c).

Definition with_cached_key_id (v : option string) (c : PkClientPrivate) : PkClientPrivate :=
  mkPriv (proxy c) (loop c) (is_finished c) (use_buffer c) (synchronous c)
    (tid c) (package_list c) (require_restart c) (last_status c) (role c)
    (cached_force c) (cached_allow_deps c) (cached_autoremove c)
    (cached_trusted c) (cached_package_id c) (cached_package_ids c)
    (cached_transaction_id c) v (cached_full_path c) (cached_full_paths c)
    (cached_search c) (cached_provides c) (cached_filters c).

Definition with_cached_full_path (v : option string) (c : PkClientPrivate) : PkClientPrivate :=
  mkPriv (proxy c) (loop c) (is_finished c) (use_buffer c) (synchronous c)
    (tid c) (package_list c) (require_restart c) (last_status c) (role c)
    (cached_force c) (cached_allow_deps c) (cached_autoremove c)
    (cached_trusted c) (cached_package_id c) (cached_package_ids c)
    (cached_transaction_id c) (cached_key_id c) v (cached_full_paths c)
    (cached_search c) (cached_provides c) (cached_filters c).

Definition with_cached_full_paths (v : option (list string)) (c : PkClientPrivate) : PkClientPrivate :=
  mkPriv (proxy c) (loop c) (is_finished c) (use_buffer c) (synchronous c)
    (tid c) (package_list c) (require_restart c) (last_status c) (role c)
    (cached_force c) (cached_allow_deps c) (cached_autoremove c)
    (cached_trusted c) (cached_package_id c) (cached_package_ids c)
    (cached_transaction_id c) (cached_key_id c) (cached_full_path c) v
    (cached_search c) (cached_provides c) (cached_filters c).

Definition with_cached_search (v : option string) (c : PkClientPrivate) : PkClientPrivate :=
  mkPriv (proxy c) (loop c) (is_finished c) (use_buffer c) (synchronous c)
    (tid c) (package_list c) (require_restart c) (last_status c) (role c)
    (cached_force c) (cached_allow_deps c) (cached_autoremove c)
    (cached_trusted c) (cached_package_id c) (cached_package_ids c)
    (cached_transaction_id c) (cached_key_id c) (cached_full_path c)
    (cached_full_paths c) v (cached_provides c) (cached_filters c).

Definition with_cached_provides (v : PkProvidesEnum) (c : PkClientPrivate) : PkClientPrivate :=
  mkPriv (proxy c) (loop c) (is_finished c) (use_buffer c) (synchronous c)
    (tid c) (package_list c) (require_restart c) (last_status c) (role c)
    (cached_force c) (cached_allow_deps c) (cached_autoremove c)
    (cached_trusted c) (cached_package_id c) (cached_package_ids c)
    (cached_transaction_id c) (cached_key_id c) (cached_full_path c)
    (cached_full_paths c) (cached_search c) v (cached_filters c).

Definition with_cached_filters (v : PkFilterEnum) (c : PkClientPrivate) : PkClientPrivate :=
  mkPriv (proxy c) (loop c) (is_finished c) (use_buffer c) (synchronous c)
    (tid c) (package_list c) (require_restart c) (last_status c) (role c)
    (cached_force c) (cached_allow_deps c) (cached_autoremove c)
    (cached_trusted c) (cached_package_id c) (cached_package_ids c)
    (cached_transaction_id c) (cached_key_id c) (cached_full_path c)
    (cached_full_paths c) (cached_search c) (cached_provides c) v.

(** ** The environment

    Everything the client calls that is not defined in its own file: the
    daemon and the bus (their answer may depend on all that was done to them
    before, the trace), PolicyKit, the package-id validators, the C library
    and the text codecs of pk-enum. *)
Record Env : Type := mkEnv {
  (** [pk_package_id_check], [pk_package_ids_check] *)
  pk_package_id_check : string -> bool;
  pk_package_ids_check : list string -> bool;
  (** the caller: whether it passed the call in progress a location for
      the error ([error != NULL]), asked with the history at the start of
      the allocation; some calls of the self test pass [NULL] *)
  error_location : Trace -> bool;
  (** [pk_control_allocate_transaction_id]: an error, or the new tid *)
  pk_control_allocate_transaction_id : Trace -> GError + string;
  (** [dbus_g_proxy_new_for_name]: [false] for [NULL] *)
  dbus_g_proxy_new_for_name : Trace -> string -> bool;
  (** the answer to [dbus_g_proxy_call]: [None] for [TRUE], or the error *)
  dbus_reply : Trace -> string -> string -> list GValue -> option GError;
  (** [pk_polkit_client_error_denied_by_policy] on an error that is set *)
  pk_polkit_client_error_denied_by_policy : GError -> bool;
  (** [pk_polkit_client_gain_privilege_str] *)
  pk_polkit_client_gain_privilege_str : Trace -> string -> bool;
  (** the values the transaction answers its queries with, when the call
      returns [TRUE]: GetAllowCancel, GetStatus, GetPackage, GetProgress,
      GetRole, IsCallerActive *)
  reply_allow_cancel : Trace -> bool;
  reply_status : Trace -> string;
  reply_package : Trace -> string;
  reply_progress : Trace -> Z * Z * Z * Z;
  reply_role : Trace -> string * string;
  reply_caller_active : Trace -> bool;
  (** the signals the bus hands to the private main loop while it runs *)
  g_main_context_pending : Trace -> list BusSignal;
  (** [realpath (path, NULL)] *)
  realpath : string -> option string;
  pk_exit_enum_from_text : string -> PkExitEnum;
  pk_status_enum_from_text : string -> PkStatusEnum;
  pk_info_enum_from_text : string -> PkInfoEnum;
  pk_role_enum_from_text : string -> PkRoleEnum;
  pk_restart_enum_from_text : string -> PkRestartEnum;
  pk_group_enum_from_text : string -> PkGroupEnum;
  pk_error_enum_from_text : string -> PkErrorCodeEnum;
  pk_message_enum_from_text : string -> PkMessageEnum;
  pk_filter_enums_to_text : PkFilterEnum -> string;
  pk_provides_enum_to_text : PkProvidesEnum -> string;
  pk_sig_type_enum_to_text : PkSigTypeEnum -> string
}.

(** ** The monad of the client

    A computation reads and writes the private data and extends the trace.
    It yields [None] when the call never returns: the thread never leaves
    the private main loop, and the state is then the one it is parked in, or
    the client went wrong, and the trace then ends with how. *)
Record Sys : Type := mkSys {
  priv : PkClientPrivate;
  trace : Trace
}.

Definition M (A : Type) : Type := Sys -> option A * Sys.

Definition ret {A : Type} (a : A) : M A := fun s => (Some a, s).

Definition bind {A B : Type} (m : M A) (f : A -> M B) : M B :=
  fun s =>
    match m s with
    | (Some a, s') => f a s'
    | (None, s') => (None, s')
    end.

Declare Scope pk_scope.
Delimit Scope pk_scope with pk.

Notation "x <- m ;; k" := (bind m (fun x => k))
  (at level 61, m at next level, right associativity) : pk_scope.
Notation "' p <- m ;; k" := (bind m (fun x => let 'p := x in k))
  (at level 61, p pattern, m at next level, right associativity) : pk_scope.
Notation "m ;; k" := (bind m (fun _ => k))
  (at level 61, right associativity) : pk_scope.

Local Open Scope pk_scope.

(** the private data, as [client->priv] reads it *)
Definition get_priv : M PkClientPrivate := fun s => (Some (priv s), s).

(** an assignment to fields of [client->priv] *)
Definition modify (f : PkClientPrivate -> PkClientPrivate) : M unit :=
  fun s => (Some tt, mkSys (f (priv s)) (trace s)).

(** all that was done to the outside world so far *)
Definition history : M Trace := fun s => (Some (trace s), s).

Definition record (e : Ext) : M unit :=
  fun s => (Some tt, mkSys (priv s) (trace s ++ [e])).

(** the thread stays in the main loop *)
Definition park {A : Type} : M A := fun s => (None, s).

(** the client goes wrong, and the call does not return *)
Definition goes_wrong {A : Type} (how : Ext) : M A :=
  fun s => (None, mkSys (priv s) (trace s ++ [how])).

(** What a function with a [GError **error] parameter gives back: its
    [gboolean] and the error it leaves in [*error], which was [NULL] on
    entry.  A caller that passes no location gets the [gboolean] alone: no
    function reads or writes through a location that was not passed, but
    [pk_client_allocate_transaction_id]. *)
Definition Ret : Type := (bool * option GError)%type.

(** ** Local functions *)

(** [pk_client_error_set]: what [*error] holds afterwards.  An error that was
    already set is cleared first; [buffer], the text [g_vasprintf] made of
    the format and its arguments, is the message. *)
Definition pk_client_error_set (error : option GError) (code : Z)
    (buffer : string) : option GError :=
  Some (mkGError PK_CLIENT_ERROR code buffer).

(** [pk_client_error_fixup]: what [*error] holds afterwards. *)
Definition pk_client_error_fixup (error : option GError) : option GError :=
  match error with
  | Some e =>
      if GQuark_eqb (domain e) DBUS_GERROR
         && (code e =? DBUS_GERROR_REMOTE_EXCEPTION)
      then Some (mkGError (domain e) PK_CLIENT_ERROR_FAILED (message e))
      else Some e
  | None => None
  end.

(** [pk_client_error_print]: whether there was an error to print. *)
Definition pk_client_error_print (error : option GError) : bool :=
  match error with
  | Some _ => true
  | None => false
  end.

(** [g_signal_emit (client, signals [...], 0, ...)]: the observers are told;
    they do not call back into the client. *)
Definition g_signal_emit (signal : PkSignals) : M unit :=
  record (SignalEmit signal).

(** [g_main_loop_quit (client->priv->loop)] *)
Definition g_main_loop_quit : M unit :=
  modify (with_loop (mkLoop false)).

Section Client.

Variable E : Env.

(** [pk_polkit_client_error_denied_by_policy (error_pk)]; an error that is
    not set was not denied. *)
Definition denied_by_policy (error_pk : option GError) : bool :=
  match error_pk with
  | Some e => pk_polkit_client_error_denied_by_policy E e
  | None => false
  end.

(** [pk_polkit_client_gain_privilege_str (client->priv->polkit, error_str)] *)
Definition gain_privilege_str (error_str : string) : M bool :=
  h <- history ;;
  record (PolkitGainPrivilege error_str) ;;
  ret (pk_polkit_client_gain_privilege_str E h error_str).

(** [dbus_g_proxy_call (proxy, method, &error, args..., G_TYPE_INVALID,
    G_TYPE_INVALID)]: the error it sets, [None] when it returns [TRUE]. *)
Definition dbus_g_proxy_call (p : DBusGProxy) (method : string)
    (args : list GValue) : M (option GError) :=
  h <- history ;;
  record (ProxyCall (proxy_path p) method args) ;;
  ret (dbus_reply E h (proxy_path p) method args).

(** [pk_client_get_tid] *)
Definition pk_client_get_tid : M (option string) :=
  c <- get_priv ;;
  ret (tid c).

(** [pk_client_set_use_buffer] *)
Definition pk_client_set_use_buffer (use_buffer' : bool) : M Ret :=
  c <- get_priv ;;
  (* are we doing this without any need? *)
  if use_buffer c then
    ret (false, pk_client_error_set None PK_CLIENT_ERROR_FAILED
                  "already set use_buffer!")
  else
    modify (with_use_buffer use_buffer') ;;
    ret (true, None).

(** [pk_client_set_synchronous] *)
Definition pk_client_set_synchronous (synchronous' : bool) : M Ret :=
  c <- get_priv ;;
  (* are we doing this without any need? *)
  if synchronous c then
    ret (false, pk_client_error_set None PK_CLIENT_ERROR_FAILED
                  "already set synchronous!")
  else
    modify (with_synchronous synchronous') ;;
    ret (true, None).

(** [pk_client_get_use_buffer] *)
Definition pk_client_get_use_buffer : M bool :=
  c <- get_priv ;;
  ret (use_buffer c).

(** [pk_client_get_require_restart] *)
Definition pk_client_get_require_restart : M PkRestartEnum :=
  c <- get_priv ;;
  ret (require_restart c).

(** [pk_client_get_package_list]: [None] is the [NULL] it returns. *)
Definition pk_client_get_package_list : M (option PkPackageList) :=
  c <- get_priv ;;
  if negb (use_buffer c) then ret None
  else ret (Some (package_list c)).

(** ** The callbacks of the bus signals *)

(** [pk_client_finished_cb] *)
Definition pk_client_finished_cb (exit_text : string) (runtime : Z) : M unit :=
  let exit := pk_exit_enum_from_text E exit_text in
  (* only this instance is finished, and do it before the signal so we can reset *)
  modify (with_is_finished true) ;;
  g_signal_emit (PK_CLIENT_FINISHED exit runtime) ;;
  (* exit our private loop *)
  c <- get_priv ;;
  if synchronous c then g_main_loop_quit else ret tt.

(** [pk_client_progress_changed_cb] *)
Definition pk_client_progress_changed_cb
    (percentage subpercentage elapsed remaining : Z) : M unit :=
  g_signal_emit (PK_CLIENT_PROGRESS_CHANGED percentage subpercentage elapsed remaining).

(** [pk_client_change_status] *)
Definition pk_client_change_status (status : PkStatusEnum) : M unit :=
  g_signal_emit (PK_CLIENT_STATUS_CHANGED status) ;;
  modify (with_last_status status).

(** [pk_client_status_changed_cb] *)
Definition pk_client_status_changed_cb (status_text : string) : M unit :=
  let status := pk_status_enum_from_text E status_text in
  pk_client_change_status status.

(** [pk_client_package_cb] *)
Definition pk_client_package_cb (info_text package_id summary : string) : M unit :=
  let info := pk_info_enum_from_text E info_text in
  g_signal_emit (PK_CLIENT_PACKAGE info package_id summary) ;;
  (* cache *)
  c <- get_priv ;;
  if use_buffer c || synchronous c then
    modify (fun c => with_package_list
                       (pk_package_list_add (package_list c) info package_id summary) c)
  else ret tt.

(** [pk_client_transaction_cb] *)
Definition pk_client_transaction_cb (old_tid timespec : string) (succeeded : bool)
    (role_text : string) (duration : Z) (data : string) : M unit :=
  let role := pk_role_enum_from_text E role_text in
  g_signal_emit (PK_CLIENT_TRANSACTION old_tid timespec succeeded role duration data).

(** [pk_client_update_detail_cb] *)
Definition pk_client_update_detail_cb (package_id updates obsoletes vendor_url
    bugzilla_url cve_url restart_text update_text : string) : M unit :=
  let restart := pk_restart_enum_from_text E restart_text in
  g_signal_emit (PK_CLIENT_UPDATE_DETAIL package_id updates obsoletes vendor_url
                   bugzilla_url cve_url restart update_text).

(** [pk_client_details_cb] *)
Definition pk_client_details_cb (package_id license group_text description
    url : string) (size : Z) : M unit :=
  let group := pk_group_enum_from_text E group_text in
  g_signal_emit (PK_CLIENT_DETAILS package_id license group description url size).

(** [pk_client_files_cb] *)
Definition pk_client_files_cb (package_id filelist : string) : M unit :=
  g_signal_emit (PK_CLIENT_FILES package_id filelist).

(** [pk_client_repo_signature_required_cb] *)
Definition pk_client_repo_signature_required_cb (package_id repository_name
    key_url key_userid key_id key_fingerprint key_timestamp : string)
    (type_text : GCharPointer) : M unit :=
  (* type_text is passed as it is, a pointer where a guint is expected *)
  g_signal_emit (PK_CLIENT_REPO_SIGNATURE_REQUIRED package_id repository_name
                   key_url key_userid key_id key_fingerprint key_timestamp
                   (guint_from_pointer (pointer_address type_text))).

(** [pk_client_eula_required_cb] *)
Definition pk_client_eula_required_cb (eula_id package_id vendor_name
    license_agreement : string) : M unit :=
  g_signal_emit (PK_CLIENT_EULA_REQUIRED eula_id package_id vendor_name
                   license_agreement).

(** [pk_client_repo_detail_cb] *)
Definition pk_client_repo_detail_cb (repo_id description : string)
    (enabled : bool) : M unit :=
  g_signal_emit (PK_CLIENT_REPO_DETAIL repo_id description enabled).

(** [pk_client_error_code_cb] *)
Definition pk_client_error_code_cb (code_text details : string) : M unit :=
  let code := pk_error_enum_from_text E code_text in
  g_signal_emit (PK_CLIENT_ERROR_CODE code details).

(** [pk_client_allow_cancel_cb] *)
Definition pk_client_allow_cancel_cb (allow_cancel : bool) : M unit :=
  g_signal_emit (PK_CLIENT_ALLOW_CANCEL allow_cancel).

(** [pk_client_caller_active_changed_cb] *)
Definition pk_client_caller_active_changed_cb (is_active : bool) : M unit :=
  g_signal_emit (PK_CLIENT_CALLER_ACTIVE_CHANGED is_active).

(** [pk_client_require_restart_cb] *)
Definition pk_client_require_restart_cb (restart_text details : string) : M unit :=
  let restart := pk_restart_enum_from_text E restart_text in
  g_signal_emit (PK_CLIENT_REQUIRE_RESTART restart details) ;;
  c <- get_priv ;;
  if restart >? require_restart c then
    modify (with_require_restart restart)
  else ret tt.

(** [pk_client_message_cb] *)
Definition pk_client_message_cb (message_text details : string) : M unit :=
  let message := pk_message_enum_from_text E message_text in
  g_signal_emit (PK_CLIENT_MESSAGE message details).

(** The callback [pk_client_set_tid] connects to each member. *)
Definition callback (ev : BusSignal) : M unit :=
  match ev with
  | Finished exit_text runtime => pk_client_finished_cb exit_text runtime
  | ProgressChanged p sp e r => pk_client_progress_changed_cb p sp e r
  | StatusChanged status_text => pk_client_status_changed_cb status_text
  | Package info_text package_id summary =>
      pk_client_package_cb info_text package_id summary
  | Transaction old_tid timespec succeeded role_text duration data =>
      pk_client_transaction_cb old_tid timespec succeeded role_text duration data
  | UpdateDetail package_id updates obsoletes vendor_url bugzilla_url cve_url
                 restart_text update_text =>
      pk_client_update_detail_cb package_id updates obsoletes vendor_url
        bugzilla_url cve_url restart_text update_text
  | Details package_id license group_text description url size =>
      pk_client_details_cb package_id license group_text description url size
  | Files package_id filelist => pk_client_files_cb package_id filelist
  | RepoSignatureRequired package_id repository_name key_url key_userid key_id
                          key_fingerprint key_timestamp type_text =>
      pk_client_repo_signature_required_cb package_id repository_name key_url
        key_userid key_id key_fingerprint key_timestamp type_text
  | EulaRequired eula_id package_id vendor_name license_agreement =>
      pk_client_eula_required_cb eula_id package_id vendor_name license_agreement
  | RepoDetail repo_id description enabled =>
      pk_client_repo_detail_cb repo_id description enabled
  | ErrorCode code_text details => pk_client_error_code_cb code_text details
  | RequireRestart restart_text details =>
      pk_client_require_restart_cb restart_text details
  | Message message_text details => pk_client_message_cb message_text details
  | CallerActiveChanged is_active => pk_client_caller_active_changed_cb is_active
  | AllowCancel allow_cancel => pk_client_allow_cancel_cb allow_cancel
  end.

(** A signal of the bound transaction arrives: the proxy runs the callback
    connected to its member, if there is a proxy and a callback. *)
Definition proxy_signal (ev : BusSignal) : M unit :=
  c <- get_priv ;;
  match proxy c with
  | Some p =>
      if existsb (String.eqb (signal_name ev)) (proxy_connected p)
      then callback ev
      else ret tt
  | None => ret tt
  end.

(** The iterations of [g_main_loop_run]: one signal is dispatched at a time,
    and the loop is left once [g_main_loop_quit] was called.  A loop that has
    no signal left and was not quit is never left. *)
Fixpoint g_main_loop_iterate (pending : list BusSignal) : M unit :=
  match pending with
  | [] => park
  | ev :: pending' =>
      proxy_signal ev ;;
      c <- get_priv ;;
      if is_running (loop c) then g_main_loop_iterate pending' else ret tt
  end.

(** [g_main_loop_run (client->priv->loop)] *)
Definition g_main_loop_run : M unit :=
  modify (with_loop (mkLoop true)) ;;
  h <- history ;;
  record MainLoopRun ;;
  g_main_loop_iterate (g_main_context_pending E h).

(** ** Cancelling, and binding a transaction id *)

Definition is_none {A : Type} (o : option A) : bool :=
  match o with
  | None => true
  | Some _ => false
  end.

(** [error->message] of an error that is set *)
Definition error_message (error : option GError) : string :=
  match error with
  | Some e => message e
  | None => ""
  end.

(** The queries give back, next to the [gboolean] and the error, what they
    wrote through their out parameters. *)

(** [pk_client_get_allow_cancel] *)
Definition pk_client_get_allow_cancel : M (Ret * option bool) :=
  c <- get_priv ;;
  if is_none (tid c) then ret ((false, None), None) else
  match proxy c with
  | None =>
      ret ((false, pk_client_error_set None PK_CLIENT_ERROR_NO_TID
                     "No proxy for transaction"), None)
  | Some p =>
      h <- history ;;
      error <- dbus_g_proxy_call p "GetAllowCancel" [] ;;
      ret ((is_none error, pk_client_error_fixup error),
           if is_none error then Some (reply_allow_cancel E h) else None)
  end.

(** [pk_client_get_status] *)
Definition pk_client_get_status : M (Ret * option PkStatusEnum) :=
  c <- get_priv ;;
  if is_none (tid c) then ret ((false, None), None) else
  match proxy c with
  | None =>
      ret ((false, pk_client_error_set None PK_CLIENT_ERROR_NO_TID
                     "No proxy for transaction"), None)
  | Some p =>
      h <- history ;;
      error <- dbus_g_proxy_call p "GetStatus" [] ;;
      ret ((is_none error, pk_client_error_fixup error),
           if is_none error
           then Some (pk_status_enum_from_text E (reply_status E h))
           else None)
  end.

(** [pk_client_get_package] *)
Definition pk_client_get_package : M (Ret * option string) :=
  c <- get_priv ;;
  if is_none (tid c) then ret ((false, None), None) else
  match proxy c with
  | None =>
      ret ((false, pk_client_error_set None PK_CLIENT_ERROR_NO_TID
                     "No proxy for transaction"), None)
  | Some p =>
      h <- history ;;
      error <- dbus_g_proxy_call p "GetPackage" [] ;;
      ret ((is_none error, pk_client_error_fixup error),
           if is_none error then Some (reply_package E h) else None)
  end.

(** [pk_client_get_progress] *)
Definition pk_client_get_progress : M (Ret * option (Z * Z * Z * Z)) :=
  c <- get_priv ;;
  if is_none (tid c) then ret ((false, None), None) else
  match proxy c with
  | None =>
      ret ((false, pk_client_error_set None PK_CLIENT_ERROR_NO_TID
                     "No proxy for transaction"), None)
  | Some p =>
      h <- history ;;
      error <- dbus_g_proxy_call p "GetProgress" [] ;;
      ret ((is_none error, pk_client_error_fixup error),
           if is_none error then Some (reply_progress E h) else None)
  end.

(** [pk_client_get_role]; [want_package_id] is [package_id != NULL], and the
    package id is given back only then. *)
Definition pk_client_get_role (want_package_id : bool)
    : M (Ret * option (PkRoleEnum * option string)) :=
  c <- get_priv ;;
  match proxy c with
  | None =>
      ret ((false, pk_client_error_set None PK_CLIENT_ERROR_NO_TID
                     "No proxy for transaction"), None)
  | Some p =>
      (* we can avoid a trip to the daemon *)
      if negb want_package_id && negb (PkRoleEnum_eqb (role c) PK_ROLE_ENUM_UNKNOWN)
      then ret ((true, None), Some (role c, None))
      else
        h <- history ;;
        error <- dbus_g_proxy_call p "GetRole" [] ;;
        ret ((is_none error, pk_client_error_fixup error),
             if is_none error
             then Some (pk_role_enum_from_text E (fst (reply_role E h)),
                        if want_package_id then Some (snd (reply_role E h)) else None)
             else None)
  end.

(** [pk_client_is_caller_active] *)
Definition pk_client_is_caller_active : M (Ret * option bool) :=
  c <- get_priv ;;
  match proxy c with
  | None =>
      ret ((false, pk_client_error_set None PK_CLIENT_ERROR_NO_TID
                     "No proxy for transaction"), None)
  | Some p =>
      h <- history ;;
      error <- dbus_g_proxy_call p "IsCallerActive" [] ;;
      ret ((is_none error, pk_client_error_fixup error),
           if is_none error then Some (reply_caller_active E h) else None)
  end.

(** [pk_client_cancel] *)
Definition pk_client_cancel : M Ret :=
  c <- get_priv ;;
  match proxy c with
  | None =>
      (* we don't need to cancel, so return TRUE *)
      ret (true, None)
  | Some p =>
      error_local <- dbus_g_proxy_call p "Cancel" [] ;;
      match error_local with
      | None =>
          (* no error to process *)
          ret (true, None)
      | Some e =>
          (* special case - if the tid is already finished, then cancel should
             return TRUE as it's what we wanted *)
          if pk_strequal (Some (message e)) (Some "cancelling a non-running transaction")
             || g_str_has_suffix (message e) (String.append " doesn't exist" (String "010" ""))
          then ret (true, None)
          else
            (* if we got an error we don't recognise, just fix it up and copy it *)
            ret (false, pk_client_error_fixup (Some e))
      end
  end.

(** The members [pk_client_set_tid] connects a callback to, in its order. *)
Definition connected_signals : list string :=
  ["Finished"; "ProgressChanged"; "StatusChanged"; "Package"; "Transaction";
   "UpdateDetail"; "Details"; "Files"; "RepoSignatureRequired"; "EulaRequired";
   "RepoDetail"; "ErrorCode"; "RequireRestart"; "Message";
   "CallerActiveChanged"; "AllowCancel"].

(** [pk_client_set_tid] *)
Definition pk_client_set_tid (tid' : string) : M Ret :=
  c <- get_priv ;;
  match tid c with
  | Some _ =>
      ret (false, pk_client_error_set None PK_CLIENT_ERROR_ALREADY_TID
                    "cannot set the tid on an already set client")
  | None =>
      (* get a connection *)
      h <- history ;;
      record (ProxyNewForName tid') ;;
      if negb (dbus_g_proxy_new_for_name E h tid') then
        ret (false, pk_client_error_set None PK_CLIENT_ERROR_ALREADY_TID
                      (String.append "Cannot connect to PackageKit tid " tid'))
      else
        modify (with_tid (Some tid')) ;;
        modify (with_proxy (Some (mkProxy tid' connected_signals))) ;;
        ret (true, None)
  end.

(** [pk_client_allocate_transaction_id].  Its two warnings read the message
    of [*error]: where the caller passed no error location, a failed
    allocation ends in the read through [NULL]. *)
Definition pk_client_allocate_transaction_id : M Ret :=
  (* get and set a new ID *)
  h <- history ;;
  record ControlAllocateTid ;;
  match pk_control_allocate_transaction_id E h with
  | inl error =>
      (* pk_warning "failed to get a TID" with the message of *error *)
      if error_location E h then ret (false, Some error)
      else goes_wrong NullDereference
  | inr tid' =>
      '(r, error) <- pk_client_set_tid tid' ;;
      if negb r then
        (* pk_warning "failed to set TID" with the message of *error *)
        if error_location E h then ret (false, error)
        else goes_wrong NullDereference
      else ret (true, error)
  end.

(** ** The action methods *)

(** The block every action ends with once the method call returned [ret]:
    [if (ret && !client->priv->is_finished)], tell the observers the client
    now waits and, in synchronous mode, spin until finished. *)
Definition wait_for_finished (r : bool) : M unit :=
  c <- get_priv ;;
  if r && negb (is_finished c) then
    (* allow clients to respond in the status changed callback *)
    pk_client_change_status PK_STATUS_ENUM_WAIT ;;
    (* spin until finished *)
    c <- get_priv ;;
    if synchronous c then g_main_loop_run else ret tt
  else ret tt.

(** The end of the actions that call the method themselves: from "check to
    see if we have a valid proxy" to [return ret]; [error] is what [*error]
    holds on the way in. *)
Definition call_and_wait (error : option GError) (method : string)
    (args : list GValue) : M Ret :=
  c <- get_priv ;;
  match proxy c with
  | None =>
      ret (false, pk_client_error_set error PK_CLIENT_ERROR_NO_TID
                    "No proxy for transaction")
  | Some p =>
      error <- dbus_g_proxy_call p method args ;;
      wait_for_finished (is_none error) ;;
      ret (is_none error, pk_client_error_fixup error)
  end.

(** The body the [_action] functions share: check the proxy, call. *)
Definition call_action (method : string) (args : list GValue) : M Ret :=
  c <- get_priv ;;
  match proxy c with
  | None =>
      ret (false, pk_client_error_set None PK_CLIENT_ERROR_NO_TID
                    "No proxy for transaction")
  | Some p =>
      error <- dbus_g_proxy_call p method args ;;
      ret (is_none error, error)
  end.

(** The block "hopefully do the operation first time ... we were refused by
    policy ... retry the action now we have got auth", as it stands in
    remove_packages, refresh_cache, install_packages, install_signature,
    update_packages, install_files, accept_eula, repo_enable and
    repo_set_data: [ret] and [error_pk] after it. *)
Definition retry_with_privilege (action : M Ret) : M Ret :=
  (* hopefully do the operation first time *)
  '(r, error_pk) <- action ;;
  (* we were refused by policy *)
  if negb r && denied_by_policy error_pk then
    (* try to get auth *)
    gained <- gain_privilege_str (error_message error_pk) ;;
    if gained then
      (* clear old error; retry the action now we have got auth *)
      action
    else ret (r, error_pk)
  else ret (r, error_pk).

(** The end of those nine: "we failed one of these, return the error to the
    user" with the fix-up, then the wait. *)
Definition propagate_and_wait (r : bool) (error_pk : option GError) : M Ret :=
  let error := if negb r then pk_client_error_fixup error_pk else None in
  wait_for_finished r ;;
  ret (r, error).

Definition filter_arg (filters : PkFilterEnum) : GValue :=
  G_TYPE_STRING (Some (pk_filter_enums_to_text E filters)).

(** [pk_client_get_updates] *)
Definition pk_client_get_updates (filters : PkFilterEnum) : M Ret :=
  (* get and set a new ID *)
  '(r, error) <- pk_client_allocate_transaction_id ;;
  if negb r then ret (false, error) else
  (* save this so we can re-issue it *)
  modify (fun c => with_cached_filters filters
                     (with_role PK_ROLE_ENUM_GET_UPDATES c)) ;;
  call_and_wait error "GetUpdates" [filter_arg filters].

(** [pk_client_update_system_action] *)
Definition pk_client_update_system_action : M Ret :=
  call_action "UpdateSystem" [].

(** [pk_client_update_system] *)
Definition pk_client_update_system : M Ret :=
  (* get and set a new ID *)
  '(r, error) <- pk_client_allocate_transaction_id ;;
  if negb r then ret (false, error) else
  (* save this so we can re-issue it *)
  modify (with_role PK_ROLE_ENUM_UPDATE_SYSTEM) ;;
  let finish (r : bool) (error_pk : option GError) : M Ret :=
    (* we failed one of these, return the error to the user *)
    let error := if negb r then error_pk else error in
    wait_for_finished r ;;
    ret (r, error) in
  (* hopefully do the operation first time *)
  '(r, error_pk) <- pk_client_update_system_action ;;
  (* we were refused by policy *)
  if negb r && denied_by_policy error_pk then
    (* try to get auth *)
    gained <- gain_privilege_str (error_message error_pk) ;;
    '(r, error_pk) <- (if gained
                       then (* retry the action now we have got auth *)
                            pk_client_update_system_action
                       else ret (r, error_pk)) ;;
    if denied_by_policy error_pk then
      (* we failed to get an auth: the message of the refusal is passed as
         the format of pk_client_error_set, with no argument behind it *)
      match g_vasprintf_no_args (error_message error_pk) with
      | Some buffer =>
          ret (false, pk_client_error_set error PK_CLIENT_ERROR_FAILED_AUTH buffer)
      | None => goes_wrong (FormatWithoutArgument (error_message error_pk))
      end
    else finish r error_pk
  else finish r error_pk.

(** The four searches differ in the role and in the method. *)
Definition pk_client_search (role' : PkRoleEnum) (method : string)
    (filters : PkFilterEnum) (search : option string) : M Ret :=
  (* get and set a new ID *)
  '(r, error) <- pk_client_allocate_transaction_id ;;
  if negb r then ret (false, error) else
  (* save this so we can re-issue it *)
  modify (fun c => with_cached_search search
                     (with_cached_filters filters (with_role role' c))) ;;
  call_and_wait error method [filter_arg filters; G_TYPE_STRING search].

(** [pk_client_search_name] *)
Definition pk_client_search_name : PkFilterEnum -> option string -> M Ret :=
  pk_client_search PK_ROLE_ENUM_SEARCH_NAME "SearchName".

(** [pk_client_search_details] *)
Definition pk_client_search_details : PkFilterEnum -> option string -> M Ret :=
  pk_client_search PK_ROLE_ENUM_SEARCH_DETAILS "SearchDetails".

(** [pk_client_search_group] *)
Definition pk_client_search_group : PkFilterEnum -> option string -> M Ret :=
  pk_client_search PK_ROLE_ENUM_SEARCH_GROUP "SearchGroup".

(** [pk_client_search_file] *)
Definition pk_client_search_file : PkFilterEnum -> option string -> M Ret :=
  pk_client_search PK_ROLE_ENUM_SEARCH_FILE "SearchFile".

(** The text of the error for one invalid package id, and for several. *)
Definition package_id_not_valid (package_id : string) : string :=
  String.append "package_id '" (String.append package_id "' is not valid").

Definition package_ids_not_valid (package_ids : list string) : string :=
  String.append "package_ids '"
    (String.append (pk_package_ids_to_text package_ids ", ") "' are not valid").

(** [pk_client_get_depends] *)
Definition pk_client_get_depends (filters : PkFilterEnum)
    (package_id : option string) (recursive : bool) : M Ret :=
  match package_id with
  | None => ret (false, None)
  | Some id =>
      (* check the PackageID here to avoid a round trip if invalid *)
      if negb (pk_package_id_check E id) then
        ret (false, pk_client_error_set None PK_CLIENT_ERROR_INVALID_PACKAGEID
                      (package_id_not_valid id))
      else
        (* get and set a new ID *)
        '(r, error) <- pk_client_allocate_transaction_id ;;
        if negb r then ret (false, error) else
        (* save this so we can re-issue it *)
        modify (fun c => with_cached_force recursive
                           (with_cached_package_id (Some id)
                              (with_cached_filters filters
                                 (with_role PK_ROLE_ENUM_GET_DEPENDS c)))) ;;
        call_and_wait error "GetDepends"
          [filter_arg filters; G_TYPE_STRING (Some id); G_TYPE_BOOLEAN recursive]
  end.

(** [pk_client_get_packages] *)
Definition pk_client_get_packages (filters : PkFilterEnum) : M Ret :=
  (* get and set a new ID *)
  '(r, error) <- pk_client_allocate_transaction_id ;;
  if negb r then ret (false, error) else
  (* save this so we can re-issue it *)
  modify (fun c => with_cached_filters filters
                     (with_role PK_ROLE_ENUM_GET_PACKAGES c)) ;;
  call_and_wait error "GetPackages" [filter_arg filters].

(** [pk_client_get_requires] *)
Definition pk_client_get_requires (filters : PkFilterEnum)
    (package_id : option string) (recursive : bool) : M Ret :=
  match package_id with
  | None => ret (false, None)
  | Some id =>
      (* check the PackageID here to avoid a round trip if invalid *)
      if negb (pk_package_id_check E id) then
        ret (false, pk_client_error_set None PK_CLIENT_ERROR_INVALID_PACKAGEID
                      (package_id_not_valid id))
      else
        (* get and set a new ID *)
        '(r, error) <- pk_client_allocate_transaction_id ;;
        if negb r then ret (false, error) else
        (* save this so we can re-issue it *)
        modify (fun c => with_cached_force recursive
                           (with_cached_package_id (Some id)
                              (with_cached_filters filters
                                 (with_role PK_ROLE_ENUM_GET_REQUIRES c)))) ;;
        call_and_wait error "GetRequires"
          [filter_arg filters; G_TYPE_STRING (Some id); G_TYPE_BOOLEAN recursive]
  end.

(** [pk_client_what_provides] *)
Definition pk_client_what_provides (filters : PkFilterEnum)
    (provides : PkProvidesEnum) (search : option string) : M Ret :=
  match provides, search with
  | PK_PROVIDES_ENUM_UNKNOWN, _ => ret (false, None)
  | _, None => ret (false, None)
  | _, Some text =>
      (* get and set a new ID *)
      '(r, error) <- pk_client_allocate_transaction_id ;;
      if negb r then ret (false, error) else
      (* save this so we can re-issue it *)
      modify (fun c => with_cached_provides provides
                         (with_cached_filters filters
                            (with_cached_search (Some text)
                               (with_role PK_ROLE_ENUM_WHAT_PROVIDES c)))) ;;
      call_and_wait error "WhatProvides"
        [filter_arg filters;
         G_TYPE_STRING (Some (pk_provides_enum_to_text E provides));
         G_TYPE_STRING (Some text)]
  end.

(** [pk_client_get_update_detail] *)
Definition pk_client_get_update_detail (package_id : option string) : M Ret :=
  match package_id with
  | None => ret (false, None)
  | Some id =>
      (* check the PackageID here to avoid a round trip if invalid *)
      if negb (pk_package_id_check E id) then
        ret (false, pk_client_error_set None PK_CLIENT_ERROR_INVALID_PACKAGEID
                      (package_id_not_valid id))
      else
        (* get and set a new ID *)
        '(r, error) <- pk_client_allocate_transaction_id ;;
        if negb r then ret (false, error) else
        (* save this so we can re-issue it *)
        modify (fun c => with_cached_package_id (Some id)
                           (with_role PK_ROLE_ENUM_GET_UPDATE_DETAIL c)) ;;
        call_and_wait error "GetUpdateDetail" [G_TYPE_STRING (Some id)]
  end.

(** [pk_client_rollback] *)
Definition pk_client_rollback (transaction_id : option string) : M Ret :=
  (* get and set a new ID *)
  '(r, error) <- pk_client_allocate_transaction_id ;;
  if negb r then ret (false, error) else
  (* save this so we can re-issue it *)
  modify (fun c => with_cached_transaction_id transaction_id
                     (with_role PK_ROLE_ENUM_ROLLBACK c)) ;;
  call_and_wait error "Rollback" [G_TYPE_STRING transaction_id].

(** [pk_client_resolve] *)
Definition pk_client_resolve (filters : PkFilterEnum)
    (package : option string) : M Ret :=
  match package with
  | None => ret (false, None)
  | Some name =>
      (* get and set a new ID *)
      '(r, error) <- pk_client_allocate_transaction_id ;;
      if negb r then ret (false, error) else
      (* save this so we can re-issue it *)
      modify (fun c => with_cached_package_id (Some name)
                         (with_cached_filters filters
                            (with_role PK_ROLE_ENUM_RESOLVE c))) ;;
      call_and_wait error "Resolve" [filter_arg filters; G_TYPE_STRING (Some name)]
  end.

(** [pk_client_get_details] *)
Definition pk_client_get_details (package_id : option string) : M Ret :=
  match package_id with
  | None => ret (false, None)
  | Some id =>
      (* check the PackageID here to avoid a round trip if invalid *)
      if negb (pk_package_id_check E id) then
        ret (false, pk_client_error_set None PK_CLIENT_ERROR_INVALID_PACKAGEID
                      (package_id_not_valid id))
      else
        (* get and set a new ID *)
        '(r, error) <- pk_client_allocate_transaction_id ;;
        if negb r then ret (false, error) else
        (* save this so we can re-issue it *)
        modify (fun c => with_cached_package_id (Some id)
                           (with_role PK_ROLE_ENUM_GET_DETAILS c)) ;;
        call_and_wait error "GetDetails" [G_TYPE_STRING (Some id)]
  end.

(** [pk_client_get_files] *)
Definition pk_client_get_files (package_id : option string) : M Ret :=
  match package_id with
  | None => ret (false, None)
  | Some id =>
      (* check the PackageID here to avoid a round trip if invalid *)
      if negb (pk_package_id_check E id) then
        ret (false, pk_client_error_set None PK_CLIENT_ERROR_INVALID_PACKAGEID
                      (package_id_not_valid id))
      else
        (* get and set a new ID *)
        '(r, error) <- pk_client_allocate_transaction_id ;;
        if negb r then ret (false, error) else
        (* save this so we can re-issue it *)
        modify (fun c => with_cached_package_id (Some id)
                           (with_role PK_ROLE_ENUM_GET_FILES c)) ;;
        call_and_wait error "GetFiles" [G_TYPE_STRING (Some id)]
  end.

(** [pk_client_remove_packages_action] *)
Definition pk_client_remove_packages_action (package_ids : list string)
    (allow_deps autoremove : bool) : M Ret :=
  call_action "RemovePackages"
    [G_TYPE_STRV package_ids; G_TYPE_BOOLEAN allow_deps; G_TYPE_BOOLEAN autoremove].

(** [pk_client_remove_packages] *)
Definition pk_client_remove_packages (package_ids : option (list string))
    (allow_deps autoremove : bool) : M Ret :=
  match package_ids with
  | None => ret (false, None)
  | Some ids =>
      (* check the PackageIDs here to avoid a round trip if invalid *)
      if negb (pk_package_ids_check E ids) then
        ret (false, pk_client_error_set None PK_CLIENT_ERROR_INVALID_PACKAGEID
                      (package_ids_not_valid ids))
      else
        (* get and set a new ID *)
        '(r, error) <- pk_client_allocate_transaction_id ;;
        if negb r then ret (false, error) else
        (* save this so we can re-issue it *)
        modify (fun c => with_cached_package_ids (Some ids)
                           (with_cached_autoremove autoremove
                              (with_cached_allow_deps allow_deps
                                 (with_role PK_ROLE_ENUM_REMOVE_PACKAGES c)))) ;;
        '(r, error_pk) <- retry_with_privilege
                            (pk_client_remove_packages_action ids allow_deps autoremove) ;;
        propagate_and_wait r error_pk
  end.

(** [pk_client_refresh_cache_action] *)
Definition pk_client_refresh_cache_action (force : bool) : M Ret :=
  call_action "RefreshCache" [G_TYPE_BOOLEAN force].

(** [pk_client_refresh_cache] *)
Definition pk_client_refresh_cache (force : bool) : M Ret :=
  (* get and set a new ID *)
  '(r, error) <- pk_client_allocate_transaction_id ;;
  if negb r then ret (false, error) else
  (* save this so we can re-issue it *)
  modify (fun c => with_cached_force force
                     (with_role PK_ROLE_ENUM_REFRESH_CACHE c)) ;;
  '(r, error_pk) <- retry_with_privilege (pk_client_refresh_cache_action force) ;;
  propagate_and_wait r error_pk.

(** [pk_client_install_package_action] *)
Definition pk_client_install_package_action (package_ids : list string) : M Ret :=
  call_action "InstallPackages" [G_TYPE_STRV package_ids].

(** [pk_client_install_packages] *)
Definition pk_client_install_packages (package_ids : option (list string)) : M Ret :=
  match package_ids with
  | None => ret (false, None)
  | Some ids =>
      (* check the PackageIDs here to avoid a round trip if invalid *)
      if negb (pk_package_ids_check E ids) then
        ret (false, pk_client_error_set None PK_CLIENT_ERROR_INVALID_PACKAGEID
                      (package_ids_not_valid ids))
      else
        (* get and set a new ID *)
        '(r, error) <- pk_client_allocate_transaction_id ;;
        if negb r then ret (false, error) else
        (* save this so we can re-issue it *)
        modify (fun c => with_cached_package_ids (Some ids)
                           (with_role PK_ROLE_ENUM_INSTALL_PACKAGES c)) ;;
        '(r, error_pk) <- retry_with_privilege (pk_client_install_package_action ids) ;;
        propagate_and_wait r error_pk
  end.

(** [pk_client_install_signature_action] *)
Definition pk_client_install_signature_action (type : PkSigTypeEnum)
    (key_id package_id : string) : M Ret :=
  call_action "InstallSignature"
    [G_TYPE_STRING (Some (pk_sig_type_enum_to_text E type));
     G_TYPE_STRING (Some key_id); G_TYPE_STRING (Some package_id)].

(** [pk_client_install_signature] *)
Definition pk_client_install_signature (type : PkSigTypeEnum)
    (key_id package_id : option string) : M Ret :=
  match type, key_id, package_id with
  | PK_SIGTYPE_ENUM_UNKNOWN, _, _ => ret (false, None)
  | _, None, _ => ret (false, None)
  | _, _, None => ret (false, None)
  | _, Some key, Some id =>
      (* check the PackageID here to avoid a round trip if invalid *)
      if negb (pk_package_id_check E id) then
        ret (false, pk_client_error_set None PK_CLIENT_ERROR_INVALID_PACKAGEID
                      (package_id_not_valid id))
      else
        (* get and set a new ID *)
        '(r, error) <- pk_client_allocate_transaction_id ;;
        if negb r then ret (false, error) else
        (* save this so we can re-issue it *)
        modify (fun c => with_cached_key_id (Some key)
                           (with_cached_package_id (Some id)
                              (with_role PK_ROLE_ENUM_INSTALL_SIGNATURE c))) ;;
        '(r, error_pk) <- retry_with_privilege
                            (pk_client_install_signature_action type key id) ;;
        propagate_and_wait r error_pk
  end.

(** [pk_client_update_packages_action] *)
Definition pk_client_update_packages_action (package_ids : list string) : M Ret :=
  call_action "UpdatePackages" [G_TYPE_STRV package_ids].

(** [pk_client_update_packages].  "only copy if we are not requeing": the
    cached vector holds the ids of the call either way. *)
Definition pk_client_update_packages (package_ids : option (list string)) : M Ret :=
  match package_ids with
  | None => ret (false, None)
  | Some ids =>
      (* check the PackageIDs here to avoid a round trip if invalid *)
      if negb (pk_package_ids_check E ids) then
        ret (false, pk_client_error_set None PK_CLIENT_ERROR_INVALID_PACKAGEID
                      (package_ids_not_valid ids))
      else
        (* get and set a new ID *)
        '(r, error) <- pk_client_allocate_transaction_id ;;
        if negb r then ret (false, error) else
        (* save this so we can re-issue it *)
        modify (fun c => with_cached_package_ids (Some ids)
                           (with_role PK_ROLE_ENUM_UPDATE_PACKAGES c)) ;;
        '(r, error_pk) <- retry_with_privilege (pk_client_update_packages_action ids) ;;
        propagate_and_wait r error_pk
  end.

(** [pk_client_update_package] *)
Definition pk_client_update_package (package_id : option string) : M Ret :=
  match package_id with
  | None => ret (false, None)
  | Some id => pk_client_update_packages (Some (g_strsplit_1 id))
  end.

(** [pk_client_install_package] *)
Definition pk_client_install_package (package_id : option string) : M Ret :=
  match package_id with
  | None => ret (false, None)
  | Some id => pk_client_install_packages (Some (g_strsplit_1 id))
  end.

(** [pk_client_remove_package] *)
Definition pk_client_remove_package (package_id : option string)
    (allow_deps autoremove : bool) : M Ret :=
  match package_id with
  | None => ret (false, None)
  | Some id => pk_client_remove_packages (Some (g_strsplit_1 id)) allow_deps autoremove
  end.

(** [pk_client_install_files_action] *)
Definition pk_client_install_files_action (trusted : bool)
    (files : list string) : M Ret :=
  call_action "InstallFiles" [G_TYPE_BOOLEAN trusted; G_TYPE_STRV files].

(** [pk_resolve_local_path] *)
Definition pk_resolve_local_path (rel_path : option string) : option string :=
  match rel_path with
  | None => None
  | Some path => realpath E path
  end.

(** The loop of [pk_client_install_files] over one entry: the entry is
    replaced by its resolved path when the two differ, also by [NULL]. *)
Definition resolve_entry (entry : string) : option string :=
  let file := pk_resolve_local_path (Some entry) in
  (* only replace if different *)
  if negb (pk_strequal file (Some entry)) then file else Some entry.

(** [pk_client_install_files] *)
Definition pk_client_install_files (trusted : bool)
    (files_rel : option (list string)) : M Ret :=
  match files_rel with
  | None => ret (false, None)
  | Some rel =>
      (* get and set a new ID *)
      '(r, error) <- pk_client_allocate_transaction_id ;;
      if negb r then ret (false, error) else
      (* convert all the relative paths to absolute ones *)
      let files := strv_of (map resolve_entry rel) in
      (* save this so we can re-issue it *)
      modify (fun c => with_cached_full_paths (Some files)
                         (with_cached_trusted trusted
                            (with_role PK_ROLE_ENUM_INSTALL_FILES c))) ;;
      '(r, error_pk) <- retry_with_privilege
                          (pk_client_install_files_action trusted files) ;;
      propagate_and_wait r error_pk
  end.

(** [pk_client_install_file] *)
Definition pk_client_install_file (trusted : bool) (file_rel : option string) : M Ret :=
  match file_rel with
  | None => ret (false, None)
  | Some file => pk_client_install_files trusted (Some (g_strsplit_1 file))
  end.

(** [pk_client_get_repo_list] *)
Definition pk_client_get_repo_list (filters : PkFilterEnum) : M Ret :=
  (* get and set a new ID *)
  '(r, error) <- pk_client_allocate_transaction_id ;;
  if negb r then ret (false, error) else
  (* save this so we can re-issue it *)
  modify (fun c => with_cached_filters filters
                     (with_role PK_ROLE_ENUM_GET_REPO_LIST c)) ;;
  c <- get_priv ;;
  match proxy c with
  | None =>
      ret (false, pk_client_error_set error PK_CLIENT_ERROR_NO_TID
                    "No proxy for transaction")
  | Some p =>
      error <- dbus_g_proxy_call p "GetRepoList" [filter_arg filters] ;;
      let error' := pk_client_error_fixup error in
      wait_for_finished (is_none error) ;;
      ret (is_none error, error')
  end.

(** [pk_client_accept_eula_action] *)
Definition pk_client_accept_eula_action (eula_id : string) : M Ret :=
  call_action "AcceptEula" [G_TYPE_STRING (Some eula_id)].

(** [pk_client_accept_eula] *)
Definition pk_client_accept_eula (eula_id : option string) : M Ret :=
  match eula_id with
  | None => ret (false, None)
  | Some id =>
      (* get and set a new ID *)
      '(r, error) <- pk_client_allocate_transaction_id ;;
      if negb r then ret (false, error) else
      (* save this so we can re-issue it *)
      modify (with_role PK_ROLE_ENUM_ACCEPT_EULA) ;;
      '(r, error_pk) <- retry_with_privilege (pk_client_accept_eula_action id) ;;
      propagate_and_wait r error_pk
  end.

(** [pk_client_repo_enable_action] *)
Definition pk_client_repo_enable_action (repo_id : string) (enabled : bool) : M Ret :=
  call_action "RepoEnable" [G_TYPE_STRING (Some repo_id); G_TYPE_BOOLEAN enabled].

(** [pk_client_repo_enable] *)
Definition pk_client_repo_enable (repo_id : option string) (enabled : bool) : M Ret :=
  match repo_id with
  | None => ret (false, None)
  | Some id =>
      (* get and set a new ID *)
      '(r, error) <- pk_client_allocate_transaction_id ;;
      if negb r then ret (false, error) else
      (* save this so we can re-issue it *)
      modify (with_role PK_ROLE_ENUM_REPO_ENABLE) ;;
      '(r, error_pk) <- retry_with_privilege (pk_client_repo_enable_action id enabled) ;;
      propagate_and_wait r error_pk
  end.

(** [pk_client_repo_set_data_action] *)
Definition pk_client_repo_set_data_action (repo_id parameter value : string) : M Ret :=
  call_action "RepoSetData"
    [G_TYPE_STRING (Some repo_id); G_TYPE_STRING (Some parameter);
     G_TYPE_STRING (Some value)].

(** [pk_client_repo_set_data] *)
Definition pk_client_repo_set_data (repo_id parameter value : option string) : M Ret :=
  match repo_id, parameter, value with
  | Some id, Some par, Some val =>
      (* get and set a new ID *)
      '(r, error) <- pk_client_allocate_transaction_id ;;
      if negb r then ret (false, error) else
      (* save this so we can re-issue it *)
      modify (with_role PK_ROLE_ENUM_REPO_SET_DATA) ;;
      '(r, error_pk) <- retry_with_privilege
                          (pk_client_repo_set_data_action id par val) ;;
      propagate_and_wait r error_pk
  | _, _, _ => ret (false, None)
  end.

(** [pk_client_get_old_transactions] *)
Definition pk_client_get_old_transactions (number : Z) : M Ret :=
  (* get and set a new ID *)
  '(r, error) <- pk_client_allocate_transaction_id ;;
  if negb r then ret (false, error) else
  c <- get_priv ;;
  match proxy c with
  | None =>
      ret (false, pk_client_error_set error PK_CLIENT_ERROR_NO_TID
                    "No proxy for transaction")
  | Some p =>
      error <- dbus_g_proxy_call p "GetOldTransactions" [G_TYPE_UINT number] ;;
      let error' := pk_client_error_fixup error in
      c <- get_priv ;;
      (if is_none error && negb (is_finished c) then
         (* allow clients to respond in the status changed callback *)
         pk_client_change_status PK_STATUS_ENUM_WAIT
       else ret tt) ;;
      ret (is_none error, error')
  end.

(** ** Requeue, reset, construction *)

(** The fields [pk_client_requeue] clears "to allow us to requeue". *)
Definition requeue_fields (c : PkClientPrivate) : PkClientPrivate :=
  with_is_finished false
    (with_last_status PK_STATUS_ENUM_UNKNOWN
       (with_tid None c)).

(** [pk_client_requeue] *)
Definition pk_client_requeue : M Ret :=
  c <- get_priv ;;
  (* we are no longer waiting, we are setting up *)
  if PkRoleEnum_eqb (role c) PK_ROLE_ENUM_UNKNOWN then
    ret (false, pk_client_error_set None PK_CLIENT_ERROR_ROLE_UNKNOWN
                  "role unknown for reque")
  else
  (* are we still running? *)
  if negb (is_finished c) then
    ret (false, pk_client_error_set None PK_CLIENT_ERROR_FAILED
                  "not finished, so cannot requeue")
  else
  (* clear enough data of the client to allow us to requeue *)
  modify requeue_fields ;;
  (* clear package list *)
  modify (fun c => with_package_list (pk_package_list_clear (package_list c)) c) ;;
  (* do the correct action with the cached parameters *)
  p <- get_priv ;;
  let fixed_up (action : M Ret) : M Ret :=
    '(r, error) <- action ;;
    ret (r, pk_client_error_fixup error) in
  match role p with
  | PK_ROLE_ENUM_GET_DEPENDS =>
      fixed_up (pk_client_get_depends (cached_filters p) (cached_package_id p) (cached_force p))
  | PK_ROLE_ENUM_GET_UPDATE_DETAIL =>
      fixed_up (pk_client_get_update_detail (cached_package_id p))
  | PK_ROLE_ENUM_RESOLVE =>
      fixed_up (pk_client_resolve (cached_filters p) (cached_package_id p))
  | PK_ROLE_ENUM_ROLLBACK =>
      fixed_up (pk_client_rollback (cached_transaction_id p))
  | PK_ROLE_ENUM_GET_DETAILS =>
      fixed_up (pk_client_get_details (cached_package_id p))
  | PK_ROLE_ENUM_GET_FILES =>
      fixed_up (pk_client_get_files (cached_package_id p))
  | PK_ROLE_ENUM_GET_REQUIRES =>
      fixed_up (pk_client_get_requires (cached_filters p) (cached_package_id p) (cached_force p))
  | PK_ROLE_ENUM_GET_UPDATES =>
      fixed_up (pk_client_get_updates (cached_filters p))
  | PK_ROLE_ENUM_SEARCH_DETAILS =>
      fixed_up (pk_client_search_details (cached_filters p) (cached_search p))
  | PK_ROLE_ENUM_SEARCH_FILE =>
      fixed_up (pk_client_search_file (cached_filters p) (cached_search p))
  | PK_ROLE_ENUM_SEARCH_GROUP =>
      fixed_up (pk_client_search_group (cached_filters p) (cached_search p))
  | PK_ROLE_ENUM_SEARCH_NAME =>
      fixed_up (pk_client_search_name (cached_filters p) (cached_search p))
  | PK_ROLE_ENUM_INSTALL_PACKAGES =>
      fixed_up (pk_client_install_packages (cached_package_ids p))
  | PK_ROLE_ENUM_INSTALL_FILES =>
      fixed_up (pk_client_install_files (cached_trusted p) (cached_full_paths p))
  | PK_ROLE_ENUM_INSTALL_SIGNATURE =>
      fixed_up (pk_client_install_signature PK_SIGTYPE_ENUM_GPG (cached_key_id p) (cached_package_id p))
  | PK_ROLE_ENUM_REFRESH_CACHE =>
      fixed_up (pk_client_refresh_cache (cached_force p))
  | PK_ROLE_ENUM_REMOVE_PACKAGES =>
      fixed_up (pk_client_remove_packages (cached_package_ids p) (cached_allow_deps p) (cached_autoremove p))
  | PK_ROLE_ENUM_UPDATE_PACKAGES =>
      fixed_up (pk_client_update_packages (cached_package_ids p))
  | PK_ROLE_ENUM_UPDATE_SYSTEM =>
      fixed_up pk_client_update_system
  | PK_ROLE_ENUM_GET_REPO_LIST =>
      fixed_up (pk_client_get_repo_list (cached_filters p))
  | _ =>
      ret (false, pk_client_error_set None PK_CLIENT_ERROR_ROLE_UNKNOWN
                    "role unknown for reque")
  end.

(** The members [pk_client_disconnect_proxy] disconnects by name. *)
Definition disconnected_signals : list string :=
  ["Finished"; "ProgressChanged"; "StatusChanged"; "Package"; "Transaction";
   "Details"; "Files"; "RepoSignatureRequired"; "EulaRequired"; "ErrorCode";
   "RequireRestart"; "Message"; "CallerActiveChanged"; "AllowCancel"].

(** [pk_client_disconnect_proxy]: the callbacks are disconnected, the proxy
    is released and forgotten. *)
Definition pk_client_disconnect_proxy : M bool :=
  c <- get_priv ;;
  match proxy c with
  | None => ret false
  | Some p =>
      modify (with_proxy
                (Some (mkProxy (proxy_path p)
                         (filter (fun member =>
                                    negb (existsb (String.eqb member) disconnected_signals))
                                 (proxy_connected p))))) ;;
      modify (with_proxy None) ;;
      ret true
  end.

(** The fields [pk_client_reset] assigns after it disconnected the proxy. *)
Definition reset_fields (c : PkClientPrivate) : PkClientPrivate :=
  with_is_finished false
    (with_role PK_ROLE_ENUM_UNKNOWN
       (with_last_status PK_STATUS_ENUM_UNKNOWN
          (with_cached_filters PK_FILTER_ENUM_UNKNOWN
             (with_cached_package_ids None
                (with_cached_search None
                   (with_cached_full_paths None
                      (with_cached_full_path None
                         (with_cached_transaction_id None
                            (with_cached_key_id None
                               (with_cached_package_id None
                                  (with_tid None c))))))))))).

(** [pk_client_reset] *)
Definition pk_client_reset : M Ret :=
  c <- get_priv ;;
  '(r, error) <- (if negb (is_none (tid c)) && negb (is_finished c) then
                    (* we try to cancel the running tranaction *)
                    pk_client_cancel
                  else ret (true, None)) ;;
  if negb r then ret (false, error) else
  (* we need to do this now we have multiple paths *)
  pk_client_disconnect_proxy ;;
  modify reset_fields ;;
  modify (fun c => with_package_list (pk_package_list_clear (package_list c)) c) ;;
  ret (true, error).

(** [pk_client_finalize]: the loop of a synchronous client is told to quit,
    the callbacks are disconnected; the object is gone afterwards. *)
Definition pk_client_finalize : M unit :=
  c <- get_priv ;;
  (* clear the loop, if we were using it *)
  (if synchronous c then g_main_loop_quit else ret tt) ;;
  (* disconnect signal handlers *)
  pk_client_disconnect_proxy ;;
  ret tt.

End Client.

(** [pk_client_init]: the private data of a client that [pk_client_new]
    returns. *)
Definition pk_client_init : PkClientPrivate :=
  {| proxy := None;
     loop := mkLoop false;
     is_finished := false;
     use_buffer := false;
     synchronous := false;
     tid := None;
     package_list := [];
     require_restart := PK_RESTART_ENUM_NONE;
     last_status := PK_STATUS_ENUM_UNKNOWN;
     role := PK_ROLE_ENUM_UNKNOWN;
     cached_force := false;
     cached_allow_deps := false;
     cached_autoremove := false;
     cached_trusted := false;
     cached_package_id := None;
     cached_package_ids := None;
     cached_transaction_id := None;
     cached_key_id := None;
     cached_full_path := None;
     cached_full_paths := None;
     cached_search := None;
     cached_provides := PK_PROVIDES_ENUM_UNKNOWN;
     cached_filters := PK_FILTER_ENUM_UNKNOWN |}.

Definition pk_client_new : Sys := mkSys pk_client_init [].

Local Open Scope pk_scope.

(** ** The public calls as data

    One constructor per action method, with the arguments of the call; it is
    what a caller asks of a client, and what [pk_client_requeue] picks from. *)
Inductive Action : Type :=
| GetUpdates (filters : PkFilterEnum)
| UpdateSystem
| SearchName (filters : PkFilterEnum) (search : option string)
| SearchDetails (filters : PkFilterEnum) (search : option string)
| SearchGroup (filters : PkFilterEnum) (search : option string)
| SearchFile (filters : PkFilterEnum) (search : option string)
| GetDepends (filters : PkFilterEnum) (package_id : option string) (recursive : bool)
| GetPackages (filters : PkFilterEnum)
| GetRequires (filters : PkFilterEnum) (package_id : option string) (recursive : bool)
| WhatProvides (filters : PkFilterEnum) (provides : PkProvidesEnum) (search : option string)
| GetUpdateDetail (package_id : option string)
| Rollback (transaction_id : option string)
| Resolve (filters : PkFilterEnum) (package : option string)
| GetDetails (package_id : option string)
| GetFiles (package_id : option string)
| RemovePackages (package_ids : option (list string)) (allow_deps autoremove : bool)
| RefreshCache (force : bool)
| InstallPackages (package_ids : option (list string))
| InstallSignature (type : PkSigTypeEnum) (key_id package_id : option string)
| UpdatePackages (package_ids : option (list string))
| UpdatePackage (package_id : option string)
| InstallPackage (package_id : option string)
| RemovePackage (package_id : option string) (allow_deps autoremove : bool)
| InstallFiles (trusted : bool) (files_rel : option (list string))
| InstallFile (trusted : bool) (file_rel : option string)
| GetRepoList (filters : PkFilterEnum)
| AcceptEula (eula_id : option string)
| RepoEnable (repo_id : option string) (enabled : bool)
| RepoSetData (repo_id parameter value : option string)
| GetOldTransactions (number : Z).

Definition run_action (E : Env) (a : Action) : M Ret :=
  match a with
  | GetUpdates filters => pk_client_get_updates E filters
  | UpdateSystem => pk_client_update_system E
  | SearchName filters search => pk_client_search_name E filters search
  | SearchDetails filters search => pk_client_search_details E filters search
  | SearchGroup filters search => pk_client_search_group E filters search
  | SearchFile filters search => pk_client_search_file E filters search
  | GetDepends filters package_id recursive =>
      pk_client_get_depends E filters package_id recursive
  | GetPackages filters => pk_client_get_packages E filters
  | GetRequires filters package_id recursive =>
      pk_client_get_requires E filters package_id recursive
  | WhatProvides filters provides search =>
      pk_client_what_provides E filters provides search
  | GetUpdateDetail package_id => pk_client_get_update_detail E package_id
  | Rollback transaction_id => pk_client_rollback E transaction_id
  | Resolve filters package => pk_client_resolve E filters package
  | GetDetails package_id => pk_client_get_details E package_id
  | GetFiles package_id => pk_client_get_files E package_id
  | RemovePackages package_ids allow_deps autoremove =>
      pk_client_remove_packages E package_ids allow_deps autoremove
  | RefreshCache force => pk_client_refresh_cache E force
  | InstallPackages package_ids => pk_client_install_packages E package_ids
  | InstallSignature type key_id package_id =>
      pk_client_install_signature E type key_id package_id
  | UpdatePackages package_ids => pk_client_update_packages E package_ids
  | UpdatePackage package_id => pk_client_update_package E package_id
  | InstallPackage package_id => pk_client_install_package E package_id
  | RemovePackage package_id allow_deps autoremove =>
      pk_client_remove_package E package_id allow_deps autoremove
  | InstallFiles trusted files_rel => pk_client_install_files E trusted files_rel
  | InstallFile trusted file_rel => pk_client_install_file E trusted file_rel
  | GetRepoList filters => pk_client_get_repo_list E filters
  | AcceptEula eula_id => pk_client_accept_eula E eula_id
  | RepoEnable repo_id enabled => pk_client_repo_enable E repo_id enabled
  | RepoSetData repo_id parameter value =>
      pk_client_repo_set_data E repo_id parameter value
  | GetOldTransactions number => pk_client_get_old_transactions E number
  end.

(** What can happen to a client over its life: a call of its interface, or a
    signal of the bus arriving while no call is in progress. *)
Inductive Op : Type :=
| Call (a : Action)
| Cancel
| Reset
| Requeue
| SetTid (tid : string)
| SetUseBuffer (use_buffer : bool)
| SetSynchronous (synchronous : bool)
| GetAllowCancel
| GetStatus
| GetPackage
| GetProgress
| GetRole (want_package_id : bool)
| IsCallerActive
| Signal (ev : BusSignal).

Definition discard {A : Type} (m : M A) : M unit :=
  _ <- m ;; ret tt.

Definition run_op (E : Env) (op : Op) : M unit :=
  match op with
  | Call a => discard (run_action E a)
  | Cancel => discard (pk_client_cancel E)
  | Reset => discard (pk_client_reset E)
  | Requeue => discard (pk_client_requeue E)
  | SetTid tid => discard (pk_client_set_tid E tid)
  | SetUseBuffer b => discard (pk_client_set_use_buffer b)
  | SetSynchronous b => discard (pk_client_set_synchronous b)
  | GetAllowCancel => discard (pk_client_get_allow_cancel E)
  | GetStatus => discard (pk_client_get_status E)
  | GetPackage => discard (pk_client_get_package E)
  | GetProgress => discard (pk_client_get_progress E)
  | GetRole want_package_id => discard (pk_client_get_role E want_package_id)
  | IsCallerActive => discard (pk_client_is_caller_active E)
  | Signal ev => proxy_signal E ev
  end.

(** The operations in turn; nothing follows a call that never returns. *)
Fixpoint run_ops (E : Env) (ops : list Op) : M unit :=
  match ops with
  | [] => ret tt
  | op :: ops' => run_op E op ;; run_ops E ops'
  end.

(** The signals of a list in turn, as the bus delivers them. *)
Fixpoint proxy_signals (E : Env) (evs : list BusSignal) : M unit :=
  match evs with
  | [] => ret tt
  | ev :: evs' => proxy_signal E ev ;; proxy_signals E evs'
  end.

(** A state a client can be in: one that operations lead to from a new
    client. *)
Definition reachable (E : Env) (s : Sys) : Prop :=
  exists ops, snd (run_ops E ops pk_client_new) = s.

(** ** An environment to run the client in

    The daemon is scripted: the tid it allocates, the answers to the method
    calls in the order the calls are made, whether PolicyKit grants the
    privilege, the signals the main loop finds. *)
Module Script.

Fixpoint count_char (c : ascii) (s : string) : nat :=
  match s with
  | EmptyString => 0
  | String c' s' => (if Ascii.eqb c c' then 1 else 0) + count_char c s'
  end.

(** Modelled from the spec: the package-id validator of pk-package-id is not
    part of the sources; a package id is "four fields joined by [;]: name,
    version, architecture, source". *)
Definition check_package_id (package_id : string) : bool :=
  Nat.eqb (count_char ";" package_id) 3.

(** Modelled from the spec: the validator of pk-package-ids "validates each"
    package id of the vector. *)
Definition check_package_ids (package_ids : list string) : bool :=
  forallb check_package_id package_ids.

(** The error the daemon raises when the policy refuses the caller: a remote
    exception whose message names the policy action. *)
Definition refused_by_policy (action_id : string) : GError :=
  mkGError DBUS_GERROR DBUS_GERROR_REMOTE_EXCEPTION
    (String.append "org.freedesktop.packagekit." action_id).

Definition denied_by_policy (e : GError) : bool :=
  GQuark_eqb (domain e) DBUS_GERROR
  && Z.eqb (code e) DBUS_GERROR_REMOTE_EXCEPTION
  && String.prefix "org.freedesktop.packagekit." (message e).

Fixpoint count_calls (h : Trace) : nat :=
  match h with
  | [] => 0
  | ProxyCall _ _ _ :: h' => S (count_calls h')
  | _ :: h' => count_calls h'
  end.

Definition restart_from_text (text : string) : PkRestartEnum :=
  if String.eqb text "none" then 0
  else if String.eqb text "application" then 1
  else if String.eqb text "session" then 2
  else if String.eqb text "system" then 3
  else 4.

Definition status_from_text (text : string) : PkStatusEnum :=
  if String.eqb text "wait" then PK_STATUS_ENUM_WAIT
  else if String.eqb text "running" then PK_STATUS_ENUM_VALUE 3
  else PK_STATUS_ENUM_UNKNOWN.

Definition env (allocated : GError + string) (replies : list (option GError))
    (granted : bool) (pending : list BusSignal) : Env :=
  {| pk_package_id_check := check_package_id;
     pk_package_ids_check := check_package_ids;
     error_location := fun _ => true;
     pk_control_allocate_transaction_id := fun _ => allocated;
     dbus_g_proxy_new_for_name := fun _ _ => true;
     dbus_reply := fun h _ _ _ => nth (count_calls h) replies None;
     pk_polkit_client_error_denied_by_policy := denied_by_policy;
     pk_polkit_client_gain_privilege_str := fun _ _ => granted;
     reply_allow_cancel := fun _ => true;
     reply_status := fun _ => "running";
     reply_package := fun _ => "";
     reply_progress := fun _ => (0, 0, 0, 0);
     reply_role := fun _ => ("unknown", "");
     reply_caller_active := fun _ => true;
     g_main_context_pending := fun _ => pending;
     realpath := fun path => Some path;
     pk_exit_enum_from_text := fun text => if String.eqb text "success" then 0 else 1;
     pk_status_enum_from_text := status_from_text;
     pk_info_enum_from_text := fun text => if String.eqb text "installed" then 0 else 1;
     pk_role_enum_from_text := fun _ => PK_ROLE_ENUM_UNKNOWN;
     pk_restart_enum_from_text := restart_from_text;
     pk_group_enum_from_text := fun _ => 0;
     pk_error_enum_from_text := fun _ => 0;
     pk_message_enum_from_text := fun _ => 0;
     pk_filter_enums_to_text := fun filters => if Z.eqb filters 1 then "none" else "unknown";
     pk_provides_enum_to_text := fun _ => "any";
     pk_sig_type_enum_to_text := fun _ => "gpg" |}.

(** The environment [E] for a caller that passes [NULL] where the actions
    take the location of the error. *)
Definition without_error_location (E : Env) : Env :=
  {| pk_package_id_check := pk_package_id_check E;
     pk_package_ids_check := pk_package_ids_check E;
     error_location := fun _ => false;
     pk_control_allocate_transaction_id := pk_control_allocate_transaction_id E;
     dbus_g_proxy_new_for_name := dbus_g_proxy_new_for_name E;
     dbus_reply := dbus_reply E;
     pk_polkit_client_error_denied_by_policy := pk_polkit_client_error_denied_by_policy E;
     pk_polkit_client_gain_privilege_str := pk_polkit_client_gain_privilege_str E;
     reply_allow_cancel := reply_allow_cancel E;
     reply_status := reply_status E;
     reply_package := reply_package E;
     reply_progress := reply_progress E;
     reply_role := reply_role E;
     reply_caller_active := reply_caller_active E;
     g_main_context_pending := g_main_context_pending E;
     realpath := realpath E;
     pk_exit_enum_from_text := pk_exit_enum_from_text E;
     pk_status_enum_from_text := pk_status_enum_from_text E;
     pk_info_enum_from_text := pk_info_enum_from_text E;
     pk_role_enum_from_text := pk_role_enum_from_text E;
     pk_restart_enum_from_text := pk_restart_enum_from_text E;
     pk_group_enum_from_text := pk_group_enum_from_text E;
     pk_error_enum_from_text := pk_error_enum_from_text E;
     pk_message_enum_from_text := pk_message_enum_from_text E;
     pk_filter_enums_to_text := pk_filter_enums_to_text E;
     pk_provides_enum_to_text := pk_provides_enum_to_text E;
     pk_sig_type_enum_to_text := pk_sig_type_enum_to_text E |}.

(** The environment [E] with another answer of the policy check. *)
Definition with_denied_by_policy (denied : GError -> bool) (E : Env) : Env :=
  {| pk_package_id_check := pk_package_id_check E;
     pk_package_ids_check := pk_package_ids_check E;
     error_location := error_location E;
     pk_control_allocate_transaction_id := pk_control_allocate_transaction_id E;
     dbus_g_proxy_new_for_name := dbus_g_proxy_new_for_name E;
     dbus_reply := dbus_reply E;
     pk_polkit_client_error_denied_by_policy := denied;
     pk_polkit_client_gain_privilege_str := pk_polkit_client_gain_privilege_str E;
     reply_allow_cancel := reply_allow_cancel E;
     reply_status := reply_status E;
     reply_package := reply_package E;
     reply_progress := reply_progress E;
     reply_role := reply_role E;
     reply_caller_active := reply_caller_active E;
     g_main_context_pending := g_main_context_pending E;
     realpath := realpath E;
     pk_exit_enum_from_text := pk_exit_enum_from_text E;
     pk_status_enum_from_text := pk_status_enum_from_text E;
     pk_info_enum_from_text := pk_info_enum_from_text E;
     pk_role_enum_from_text := pk_role_enum_from_text E;
     pk_restart_enum_from_text := pk_restart_enum_from_text E;
     pk_group_enum_from_text := pk_group_enum_from_text E;
     pk_error_enum_from_text := pk_error_enum_from_text E;
     pk_message_enum_from_text := pk_message_enum_from_text E;
     pk_filter_enums_to_text := pk_filter_enums_to_text E;
     pk_provides_enum_to_text := pk_provides_enum_to_text E;
     pk_sig_type_enum_to_text := pk_sig_type_enum_to_text E |}.

End Script.

(** * The vocabulary of the properties *)

(** ** What a computation keeps

    [preserves P m]: a property of the private data that holds before [m]
    holds after it, whether or not [m] returns. *)
Definition preserves {A : Type} (P : PkClientPrivate -> Prop) (m : M A) : Prop :=
  forall s, P (priv s) -> P (priv (snd (m s))).

(** While neither the buffer nor the synchronous mode is on, the package
    list is empty. *)
Definition buffer_off_empty (c : PkClientPrivate) : Prop :=
  use_buffer c = false -> synchronous c = false -> package_list c = [].

(** The remote errors [pk_client_cancel] takes for "not running" or "does
    not exist". *)
Definition not_running_or_missing (e : GError) : bool :=
  pk_strequal (Some (message e)) (Some "cancelling a non-running transaction")
  || g_str_has_suffix (message e) (String.append " doesn't exist" (String "010" "")).

(** The two remote errors by their messages: the message is "cancelling a
    non-running transaction"; the message ends with " doesn't exist" and a
    line feed. *)
Definition says_not_running (e : GError) : Prop :=
  message e = "cancelling a non-running transaction".

Definition says_does_not_exist (e : GError) : Prop :=
  exists text,
    message e
    = String.append text (String.append " doesn't exist" (String "010" EmptyString)).

(** The claim on the client with no bound transaction as the specification
    words it, the bound transaction being the TransactionId: cancel on a
    client that has no tid returns success without any bus interaction. *)
Definition cancel_without_tid_succeeds (E : Env) (s : Sys) : Prop :=
  tid (priv s) = None -> pk_client_cancel E s = (Some (true, None), s).

(** The daemon allocates [tid'] for a client that has no tid, and the proxy
    for it can be made. *)
Definition allocates (E : Env) (s : Sys) (tid' : string) : Prop :=
  tid (priv s) = None
  /\ pk_control_allocate_transaction_id E (trace s) = inr tid'
  /\ dbus_g_proxy_new_for_name E (trace s ++ [ControlAllocateTid]) tid' = true.

(** The client once [pk_client_allocate_transaction_id] bound [tid']. *)
Definition bound_to (tid' : string) (s : Sys) : Sys :=
  mkSys (with_proxy (Some (mkProxy tid' connected_signals))
           (with_tid (Some tid') (priv s)))
        (trace s ++ [ControlAllocateTid; ProxyNewForName tid']).



(** What an action leaves at the error location when it turns the call down
    on its arguments: nothing, for an argument that is missing or unknown,
    or an InvalidPackageId error. *)
Definition argument_error (error : option GError) : Prop :=
  error = None
  \/ exists text,
       error = Some (mkGError PK_CLIENT_ERROR PK_CLIENT_ERROR_INVALID_PACKAGEID text).


(** The levels of the RequireRestart signals of a list, in its order. *)
Definition restart_levels (E : Env) (evs : list BusSignal) : list PkRestartEnum :=
  flat_map (fun ev => match ev with
                      | RequireRestart restart_text _ =>
                          [pk_restart_enum_from_text E restart_text]
                      | _ => []
                      end) evs.

(** A client whose proxy is the one [pk_client_set_tid] made. *)
Definition bound (c : PkClientPrivate) : Prop :=
  exists path, proxy c = Some (mkProxy path connected_signals).

(** The private data after a [pk_client_reset] that went on after the
    cancel. *)
Definition reset_priv (c : PkClientPrivate) : PkClientPrivate :=
  {| proxy := None;
     loop := loop c;
     is_finished := false;
     use_buffer := use_buffer c;
     synchronous := synchronous c;
     tid := None;
     package_list := [];
     require_restart := require_restart c;
     last_status := PK_STATUS_ENUM_UNKNOWN;
     role := PK_ROLE_ENUM_UNKNOWN;
     cached_force := cached_force c;
     cached_allow_deps := cached_allow_deps c;
     cached_autoremove := cached_autoremove c;
     cached_trusted := cached_trusted c;
     cached_package_id := None;
     cached_package_ids := None;
     cached_transaction_id := None;
     cached_key_id := None;
     cached_full_path := None;
     cached_full_paths := None;
     cached_search := None;
     cached_provides := cached_provides c;
     cached_filters := PK_FILTER_ENUM_UNKNOWN |}.

(** The claim on the cached request as the specification words it: a reset
    that succeeds leaves the cached package id(s), search text, file paths,
    key id, transaction id to roll back and filters as they were. *)
Definition reset_leaves_cached_request (E : Env) (s : Sys) : Prop :=
  forall error, fst (pk_client_reset E s) = Some (true, error) ->
  let c := priv s in
  let c' := priv (snd (pk_client_reset E s)) in
  cached_package_id c' = cached_package_id c
  /\ cached_package_ids c' = cached_package_ids c
  /\ cached_search c' = cached_search c
  /\ cached_full_path c' = cached_full_path c
  /\ cached_full_paths c' = cached_full_paths c
  /\ cached_key_id c' = cached_key_id c
  /\ cached_transaction_id c' = cached_transaction_id c
  /\ cached_filters c' = cached_filters c.

(** [needle] is part of [text]. *)
Definition includes (needle text : string) : Prop :=
  exists before after,
    text = String.append before (String.append needle after).

(** The package ids an action validates, for a call whose arguments pass the
    [g_return_val_if_fail] checks; [None] for the other calls and for the
    actions that validate nothing. *)
Definition validated_package_ids (a : Action) : option (list string) :=
  match a with
  | GetDepends _ (Some package_id) _ => Some [package_id]
  | GetRequires _ (Some package_id) _ => Some [package_id]
  | GetDetails (Some package_id) => Some [package_id]
  | GetFiles (Some package_id) => Some [package_id]
  | GetUpdateDetail (Some package_id) => Some [package_id]
  | InstallSignature PK_SIGTYPE_ENUM_GPG (Some _) (Some package_id) => Some [package_id]
  | InstallPackages (Some package_ids) => Some package_ids
  | RemovePackages (Some package_ids) _ _ => Some package_ids
  | UpdatePackages (Some package_ids) => Some package_ids
  | InstallPackage (Some package_id) => Some (g_strsplit_1 package_id)
  | RemovePackage (Some package_id) _ _ => Some (g_strsplit_1 package_id)
  | UpdatePackage (Some package_id) => Some (g_strsplit_1 package_id)
  | _ => None
  end.

(** What the validator says that an action calls on its package ids: the
    validator of one id for the actions that take one id, the validator of
    vectors for the actions that take a vector, the one-package forms
    passing the vector [g_strsplit] makes of their id; [true] for the calls
    that validate nothing. *)
Definition package_ids_pass (E : Env) (a : Action) : bool :=
  match a with
  | GetDepends _ (Some package_id) _ => pk_package_id_check E package_id
  | GetRequires _ (Some package_id) _ => pk_package_id_check E package_id
  | GetDetails (Some package_id) => pk_package_id_check E package_id
  | GetFiles (Some package_id) => pk_package_id_check E package_id
  | GetUpdateDetail (Some package_id) => pk_package_id_check E package_id
  | InstallSignature PK_SIGTYPE_ENUM_GPG (Some _) (Some package_id) =>
      pk_package_id_check E package_id
  | InstallPackages (Some package_ids) => pk_package_ids_check E package_ids
  | RemovePackages (Some package_ids) _ _ => pk_package_ids_check E package_ids
  | UpdatePackages (Some package_ids) => pk_package_ids_check E package_ids
  | InstallPackage (Some package_id) =>
      pk_package_ids_check E (g_strsplit_1 package_id)
  | RemovePackage (Some package_id) _ _ =>
      pk_package_ids_check E (g_strsplit_1 package_id)
  | UpdatePackage (Some package_id) =>
      pk_package_ids_check E (g_strsplit_1 package_id)
  | _ => true
  end.

(** The one-package forms called with the empty text as package id. *)
Definition empty_package_id (a : Action) : bool :=
  match a with
  | InstallPackage (Some EmptyString) => true
  | RemovePackage (Some EmptyString) _ _ => true
  | UpdatePackage (Some EmptyString) => true
  | _ => false
  end.

(** [m] only adds to the history. *)
Definition extends_history {A : Type} (m : M A) : Prop :=
  forall s, exists rest, trace (snd (m s)) = trace s ++ rest.

(** What the call did first, of what is seen from outside, was to ask the
    daemon for a transaction. *)
Definition asks_for_transaction {A : Type} (outcome : option A * Sys) (s : Sys)
    : Prop :=
  exists rest, trace (snd outcome) = trace s ++ ControlAllocateTid :: rest.

(** The package ids of a call as the specification lists the actions: the
    ones above, and the package of resolve. *)
Definition package_ids_as_specified (a : Action) : option (list string) :=
  match a with
  | Resolve _ (Some package) => Some [package]
  | _ => validated_package_ids a
  end.

(** The claim as the specification words it, for one call on one client: an
    invalid id makes the call fail with [PK_CLIENT_ERROR_INVALID_PACKAGEID]
    and a message that includes the id, nothing allocated, nothing called. *)
Definition rejects_invalid_package_id (E : Env) (a : Action) (s : Sys) : Prop :=
  forall package_ids package_id,
    package_ids_as_specified a = Some package_ids ->
    In package_id package_ids ->
    pk_package_id_check E package_id = false ->
    exists e,
      run_action E a s = (Some (false, Some e), s)
      /\ domain e = PK_CLIENT_ERROR
      /\ code e = PK_CLIENT_ERROR_INVALID_PACKAGEID
      /\ includes package_id (message e).

(** The action of a role with the values of the cached request, for the
    roles [pk_client_requeue] knows how to issue again; the signature type
    is not cached, a requeued install-signature is a GPG one. *)
Definition requeue_action (c : PkClientPrivate) : option Action :=
  match role c with
  | PK_ROLE_ENUM_GET_DEPENDS =>
      Some (GetDepends (cached_filters c) (cached_package_id c) (cached_force c))
  | PK_ROLE_ENUM_GET_UPDATE_DETAIL => Some (GetUpdateDetail (cached_package_id c))
  | PK_ROLE_ENUM_RESOLVE => Some (Resolve (cached_filters c) (cached_package_id c))
  | PK_ROLE_ENUM_ROLLBACK => Some (Rollback (cached_transaction_id c))
  | PK_ROLE_ENUM_GET_DETAILS => Some (GetDetails (cached_package_id c))
  | PK_ROLE_ENUM_GET_FILES => Some (GetFiles (cached_package_id c))
  | PK_ROLE_ENUM_GET_REQUIRES =>
      Some (GetRequires (cached_filters c) (cached_package_id c) (cached_force c))
  | PK_ROLE_ENUM_GET_UPDATES => Some (GetUpdates (cached_filters c))
  | PK_ROLE_ENUM_SEARCH_DETAILS => Some (SearchDetails (cached_filters c) (cached_search c))
  | PK_ROLE_ENUM_SEARCH_FILE => Some (SearchFile (cached_filters c) (cached_search c))
  | PK_ROLE_ENUM_SEARCH_GROUP => Some (SearchGroup (cached_filters c) (cached_search c))
  | PK_ROLE_ENUM_SEARCH_NAME => Some (SearchName (cached_filters c) (cached_search c))
  | PK_ROLE_ENUM_INSTALL_PACKAGES => Some (InstallPackages (cached_package_ids c))
  | PK_ROLE_ENUM_INSTALL_FILES =>
      Some (InstallFiles (cached_trusted c) (cached_full_paths c))
  | PK_ROLE_ENUM_INSTALL_SIGNATURE =>
      Some (InstallSignature PK_SIGTYPE_ENUM_GPG (cached_key_id c) (cached_package_id c))
  | PK_ROLE_ENUM_REFRESH_CACHE => Some (RefreshCache (cached_force c))
  | PK_ROLE_ENUM_REMOVE_PACKAGES =>
      Some (RemovePackages (cached_package_ids c) (cached_allow_deps c)
              (cached_autoremove c))
  | PK_ROLE_ENUM_UPDATE_PACKAGES => Some (UpdatePackages (cached_package_ids c))
  | PK_ROLE_ENUM_UPDATE_SYSTEM => Some UpdateSystem
  | PK_ROLE_ENUM_GET_REPO_LIST => Some (GetRepoList (cached_filters c))
  | _ => None
  end.

(** The client as [pk_client_requeue] prepares it for the action: no tid, no
    status, not finished, no packages; the proxy and the cached request
    stay. *)
Definition requeued (s : Sys) : Sys :=
  mkSys (with_package_list [] (requeue_fields (priv s))) (trace s).

(** An action run for a requeue: its error goes through the fix-up. *)
Definition fixed_up_action (E : Env) (a : Action) : M Ret :=
  '(r, error) <- run_action E a ;;
  ret (r, pk_client_error_fixup error).

Definition role_unknown : GError :=
  mkGError PK_CLIENT_ERROR PK_CLIENT_ERROR_ROLE_UNKNOWN "role unknown for reque".

Definition not_finished : GError :=
  mkGError PK_CLIENT_ERROR PK_CLIENT_ERROR_FAILED "not finished, so cannot requeue".

(** The claim on the refusals of requeue as the specification words it: with
    the role unknown or the transaction not finished, requeue fails with the
    RoleUnknown error and does nothing. *)
Definition requeue_refuses_with_role_unknown (E : Env) (s : Sys) : Prop :=
  role (priv s) = PK_ROLE_ENUM_UNKNOWN \/ is_finished (priv s) = false ->
  exists e,
    pk_client_requeue E s = (Some (false, Some e), s)
    /\ code e = PK_CLIENT_ERROR_ROLE_UNKNOWN.

(** ** The vocabulary of the signals *)

(** What the observers are told for a signal: the signal with its texts
    decoded. *)
Definition notification (E : Env) (ev : BusSignal) : PkSignals :=
  match ev with
  | Finished exit_text runtime =>
      PK_CLIENT_FINISHED (pk_exit_enum_from_text E exit_text) runtime
  | ProgressChanged percentage subpercentage elapsed remaining =>
      PK_CLIENT_PROGRESS_CHANGED percentage subpercentage elapsed remaining
  | StatusChanged status_text =>
      PK_CLIENT_STATUS_CHANGED (pk_status_enum_from_text E status_text)
  | Package info_text package_id summary =>
      PK_CLIENT_PACKAGE (pk_info_enum_from_text E info_text) package_id summary
  | Transaction old_tid timespec succeeded role_text duration data =>
      PK_CLIENT_TRANSACTION old_tid timespec succeeded
        (pk_role_enum_from_text E role_text) duration data
  | UpdateDetail package_id updates obsoletes vendor_url bugzilla_url cve_url
                 restart_text update_text =>
      PK_CLIENT_UPDATE_DETAIL package_id updates obsoletes vendor_url
        bugzilla_url cve_url (pk_restart_enum_from_text E restart_text) update_text
  | Details package_id license group_text description url size =>
      PK_CLIENT_DETAILS package_id license (pk_group_enum_from_text E group_text)
        description url size
  | Files package_id filelist => PK_CLIENT_FILES package_id filelist
  | RepoSignatureRequired package_id repository_name key_url key_userid key_id
                          key_fingerprint key_timestamp type_text =>
      PK_CLIENT_REPO_SIGNATURE_REQUIRED package_id repository_name key_url
        key_userid key_id key_fingerprint key_timestamp
        (guint_from_pointer (pointer_address type_text))
  | EulaRequired eula_id package_id vendor_name license_agreement =>
      PK_CLIENT_EULA_REQUIRED eula_id package_id vendor_name license_agreement
  | RepoDetail repo_id description enabled =>
      PK_CLIENT_REPO_DETAIL repo_id description enabled
  | ErrorCode code_text details =>
      PK_CLIENT_ERROR_CODE (pk_error_enum_from_text E code_text) details
  | RequireRestart restart_text details =>
      PK_CLIENT_REQUIRE_RESTART (pk_restart_enum_from_text E restart_text) details
  | Message message_text details =>
      PK_CLIENT_MESSAGE (pk_message_enum_from_text E message_text) details
  | CallerActiveChanged is_active => PK_CLIENT_CALLER_ACTIVE_CHANGED is_active
  | AllowCancel allow_cancel => PK_CLIENT_ALLOW_CANCEL allow_cancel
  end.

(** The private data once the callback of a signal has run. *)
Definition received (E : Env) (ev : BusSignal) (c : PkClientPrivate) : PkClientPrivate :=
  match ev with
  | Finished _ _ =>
      if synchronous c
      then with_loop (mkLoop false) (with_is_finished true c)
      else with_is_finished true c
  | StatusChanged status_text =>
      with_last_status (pk_status_enum_from_text E status_text) c
  | Package info_text package_id summary =>
      if use_buffer c || synchronous c
      then with_package_list
             (pk_package_list_add (package_list c)
                (pk_info_enum_from_text E info_text) package_id summary) c
      else c
  | RequireRestart restart_text _ =>
      if pk_restart_enum_from_text E restart_text >? require_restart c
      then with_require_restart (pk_restart_enum_from_text E restart_text) c
      else c
  | _ => c
  end.

(** The rows of the Package signals of a list, in its order. *)
Definition package_items (E : Env) (evs : list BusSignal) : list PkPackageItem :=
  flat_map (fun ev => match ev with
                      | Package info_text package_id summary =>
                          [mkItem (pk_info_enum_from_text E info_text) package_id summary]
                      | _ => []
                      end) evs.

(** The status after the StatusChanged signals of a list, [status] if it has
    none. *)
Definition status_after (E : Env) (evs : list BusSignal) (status : PkStatusEnum)
    : PkStatusEnum :=
  fold_left (fun st ev => match ev with
                          | StatusChanged status_text =>
                              pk_status_enum_from_text E status_text
                          | _ => st
                          end) evs status.

Definition is_finished_signal (ev : BusSignal) : bool :=
  match ev with
  | Finished _ _ => true
  | _ => false
  end.

(** [c'] is [c] but for the five fields the callbacks write: the finished
    flag, the loop, the last status, the package list and the restart
    level. *)
Definition written_by_signals_only (c c' : PkClientPrivate) : Prop :=
  c' = with_loop (loop c')
         (with_is_finished (is_finished c')
            (with_last_status (last_status c')
               (with_package_list (package_list c')
                  (with_require_restart (require_restart c') c)))).


(** [c'] is [c] but for the role and the cached request, the fields an
    action saves "so we can re-issue it". *)
Definition request_written_only (c c' : PkClientPrivate) : Prop :=
  c' = with_role (role c')
         (with_cached_force (cached_force c')
            (with_cached_allow_deps (cached_allow_deps c')
               (with_cached_autoremove (cached_autoremove c')
                  (with_cached_trusted (cached_trusted c')
                     (with_cached_package_id (cached_package_id c')
                        (with_cached_package_ids (cached_package_ids c')
                           (with_cached_transaction_id (cached_transaction_id c')
                              (with_cached_key_id (cached_key_id c')
                                 (with_cached_full_path (cached_full_path c')
                                    (with_cached_full_paths (cached_full_paths c')
                                       (with_cached_search (cached_search c')
                                          (with_cached_provides (cached_provides c')
                                             (with_cached_filters (cached_filters c')
                                                c))))))))))))).

(** A client that has a tid has the proxy of that transaction, with every
    callback connected. *)
Definition tid_has_proxy (c : PkClientPrivate) : Prop :=
  forall t, tid c = Some t -> proxy c = Some (mkProxy t connected_signals).

(** The allocation of a transaction fails for a client without a tid: the
    daemon refuses, or the proxy for the new tid cannot be made.  [error] is
    the error left, [tr] the history afterwards. *)
Definition allocation_fails (E : Env) (s : Sys) (error : GError) (tr : Trace)
    : Prop :=
  tid (priv s) = None
  /\ match pk_control_allocate_transaction_id E (trace s) with
     | inl e => error = e /\ tr = trace s ++ [ControlAllocateTid]
     | inr t =>
         dbus_g_proxy_new_for_name E (trace s ++ [ControlAllocateTid]) t = false
         /\ error = mkGError PK_CLIENT_ERROR PK_CLIENT_ERROR_ALREADY_TID
                      (String.append "Cannot connect to PackageKit tid " t)
         /\ tr = trace s ++ [ControlAllocateTid; ProxyNewForName t]
     end.

(** The errors [pk_client_error_fixup] rewrites: the remote exceptions of
    the bus. *)
Definition is_remote_exception (e : GError) : bool :=
  GQuark_eqb (domain e) DBUS_GERROR && (code e =? DBUS_GERROR_REMOTE_EXCEPTION).

(** An error as [pk_client_error_fixup] leaves it: none, or one that is not
    a remote exception of the bus. *)
Definition fixed_up (error : option GError) : Prop :=
  forall e, error = Some e -> is_remote_exception e = false.

(** Whenever [m] returns, the error it returns is fixed up; [error_of] takes
    the error from what is returned. *)
Definition returns_fixed_up {A : Type} (error_of : A -> option GError)
    (m : M A) : Prop :=
  forall s a s', m s = (Some a, s') -> fixed_up (error_of a).

(** The role an action saves in the client; [pk_client_get_old_transactions]
    saves none. *)
Definition action_role (a : Action) : option PkRoleEnum :=
  match a with
  | GetUpdates _ => Some PK_ROLE_ENUM_GET_UPDATES
  | UpdateSystem => Some PK_ROLE_ENUM_UPDATE_SYSTEM
  | SearchName _ _ => Some PK_ROLE_ENUM_SEARCH_NAME
  | SearchDetails _ _ => Some PK_ROLE_ENUM_SEARCH_DETAILS
  | SearchGroup _ _ => Some PK_ROLE_ENUM_SEARCH_GROUP
  | SearchFile _ _ => Some PK_ROLE_ENUM_SEARCH_FILE
  | GetDepends _ _ _ => Some PK_ROLE_ENUM_GET_DEPENDS
  | GetPackages _ => Some PK_ROLE_ENUM_GET_PACKAGES
  | GetRequires _ _ _ => Some PK_ROLE_ENUM_GET_REQUIRES
  | WhatProvides _ _ _ => Some PK_ROLE_ENUM_WHAT_PROVIDES
  | GetUpdateDetail _ => Some PK_ROLE_ENUM_GET_UPDATE_DETAIL
  | Rollback _ => Some PK_ROLE_ENUM_ROLLBACK
  | Resolve _ _ => Some PK_ROLE_ENUM_RESOLVE
  | GetDetails _ => Some PK_ROLE_ENUM_GET_DETAILS
  | GetFiles _ => Some PK_ROLE_ENUM_GET_FILES
  | RemovePackages _ _ _ | RemovePackage _ _ _ => Some PK_ROLE_ENUM_REMOVE_PACKAGES
  | RefreshCache _ => Some PK_ROLE_ENUM_REFRESH_CACHE
  | InstallPackages _ | InstallPackage _ => Some PK_ROLE_ENUM_INSTALL_PACKAGES
  | InstallSignature _ _ _ => Some PK_ROLE_ENUM_INSTALL_SIGNATURE
  | UpdatePackages _ | UpdatePackage _ => Some PK_ROLE_ENUM_UPDATE_PACKAGES
  | InstallFiles _ _ | InstallFile _ _ => Some PK_ROLE_ENUM_INSTALL_FILES
  | GetRepoList _ => Some PK_ROLE_ENUM_GET_REPO_LIST
  | AcceptEula _ => Some PK_ROLE_ENUM_ACCEPT_EULA
  | RepoEnable _ _ => Some PK_ROLE_ENUM_REPO_ENABLE
  | RepoSetData _ _ _ => Some PK_ROLE_ENUM_REPO_SET_DATA
  | GetOldTransactions _ => None
  end.

(** The call a requeue makes for an action that was issued: the action
    itself, but a call for one package id or one file as the call for the
    vector of it, the files as the paths they resolved to, and a signature
    as a GPG one.  There is none for the actions [pk_client_requeue] has no
    branch for. *)
Definition reissued (E : Env) (a : Action) : option Action :=
  match a with
  | GetPackages _ | WhatProvides _ _ _ | AcceptEula _ | RepoEnable _ _
  | RepoSetData _ _ _ | GetOldTransactions _ => None
  | InstallSignature _ key_id package_id =>
      Some (InstallSignature PK_SIGTYPE_ENUM_GPG key_id package_id)
  | UpdatePackage (Some id) => Some (UpdatePackages (Some (g_strsplit_1 id)))
  | InstallPackage (Some id) => Some (InstallPackages (Some (g_strsplit_1 id)))
  | RemovePackage (Some id) allow_deps autoremove =>
      Some (RemovePackages (Some (g_strsplit_1 id)) allow_deps autoremove)
  | InstallFiles trusted (Some rel) =>
      Some (InstallFiles trusted (Some (strv_of (map (resolve_entry E) rel))))
  | InstallFile trusted (Some file) =>
      Some (InstallFiles trusted
              (Some (strv_of (map (resolve_entry E) (g_strsplit_1 file)))))
  | UpdatePackage None | InstallPackage None | RemovePackage None _ _
  | InstallFiles _ None | InstallFile _ None => None
  | _ => Some a
  end.

(** What an action that was issued for the transaction [tid'] leaves in the
    client: the tid and its proxy, its role, and the request a requeue
    reads. *)
Definition saved_as (E : Env) (a : Action) (tid' : string)
    (c : PkClientPrivate) : Prop :=
  tid c = Some tid'
  /\ proxy c = Some (mkProxy tid' connected_signals)
  /\ (forall ro, action_role a = Some ro -> role c = ro)
  /\ (forall a', reissued E a = Some a' -> requeue_action c = Some a').

(** The two ways a call goes wrong without returning: the read of an error
    through a [NULL] location, and a format that asks for an argument that
    was not passed. *)
Definition is_fault (e : Ext) : bool :=
  match e with
  | NullDereference | FormatWithoutArgument _ => true
  | _ => false
  end.

(** The outcome of a call that went wrong: it did not return, and the
    history ends with the fault. *)
Definition stopped_in_fault {A : Type} (outcome : option A * Sys) : Prop :=
  fst outcome = None
  /\ exists h e, trace (snd outcome) = h ++ [e] /\ is_fault e = true.

(** The callers pass a location for the error to every action. *)
Definition callers_pass_error_location (E : Env) : Prop :=
  forall h, error_location E h = true.

(** The messages of the errors the policy check recognises need no argument
    when they are taken as the format of [g_vasprintf]. *)
Definition refusals_need_no_argument (E : Env) : Prop :=
  forall e, pk_polkit_client_error_denied_by_policy E e = true ->
    g_vasprintf_no_args (message e) <> None.

(** On a client that is not synchronous [m] returns or, if [faults] allows
    it, goes wrong; the client is not synchronous afterwards. *)
Definition returns_at_once (faults : bool) {A : Type} (m : M A) : Prop :=
  forall s, synchronous (priv s) = false ->
    ((exists a, fst (m s) = Some a)
     \/ (faults = true /\ stopped_in_fault (m s)))
    /\ synchronous (priv (snd (m s))) = false.

(** If [m] is run on a client that satisfies [Pre] and returns, what it
    returns and the client satisfy [Post]. *)
Definition triple {A : Type} (Pre : PkClientPrivate -> Prop) (m : M A)
    (Post : A -> PkClientPrivate -> Prop) : Prop :=
  forall s a s', Pre (priv s) -> m s = (Some a, s') -> Post a (priv s').

(** A client with a role whose transaction has not finished: what
    [pk_client_requeue] refuses with "not finished". *)
Definition in_progress (c : PkClientPrivate) : Prop :=
  is_finished c = false /\ role c <> PK_ROLE_ENUM_UNKNOWN.

(** The operations that leave a client in progress as it is: every one but
    a new action, a reset and the Finished signal of the transaction. *)
Definition keeps_waiting (op : Op) : bool :=
  match op with
  | Call _ | Reset | Signal (Finished _ _) => false
  | _ => true
  end.

(** What a call that returned [FALSE] leaves. *)
Definition failed_in_progress (x : Ret) (c : PkClientPrivate) : Prop :=
  fst x = false -> in_progress c.

(** The method calls on transactions in a history. *)
Definition is_method_call (e : Ext) : bool :=
  match e with
  | ProxyCall _ _ _ => true
  | _ => false
  end.

Definition method_calls (h : Trace) : nat :=
  List.length (filter is_method_call h).

(** [m] makes at most [n] method calls, whether or not it returns. *)
Definition calls_at_most {A : Type} (n : nat) (m : M A) : Prop :=
  forall s, (method_calls (trace (snd (m s))) <= method_calls (trace s) + n)%nat.

(** The actions that ask PolicyKit for the privilege when the daemon refuses
    them, and then call once more. *)
Definition asks_for_privilege (a : Action) : bool :=
  match a with
  | UpdateSystem | RemovePackages _ _ _ | RemovePackage _ _ _ | RefreshCache _
  | InstallPackages _ | InstallPackage _ | InstallSignature _ _ _
  | UpdatePackages _ | UpdatePackage _ | InstallFiles _ _ | InstallFile _ _
  | AcceptEula _ | RepoEnable _ _ | RepoSetData _ _ _ => true
  | _ => false
  end.

(** [m] returns in every state. *)
Definition always_returns {A : Type} (m : M A) : Prop :=
  forall s, exists a, fst (m s) = Some a.
(** * Properties *)

(** ** What a computation keeps *)

Section Preserves.

Context {A B : Type} (P : PkClientPrivate -> Prop).

Lemma preserves_ret (a : A) : preserves P (ret a).
Proof. intros s H. exact H. Qed.

Lemma preserves_park : preserves P (@park A).
Proof. intros s H. exact H. Qed.

Lemma preserves_goes_wrong (how : Ext) : preserves P (@goes_wrong A how).
Proof. intros s H. exact H. Qed.

Lemma preserves_bind (m : M A) (f : A -> M B) :
  preserves P m -> (forall a, preserves P (f a)) -> preserves P (bind m f).
Proof.
  intros Hm Hf s H. unfold bind.
  specialize (Hm s H). destruct (m s) as [[a|] s']; simpl in *.
  - apply Hf. exact Hm.
  - exact Hm.
Qed.

Lemma preserves_modify (f : PkClientPrivate -> PkClientPrivate) :
  (forall c, P c -> P (f c)) -> preserves P (modify f).
Proof. intros Hf s H. simpl. apply Hf. exact H. Qed.

End Preserves.

Lemma preserves_get_priv P : preserves P get_priv.
Proof. intros s H. exact H. Qed.

Lemma preserves_history P : preserves P history.
Proof. intros s H. exact H. Qed.

Lemma preserves_record P e : preserves P (record e).
Proof. intros s H. exact H. Qed.

Lemma preserves_g_signal_emit P signal : preserves P (g_signal_emit signal).
Proof. apply preserves_record. Qed.

Create HintDb pk_keep.

#[export] Hint Resolve preserves_ret preserves_park preserves_goes_wrong
  preserves_get_priv
  preserves_history preserves_record preserves_g_signal_emit : pk_keep.

(** One step of a proof that a function keeps a property: split a [bind],
    take a branch, use what is known of the functions it calls. *)
Ltac keep_step :=
  match goal with
  | |- preserves _ (bind _ _) => apply preserves_bind; [ | intros ? ]
  | |- preserves _ (if ?b then _ else _) => destruct b
  | |- preserves _ (match ?x with _ => _ end) => destruct x
  | |- preserves _ (ret _) => apply preserves_ret
  | |- preserves _ _ => solve [ auto with pk_keep ]
  end.

(** ** Running a computation step by step *)

Lemma bind_returns {A B : Type} (m : M A) (f : A -> M B) s a s' :
  m s = (Some a, s') -> bind m f s = f a s'.
Proof. intros H. unfold bind. rewrite H. reflexivity. Qed.

Lemma bind_stops {A B : Type} (m : M A) (f : A -> M B) s s' :
  m s = (None, s') -> bind m f s = (None, s').
Proof. intros H. unfold bind. rewrite H. reflexivity. Qed.

Lemma bind_ret {A B : Type} (a : A) (f : A -> M B) s :
  bind (ret a) f s = f a s.
Proof. reflexivity. Qed.

Lemma bind_get_priv {B : Type} (f : PkClientPrivate -> M B) s :
  bind get_priv f s = f (priv s) s.
Proof. reflexivity. Qed.

Lemma bind_history {B : Type} (f : Trace -> M B) s :
  bind history f s = f (trace s) s.
Proof. reflexivity. Qed.

Lemma bind_modify {B : Type} (g : PkClientPrivate -> PkClientPrivate)
    (f : unit -> M B) s :
  bind (modify g) f s = f tt (mkSys (g (priv s)) (trace s)).
Proof. reflexivity. Qed.

Lemma bind_record {B : Type} (e : Ext) (f : unit -> M B) s :
  bind (record e) f s = f tt (mkSys (priv s) (trace s ++ [e])).
Proof. reflexivity. Qed.

(** Reduce the tests of the code once their outcome is known. *)
Ltac tests := cbn [negb andb orb is_none fst snd]; cbv beta iota.

(** ** The package buffer of a client that asked for none *)

Ltac keep_buffer :=
  repeat first
    [ keep_step
    | match goal with
      | |- preserves buffer_off_empty (modify _) =>
          apply preserves_modify; unfold buffer_off_empty; simpl;
          solve [ auto | intros; congruence ]
      end ].

Section BufferOff.

Variable E : Env.

Lemma keep_buffer_g_main_loop_quit : preserves buffer_off_empty g_main_loop_quit.
Proof. unfold g_main_loop_quit. keep_buffer. Qed.

Lemma keep_buffer_package_cb info_text package_id summary :
  preserves buffer_off_empty (pk_client_package_cb E info_text package_id summary).
Proof.
  unfold pk_client_package_cb. apply preserves_bind; [ auto with pk_keep | intros _ ].
  intros s H. unfold bind, get_priv. simpl.
  destruct (use_buffer (priv s)) eqn:Hu; simpl.
  - unfold buffer_off_empty. simpl. congruence.
  - destruct (synchronous (priv s)) eqn:Hs; simpl.
    + unfold buffer_off_empty. simpl. congruence.
    + exact H.
Qed.

Lemma keep_buffer_callback ev : preserves buffer_off_empty (callback E ev).
Proof.
  destruct ev; simpl; try apply keep_buffer_package_cb;
    unfold pk_client_finished_cb, pk_client_progress_changed_cb,
      pk_client_status_changed_cb, pk_client_change_status,
      pk_client_transaction_cb, pk_client_update_detail_cb,
      pk_client_details_cb, pk_client_files_cb,
      pk_client_repo_signature_required_cb, pk_client_eula_required_cb,
      pk_client_repo_detail_cb, pk_client_error_code_cb,
      pk_client_require_restart_cb, pk_client_message_cb,
      pk_client_caller_active_changed_cb, pk_client_allow_cancel_cb,
      g_main_loop_quit;
    keep_buffer.
Qed.


#[local] Hint Resolve keep_buffer_g_main_loop_quit keep_buffer_callback : pk_keep.

Lemma keep_buffer_proxy_signal ev : preserves buffer_off_empty (proxy_signal E ev).
Proof. unfold proxy_signal. keep_buffer. Qed.

#[local] Hint Resolve keep_buffer_proxy_signal : pk_keep.

Lemma keep_buffer_g_main_loop_iterate pending :
  preserves buffer_off_empty (g_main_loop_iterate E pending).
Proof. induction pending as [|ev pending IH]; simpl; keep_buffer. Qed.

#[local] Hint Resolve keep_buffer_g_main_loop_iterate : pk_keep.

Lemma keep_buffer_g_main_loop_run : preserves buffer_off_empty (g_main_loop_run E).
Proof. unfold g_main_loop_run. keep_buffer. Qed.

Lemma keep_buffer_dbus_g_proxy_call p method args :
  preserves buffer_off_empty (dbus_g_proxy_call E p method args).
Proof. unfold dbus_g_proxy_call. keep_buffer. Qed.

Lemma keep_buffer_gain_privilege_str error_str :
  preserves buffer_off_empty (gain_privilege_str E error_str).
Proof. unfold gain_privilege_str. keep_buffer. Qed.

#[local] Hint Resolve keep_buffer_g_main_loop_run keep_buffer_dbus_g_proxy_call
  keep_buffer_gain_privilege_str : pk_keep.

Lemma keep_buffer_cancel : preserves buffer_off_empty (pk_client_cancel E).
Proof. unfold pk_client_cancel. keep_buffer. Qed.

Lemma keep_buffer_set_tid tid' : preserves buffer_off_empty (pk_client_set_tid E tid').
Proof. unfold pk_client_set_tid. keep_buffer. Qed.

#[local] Hint Resolve keep_buffer_cancel keep_buffer_set_tid : pk_keep.

Lemma keep_buffer_allocate_transaction_id :
  preserves buffer_off_empty (pk_client_allocate_transaction_id E).
Proof. unfold pk_client_allocate_transaction_id. keep_buffer. Qed.

Lemma keep_buffer_change_status status :
  preserves buffer_off_empty (pk_client_change_status status).
Proof. unfold pk_client_change_status. keep_buffer. Qed.

#[local] Hint Resolve keep_buffer_allocate_transaction_id keep_buffer_change_status : pk_keep.

Lemma keep_buffer_wait_for_finished r :
  preserves buffer_off_empty (wait_for_finished E r).
Proof. unfold wait_for_finished. keep_buffer. Qed.

#[local] Hint Resolve keep_buffer_wait_for_finished : pk_keep.

Lemma keep_buffer_call_and_wait error method args :
  preserves buffer_off_empty (call_and_wait E error method args).
Proof. unfold call_and_wait. keep_buffer. Qed.

Lemma keep_buffer_call_action method args :
  preserves buffer_off_empty (call_action E method args).
Proof. unfold call_action. keep_buffer. Qed.

Lemma keep_buffer_retry_with_privilege action :
  preserves buffer_off_empty action ->
  preserves buffer_off_empty (retry_with_privilege E action).
Proof. intros H. unfold retry_with_privilege. keep_buffer. Qed.

Lemma keep_buffer_propagate_and_wait r error_pk :
  preserves buffer_off_empty (propagate_and_wait E r error_pk).
Proof. unfold propagate_and_wait. keep_buffer. Qed.

#[local] Hint Resolve keep_buffer_call_and_wait keep_buffer_call_action
  keep_buffer_retry_with_privilege keep_buffer_propagate_and_wait : pk_keep.

Lemma keep_buffer_run_action a : preserves buffer_off_empty (run_action E a).
Proof.
  destruct a; simpl;
    unfold pk_client_get_updates, pk_client_update_system,
      pk_client_update_system_action,
      pk_client_search_name, pk_client_search_details, pk_client_search_group,
      pk_client_search_file, pk_client_search, pk_client_get_depends,
      pk_client_get_packages, pk_client_get_requires, pk_client_what_provides,
      pk_client_get_update_detail, pk_client_rollback, pk_client_resolve,
      pk_client_get_details, pk_client_get_files,
      pk_client_update_package, pk_client_install_package,
      pk_client_remove_package, pk_client_install_file,
      pk_client_remove_packages, pk_client_remove_packages_action,
      pk_client_refresh_cache, pk_client_refresh_cache_action,
      pk_client_install_packages, pk_client_install_package_action,
      pk_client_install_signature, pk_client_install_signature_action,
      pk_client_update_packages, pk_client_update_packages_action,
      pk_client_install_files, pk_client_install_files_action,
      pk_client_get_repo_list, pk_client_accept_eula,
      pk_client_accept_eula_action, pk_client_repo_enable,
      pk_client_repo_enable_action, pk_client_repo_set_data,
      pk_client_repo_set_data_action, pk_client_get_old_transactions;
    keep_buffer.
Qed.


Lemma keep_buffer_requeue : preserves buffer_off_empty (pk_client_requeue E).
Proof.
  unfold pk_client_requeue.
  apply preserves_bind; [ auto with pk_keep | intros c ].
  destruct (PkRoleEnum_eqb (role c) PK_ROLE_ENUM_UNKNOWN); [ apply preserves_ret | ].
  destruct (negb (is_finished c)); [ apply preserves_ret | ].
  apply preserves_bind; [ keep_buffer | intros _ ].
  apply preserves_bind; [ keep_buffer | intros _ ].
  apply preserves_bind; [ auto with pk_keep | intros p ].
  destruct (role p); try apply preserves_ret;
    (apply preserves_bind; [ | intros [r error]; apply preserves_ret ]).
  - apply (keep_buffer_run_action (SearchName _ _)).
  - apply (keep_buffer_run_action (SearchDetails _ _)).
  - apply (keep_buffer_run_action (SearchGroup _ _)).
  - apply (keep_buffer_run_action (SearchFile _ _)).
  - apply (keep_buffer_run_action (GetDepends _ _ _)).
  - apply (keep_buffer_run_action (GetRequires _ _ _)).
  - apply (keep_buffer_run_action (GetDetails _)).
  - apply (keep_buffer_run_action (GetFiles _)).
  - apply (keep_buffer_run_action (GetUpdates _)).
  - apply (keep_buffer_run_action (GetUpdateDetail _)).
  - apply (keep_buffer_run_action (Resolve _ _)).
  - apply (keep_buffer_run_action (Rollback _)).
  - apply (keep_buffer_run_action (InstallPackages _)).
  - apply (keep_buffer_run_action (InstallFiles _ _)).
  - exact (keep_buffer_run_action (InstallSignature PK_SIGTYPE_ENUM_GPG (cached_key_id p) (cached_package_id p))).
  - apply (keep_buffer_run_action (RemovePackages _ _ _)).
  - apply (keep_buffer_run_action (UpdatePackages _)).
  - apply (keep_buffer_run_action UpdateSystem).
  - apply (keep_buffer_run_action (RefreshCache _)).
  - apply (keep_buffer_run_action (GetRepoList _)).
Qed.

Lemma keep_buffer_disconnect_proxy :
  preserves buffer_off_empty (pk_client_disconnect_proxy).
Proof. unfold pk_client_disconnect_proxy. keep_buffer. Qed.

#[local] Hint Resolve keep_buffer_disconnect_proxy : pk_keep.

Lemma keep_buffer_reset : preserves buffer_off_empty (pk_client_reset E).
Proof. unfold pk_client_reset. keep_buffer. Qed.

Lemma keep_buffer_set_use_buffer b :
  preserves buffer_off_empty (pk_client_set_use_buffer b).
Proof.
  intros s H. unfold pk_client_set_use_buffer, bind, get_priv. simpl.
  destruct (use_buffer (priv s)) eqn:Hu; simpl; [exact H|].
  unfold buffer_off_empty in *. simpl. intros Hb Hs. subst b. auto.
Qed.

Lemma keep_buffer_set_synchronous b :
  preserves buffer_off_empty (pk_client_set_synchronous b).
Proof.
  intros s H. unfold pk_client_set_synchronous, bind, get_priv. simpl.
  destruct (synchronous (priv s)) eqn:Hu; simpl; [exact H|].
  unfold buffer_off_empty in *. simpl. intros Hb Hs. subst b. auto.
Qed.

#[local] Hint Resolve keep_buffer_requeue keep_buffer_reset
  keep_buffer_set_use_buffer keep_buffer_set_synchronous : pk_keep.

Lemma keep_buffer_run_op op : preserves buffer_off_empty (run_op E op).
Proof.
  destruct op; simpl;
    unfold discard, pk_client_get_allow_cancel, pk_client_get_status,
      pk_client_get_package, pk_client_get_progress, pk_client_get_role,
      pk_client_is_caller_active;
    try (apply preserves_bind; [ | intros ?; apply preserves_ret ]);
    first [ solve [ auto using keep_buffer_run_action with pk_keep ]
          | keep_buffer ].
Qed.

Lemma keep_buffer_run_ops ops : preserves buffer_off_empty (run_ops E ops).
Proof.
  induction ops as [|op ops IH]; simpl.
  - apply preserves_ret.
  - apply preserves_bind; [ apply keep_buffer_run_op | intros _; exact IH ].
Qed.

Lemma reachable_buffer_off_empty s : reachable E s -> buffer_off_empty (priv s).
Proof.
  intros [ops <-]. apply keep_buffer_run_ops.
  unfold buffer_off_empty. reflexivity.
Qed.

End BufferOff.

(** C8.  A client that asked neither for the package buffer nor for the
    synchronous mode never gets a package appended to its package list: in
    every state such a client can reach, after any transaction, the list is
    empty, a Package signal is handed to the observers and leaves the list
    empty, and the accessor of the package list has no list to give. *)
Theorem package_buffer_empty_when_not_enabled (E : Env) (s : Sys) :
  reachable E s ->
  use_buffer (priv s) = false ->
  synchronous (priv s) = false ->
  package_list (priv s) = []
  /\ (forall info_text package_id summary,
        package_list
          (priv (snd (proxy_signal E (Package info_text package_id summary) s))) = [])
  /\ (forall path info_text package_id summary,
        proxy (priv s) = Some (mkProxy path connected_signals) ->
        proxy_signal E (Package info_text package_id summary) s
        = (Some tt,
           mkSys (priv s)
             (trace s ++ [SignalEmit (PK_CLIENT_PACKAGE
                                        (pk_info_enum_from_text E info_text)
                                        package_id summary)])))
  /\ pk_client_get_package_list s = (Some None, s).
Proof.
  intros Hr Hu Hs.
  assert (Hl : package_list (priv s) = [])
    by (apply (reachable_buffer_off_empty E s Hr); assumption).
  split; [ exact Hl | ]. split; [ | split ].
  - intros info_text package_id summary.
    pose proof (keep_buffer_proxy_signal E (Package info_text package_id summary) s) as H.
    assert (Hk : forall ev, use_buffer (priv (snd (proxy_signal E ev s))) = false
                         /\ synchronous (priv (snd (proxy_signal E ev s))) = false).
    { intros ev. unfold proxy_signal, bind, get_priv. simpl.
      destruct (proxy (priv s)) as [p|]; simpl; [ | auto ].
      destruct (existsb _ _); simpl; [ | auto ].
      destruct ev; simpl; unfold pk_client_finished_cb, pk_client_package_cb,
        pk_client_require_restart_cb, bind, get_priv; simpl;
        rewrite ?Hu, ?Hs; simpl; auto.
      destruct (_ >? _); simpl; auto. }
    apply H.
    + intros _ _. exact Hl.
    + apply Hk.
    + apply Hk.
  - intros path info_text package_id summary Hp.
    unfold proxy_signal, bind, get_priv. simpl. rewrite Hp. simpl.
    unfold pk_client_package_cb, bind, get_priv. simpl. rewrite Hu, Hs. reflexivity.
  - unfold pk_client_get_package_list, bind, get_priv. simpl. rewrite Hu. reflexivity.
Qed.

(** A new client searches, the daemon reports a package and finishes. *)
Lemma package_buffer_empty_when_not_enabled_witness :
  let E := Script.env (inr "/7_dcaeaaab_data") [None] false [] in
  let s := snd (run_ops E
                  [Call (SearchName 1 (Some "power"));
                   Signal (Package "installed" "powertop;1.9;i386;fedora" "Power tool");
                   Signal (Finished "success" 12)]
                  pk_client_new) in
  package_list (priv s) = []
  /\ pk_client_get_package_list s = (Some None, s).
Proof.
  intros E s.
  destruct (package_buffer_empty_when_not_enabled E s) as (H1 & _ & _ & H4).
  - exists [Call (SearchName 1 (Some "power"));
            Signal (Package "installed" "powertop;1.9;i386;fedora" "Power tool");
            Signal (Finished "success" 12)].
    reflexivity.
  - reflexivity.
  - reflexivity.
  - split; [ exact H1 | exact H4 ].
Defined.

(** ** The package list accessor *)

(** C10.  With [use_buffer] off the accessor returns [NULL], also in
    synchronous mode, where a Package signal is appended to the package list
    all the same: what the synchronous mode alone buffered cannot be read
    through the accessor. *)
Theorem package_list_accessor_null_without_use_buffer (E : Env) (s : Sys) :
  use_buffer (priv s) = false ->
  pk_client_get_package_list s = (Some None, s)
  /\ (synchronous (priv s) = true ->
      forall info_text package_id summary,
        let s' := snd (pk_client_package_cb E info_text package_id summary s) in
        package_list (priv s')
        = package_list (priv s)
            ++ [mkItem (pk_info_enum_from_text E info_text) package_id summary]
        /\ pk_client_get_package_list s' = (Some None, s')).
Proof.
  intros Hu. split.
  - unfold pk_client_get_package_list, bind, get_priv. simpl. rewrite Hu. reflexivity.
  - intros Hs info_text package_id summary.
    unfold pk_client_package_cb, pk_client_get_package_list, bind, get_priv,
      g_signal_emit, record, modify. simpl.
    rewrite Hu, Hs. simpl. rewrite Hu. split; reflexivity.
Qed.

Lemma package_list_accessor_null_without_use_buffer_witness :
  let E := Script.env (inr "/7_dcaeaaab_data") [None] false [] in
  let s := mkSys (with_synchronous true pk_client_init) [] in
  let s' := snd (pk_client_package_cb E "installed" "powertop;1.9;i386;fedora"
                   "Power tool" s) in
  pk_client_get_package_list s = (Some None, s)
  /\ package_list (priv s') = [mkItem 0 "powertop;1.9;i386;fedora" "Power tool"]
  /\ pk_client_get_package_list s' = (Some None, s').
Proof.
  intros E s s'.
  destruct (package_list_accessor_null_without_use_buffer E s) as [H1 H2].
  - reflexivity.
  - split; [ exact H1 | ].
    apply (H2 eq_refl "installed" "powertop;1.9;i386;fedora" "Power tool").
Defined.

(** ** Normalising remote errors *)

Lemma pk_client_error_fixup_remote (e : GError) :
  domain e = DBUS_GERROR ->
  code e = DBUS_GERROR_REMOTE_EXCEPTION ->
  pk_client_error_fixup (Some e)
  = Some (mkGError DBUS_GERROR PK_CLIENT_ERROR_FAILED (message e)).
Proof.
  intros Hd Hc. unfold pk_client_error_fixup. rewrite Hd, Hc. reflexivity.
Qed.

Lemma pk_client_error_fixup_local (e : GError) :
  domain e <> DBUS_GERROR \/ code e <> DBUS_GERROR_REMOTE_EXCEPTION ->
  pk_client_error_fixup (Some e) = Some e.
Proof.
  intros H. unfold pk_client_error_fixup.
  destruct (GQuark_eqb (domain e) DBUS_GERROR) eqn:Hd; simpl; [ | reflexivity ].
  destruct (Z.eqb_spec (code e) DBUS_GERROR_REMOTE_EXCEPTION) as [Hc|Hc];
    [ | reflexivity ].
  destruct H as [H|H]; [ | contradiction ].
  destruct (domain e); simpl in Hd; congruence.
Qed.

Lemma pk_client_error_fixup_message (error : option GError) :
  option_map message (pk_client_error_fixup error) = option_map message error.
Proof.
  destruct error as [e|]; [ | reflexivity ]. unfold pk_client_error_fixup.
  destruct (_ && _); reflexivity.
Qed.

(** ** The retry after a refusal by policy *)

Section Retry.

Variable E : Env.

Lemma dbus_g_proxy_call_runs p method args s :
  dbus_g_proxy_call E p method args s
  = (Some (dbus_reply E (trace s) (proxy_path p) method args),
     mkSys (priv s) (trace s ++ [ProxyCall (proxy_path p) method args])).
Proof. reflexivity. Qed.

(** An [_action] function on a client with a proxy: one call, and what the
    bus answers. *)
Lemma call_action_bound method args s p :
  proxy (priv s) = Some p ->
  call_action E method args s
  = (Some (is_none (dbus_reply E (trace s) (proxy_path p) method args),
           dbus_reply E (trace s) (proxy_path p) method args),
     mkSys (priv s) (trace s ++ [ProxyCall (proxy_path p) method args])).
Proof.
  intros Hp. unfold call_action, dbus_g_proxy_call, bind, get_priv, history,
    record, ret. cbv beta iota. rewrite Hp. reflexivity.
Qed.

Lemma gain_privilege_str_runs error_str s :
  gain_privilege_str E error_str s
  = (Some (pk_polkit_client_gain_privilege_str E (trace s) error_str),
     mkSys (priv s) (trace s ++ [PolkitGainPrivilege error_str])).
Proof. reflexivity. Qed.

(** The first attempt was not refused by policy: nothing more is done. *)
Lemma retry_with_privilege_not_denied (action : M Ret) s r error_pk s1 :
  action s = (Some (r, error_pk), s1) ->
  negb r && denied_by_policy E error_pk = false ->
  retry_with_privilege E action s = (Some (r, error_pk), s1).
Proof.
  intros Ha Hd. unfold retry_with_privilege, bind. rewrite Ha. cbv beta iota.
  rewrite Hd. reflexivity.
Qed.

(** Refused by policy, privilege gained: the action runs once more, and its
    outcome is the outcome. *)
Lemma retry_with_privilege_granted (action : M Ret) s e1 s1 :
  action s = (Some (false, Some e1), s1) ->
  pk_polkit_client_error_denied_by_policy E e1 = true ->
  pk_polkit_client_gain_privilege_str E (trace s1) (message e1) = true ->
  retry_with_privilege E action s
  = action (mkSys (priv s1) (trace s1 ++ [PolkitGainPrivilege (message e1)])).
Proof.
  intros Ha Hd Hg. unfold retry_with_privilege, gain_privilege_str, bind,
    history, record, ret. rewrite Ha. cbv beta iota. simpl. rewrite Hd. simpl.
  rewrite Hg. reflexivity.
Qed.

(** Refused by policy, privilege not gained: no second attempt, the refusal
    is the outcome. *)
Lemma retry_with_privilege_refused (action : M Ret) s e1 s1 :
  action s = (Some (false, Some e1), s1) ->
  pk_polkit_client_error_denied_by_policy E e1 = true ->
  pk_polkit_client_gain_privilege_str E (trace s1) (message e1) = false ->
  retry_with_privilege E action s
  = (Some (false, Some e1),
     mkSys (priv s1) (trace s1 ++ [PolkitGainPrivilege (message e1)])).
Proof.
  intros Ha Hd Hg. unfold retry_with_privilege, gain_privilege_str, bind,
    history, record, ret. rewrite Ha. cbv beta iota. simpl. rewrite Hd. simpl.
  rewrite Hg. reflexivity.
Qed.

(** On a client with a proxy, after a refusal by policy and a gained
    privilege the method is called exactly once more, and the retry succeeds
    exactly when that second call does. *)
Lemma retry_with_privilege_one_more_call method args s p e1 :
  proxy (priv s) = Some p ->
  dbus_reply E (trace s) (proxy_path p) method args = Some e1 ->
  pk_polkit_client_error_denied_by_policy E e1 = true ->
  pk_polkit_client_gain_privilege_str E
    (trace s ++ [ProxyCall (proxy_path p) method args]) (message e1) = true ->
  let call := ProxyCall (proxy_path p) method args in
  let second := dbus_reply E (trace s ++ [call; PolkitGainPrivilege (message e1)])
                  (proxy_path p) method args in
  retry_with_privilege E (call_action E method args) s
  = (Some (is_none second, second),
     mkSys (priv s) (trace s ++ [call; PolkitGainPrivilege (message e1); call])).
Proof.
  intros Hp H1 Hd Hg call second.
  rewrite (retry_with_privilege_granted _ s e1
             (mkSys (priv s) (trace s ++ [call]))).
  - rewrite (call_action_bound method args _ p) by exact Hp. simpl.
    unfold second. rewrite <- !app_assoc. reflexivity.
  - rewrite (call_action_bound method args s p Hp). rewrite H1. reflexivity.
  - exact Hd.
  - exact Hg.
Qed.

End Retry.

(** ** Allocation, and the two ways a refusal is reported *)

Lemma pk_client_allocate_transaction_id_allocates E s tid' :
  allocates E s tid' ->
  pk_client_allocate_transaction_id E s = (Some (true, None), bound_to tid' s).
Proof.
  intros (Ht & Ha & Hp).
  unfold pk_client_allocate_transaction_id, pk_client_set_tid, bind, get_priv,
    history, record, modify, ret. cbv beta iota. simpl.
  rewrite Ha. cbv beta iota. simpl. rewrite Ht. cbv beta iota. simpl.
  rewrite Hp. simpl. unfold bound_to. rewrite <- app_assoc. reflexivity.
Qed.

Section Refusal.

Variable E : Env.

(** After a call that failed there is nothing to wait for. *)
Lemma wait_for_finished_failed s : wait_for_finished E false s = (Some tt, s).
Proof. reflexivity. Qed.

Lemma propagate_and_wait_failed error_pk s :
  propagate_and_wait E false error_pk s
  = (Some (false, pk_client_error_fixup error_pk), s).
Proof. reflexivity. Qed.

(** [pk_client_install_packages], refused by policy and not given the
    privilege: the error is the refusal after the fix-up, its code is what
    the fix-up leaves. *)
Lemma pk_client_install_packages_refused s tid' ids e1 :
  allocates E s tid' ->
  pk_package_ids_check E ids = true ->
  let s1 := mkSys (with_cached_package_ids (Some ids)
                     (with_role PK_ROLE_ENUM_INSTALL_PACKAGES (priv (bound_to tid' s))))
                  (trace (bound_to tid' s)) in
  let call := ProxyCall tid' "InstallPackages" [G_TYPE_STRV ids] in
  dbus_reply E (trace s1) tid' "InstallPackages" [G_TYPE_STRV ids] = Some e1 ->
  pk_polkit_client_error_denied_by_policy E e1 = true ->
  pk_polkit_client_gain_privilege_str E (trace s1 ++ [call]) (message e1) = false ->
  pk_client_install_packages E (Some ids) s
  = (Some (false, pk_client_error_fixup (Some e1)),
     mkSys (priv s1) (trace s1 ++ [call; PolkitGainPrivilege (message e1)])).
Proof.
  intros Ha Hv s1 call H1 Hd Hg.
  unfold pk_client_install_packages. rewrite Hv. tests.
  rewrite (bind_returns _ _ _ _ _ (pk_client_allocate_transaction_id_allocates E s tid' Ha)).
  tests. rewrite bind_modify. fold s1.
  erewrite bind_returns.
  2:{ apply (retry_with_privilege_refused E _ s1 e1 (mkSys (priv s1) (trace s1 ++ [call]))).
      - unfold pk_client_install_package_action.
        rewrite (call_action_bound E _ _ s1 (mkProxy tid' connected_signals)) by reflexivity.
        simpl proxy_path. rewrite H1. reflexivity.
      - exact Hd.
      - exact Hg. }
  tests. rewrite propagate_and_wait_failed.
  cbn [trace priv]. rewrite <- app_assoc. reflexivity.
Qed.

(** [pk_client_update_system], refused by policy and not given the
    privilege: the error is [PK_CLIENT_ERROR_FAILED_AUTH] with the text the
    message of the refusal gives as a format. *)
Lemma pk_client_update_system_refused s tid' e1 text :
  allocates E s tid' ->
  let s1 := mkSys (with_role PK_ROLE_ENUM_UPDATE_SYSTEM (priv (bound_to tid' s)))
                  (trace (bound_to tid' s)) in
  let call := ProxyCall tid' "UpdateSystem" [] in
  dbus_reply E (trace s1) tid' "UpdateSystem" [] = Some e1 ->
  pk_polkit_client_error_denied_by_policy E e1 = true ->
  pk_polkit_client_gain_privilege_str E (trace s1 ++ [call]) (message e1) = false ->
  g_vasprintf_no_args (message e1) = Some text ->
  pk_client_update_system E s
  = (Some (false, Some (mkGError PK_CLIENT_ERROR PK_CLIENT_ERROR_FAILED_AUTH text)),
     mkSys (priv s1) (trace s1 ++ [call; PolkitGainPrivilege (message e1)])).
Proof.
  intros Ha s1 call H1 Hd Hg Hfmt.
  unfold pk_client_update_system.
  rewrite (bind_returns _ _ _ _ _ (pk_client_allocate_transaction_id_allocates E s tid' Ha)).
  tests. rewrite bind_modify. fold s1. cbv zeta.
  erewrite bind_returns.
  2:{ unfold pk_client_update_system_action.
      rewrite (call_action_bound E _ _ s1 (mkProxy tid' connected_signals)) by reflexivity.
      simpl proxy_path. rewrite H1. reflexivity. }
  tests. unfold denied_by_policy at 1. rewrite Hd. tests.
  rewrite (bind_returns _ _ _ _ _ (gain_privilege_str_runs E _ _)).
  cbn [trace priv error_message]. unfold call in *. rewrite Hg. rewrite bind_ret. tests.
  unfold denied_by_policy. rewrite Hd. tests. cbn [error_message]. rewrite Hfmt.
  unfold pk_client_error_set, ret. rewrite <- app_assoc. reflexivity.
Qed.

(** [pk_client_update_system], failing with an error that is no refusal:
    the error reaches the caller as the bus gave it, without the fix-up. *)
Lemma pk_client_update_system_error_as_is s tid' e1 :
  allocates E s tid' ->
  let s1 := mkSys (with_role PK_ROLE_ENUM_UPDATE_SYSTEM (priv (bound_to tid' s)))
                  (trace (bound_to tid' s)) in
  dbus_reply E (trace s1) tid' "UpdateSystem" [] = Some e1 ->
  pk_polkit_client_error_denied_by_policy E e1 = false ->
  pk_client_update_system E s
  = (Some (false, Some e1),
     mkSys (priv s1) (trace s1 ++ [ProxyCall tid' "UpdateSystem" []])).
Proof.
  intros Ha s1 H1 Hd.
  unfold pk_client_update_system.
  rewrite (bind_returns _ _ _ _ _ (pk_client_allocate_transaction_id_allocates E s tid' Ha)).
  tests. rewrite bind_modify. fold s1. cbv zeta.
  erewrite bind_returns.
  2:{ unfold pk_client_update_system_action.
      rewrite (call_action_bound E _ _ s1 (mkProxy tid' connected_signals)) by reflexivity.
      simpl proxy_path. rewrite H1. reflexivity. }
  tests. unfold denied_by_policy at 1. rewrite Hd. tests.
  rewrite (bind_returns _ _ _ _ _ (wait_for_finished_failed _)). reflexivity.
Qed.

End Refusal.

(** C1.  [pk_client_install_packages] on a new client, the first
    InstallPackages refused by policy and PolicyKit not granting the
    privilege: the call returns [FALSE] with the refusal under the code
    [PK_CLIENT_ERROR_FAILED], not [PK_CLIENT_ERROR_FAILED_AUTH];
    [pk_client_update_system] in the same situation does return
    [PK_CLIENT_ERROR_FAILED_AUTH]. *)
Theorem install_packages_refusal_is_not_failed_auth :
  let refusal := Script.refused_by_policy "install no" in
  let E := Script.env (inr "/7_dcaeaaab_data") [Some refusal] false [] in
  fst (pk_client_install_packages E (Some ["hal;0.5.10;i386;fedora"]) pk_client_new)
  = Some (false, Some (mkGError DBUS_GERROR PK_CLIENT_ERROR_FAILED (message refusal)))
  /\ PK_CLIENT_ERROR_FAILED <> PK_CLIENT_ERROR_FAILED_AUTH
  /\ fst (pk_client_update_system E pk_client_new)
     = Some (false, Some (mkGError PK_CLIENT_ERROR PK_CLIENT_ERROR_FAILED_AUTH
                            (message refusal))).
Proof.
  intros refusal E. split; [ | split ].
  - rewrite (pk_client_install_packages_refused E pk_client_new "/7_dcaeaaab_data"
               ["hal;0.5.10;i386;fedora"] refusal);
      try reflexivity.
    repeat split.
  - discriminate.
  - rewrite (pk_client_update_system_refused E pk_client_new "/7_dcaeaaab_data" refusal
               (message refusal));
      try reflexivity.
    repeat split.
Qed.

(** C9.  [pk_client_update_system] on a new client, the UpdateSystem call
    failing with a remote exception that is no refusal by policy: the error
    reaches the caller with the code [DBUS_GERROR_REMOTE_EXCEPTION] of the
    bus, not rewritten to [PK_CLIENT_ERROR_FAILED];
    [pk_client_refresh_cache] in the same situation rewrites it. *)
Theorem update_system_remote_exception_not_fixed_up :
  let failure := mkGError DBUS_GERROR DBUS_GERROR_REMOTE_EXCEPTION
                   "transaction backend could not be started" in
  let E := Script.env (inr "/7_dcaeaaab_data") [Some failure] false [] in
  fst (pk_client_update_system E pk_client_new) = Some (false, Some failure)
  /\ code failure <> PK_CLIENT_ERROR_FAILED
  /\ fst (pk_client_refresh_cache E true pk_client_new)
     = Some (false, Some (mkGError DBUS_GERROR PK_CLIENT_ERROR_FAILED (message failure))).
Proof.
  intros failure E. split; [ | split ].
  - rewrite (pk_client_update_system_error_as_is E pk_client_new "/7_dcaeaaab_data" failure);
      try reflexivity.
    repeat split.
  - discriminate.
  - reflexivity.
Qed.

(** ** An allocation that does not succeed *)

Section NotAllocated.

Variable E : Env.

(** An action whose allocation does not succeed ends on its own checks of
    the arguments, and then touches nothing, or ends as the allocation
    does. *)
Lemma run_action_not_allocated a s :
  (forall error s1,
     pk_client_allocate_transaction_id E s <> (Some (true, error), s1)) ->
  (exists error, run_action E a s = (Some (false, error), s) /\ argument_error error)
  \/ run_action E a s = pk_client_allocate_transaction_id E s.
Proof.
  intros Hno.
  assert (Hend : forall f : Ret -> M Ret,
             (forall error s1, f (false, error) s1 = (Some (false, error), s1)) ->
             bind (pk_client_allocate_transaction_id E) f s
             = pk_client_allocate_transaction_id E s).
  { intros f Hf.
    destruct (pk_client_allocate_transaction_id E s) as [[[r error]|] s1] eqn:Ha.
    - destruct r; [ contradiction (Hno error s1); reflexivity | ].
      rewrite (bind_returns _ _ _ _ _ Ha). apply Hf.
    - apply (bind_stops _ _ _ _ Ha). }
  destruct a; simpl;
    unfold pk_client_get_updates, pk_client_update_system,
      pk_client_search_name, pk_client_search_details, pk_client_search_group,
      pk_client_search_file, pk_client_search, pk_client_get_depends,
      pk_client_get_packages, pk_client_get_requires, pk_client_what_provides,
      pk_client_get_update_detail, pk_client_rollback, pk_client_resolve,
      pk_client_get_details, pk_client_get_files,
      pk_client_update_package, pk_client_install_package,
      pk_client_remove_package, pk_client_install_file,
      pk_client_remove_packages, pk_client_refresh_cache,
      pk_client_install_packages, pk_client_install_signature,
      pk_client_update_packages, pk_client_install_files,
      pk_client_get_repo_list, pk_client_accept_eula, pk_client_repo_enable,
      pk_client_repo_set_data, pk_client_get_old_transactions;
    repeat match goal with
      | |- context [match ?x with _ => _ end] =>
          is_var x; destruct x
      | |- context [if negb ?b then _ else _] =>
          destruct b; cbn [negb]; cbv iota
      end;
    first
      [ left; eexists; split;
        [ reflexivity
        | first [ left; reflexivity | right; eexists; reflexivity ] ]
      | right; apply Hend; intros ? ?; reflexivity ].
Qed.

End NotAllocated.

(** ** Binding a second transaction id *)

Section Bound.

Variable E : Env.




End Bound.



(** ** The restart the client asks for *)

Lemma fold_right_max_le (levels : list Z) (init : Z) :
  init <= fold_right Z.max init levels.
Proof. induction levels as [|l levels IH]; simpl; lia. Qed.

Lemma fold_right_max_app (xs ys : list Z) (init : Z) :
  fold_right Z.max init (xs ++ ys)
  = Z.max (fold_right Z.max init xs) (fold_right Z.max init ys).
Proof.
  induction xs as [|x xs IH]; simpl.
  - pose proof (fold_right_max_le ys init). lia.
  - rewrite IH. lia.
Qed.

Lemma fold_right_max_permutation (xs ys : list Z) (init : Z) :
  Permutation xs ys -> fold_right Z.max init xs = fold_right Z.max init ys.
Proof.
  induction 1 as [| x xs ys _ IH | x y xs | xs ys zs _ IH1 _ IH2]; simpl.
  - reflexivity.
  - rewrite IH. reflexivity.
  - lia.
  - congruence.
Qed.

Section Restart.

Variable E : Env.

(** One signal on a bound client: the call returns, the proxy stays, and the
    level is raised to the level of a RequireRestart that is higher. *)
Lemma proxy_signal_require_restart ev s :
  bound (priv s) ->
  fst (proxy_signal E ev s) = Some tt
  /\ bound (priv (snd (proxy_signal E ev s)))
  /\ require_restart (priv (snd (proxy_signal E ev s)))
     = fold_right Z.max (require_restart (priv s)) (restart_levels E [ev]).
Proof.
  intros [path Hp]. unfold bound, proxy_signal. rewrite bind_get_priv. rewrite Hp.
  assert (Hb : forall c, proxy c = proxy (priv s) ->
                 exists path, proxy c = Some (mkProxy path connected_signals))
    by (intros c Hc; exists path; rewrite Hc; exact Hp).
  destruct ev; cbn [signal_name proxy_connected connected_signals existsb
                    String.eqb Ascii.eqb Bool.eqb orb andb callback];
    cbv beta iota;
    unfold pk_client_finished_cb, pk_client_progress_changed_cb,
      pk_client_status_changed_cb, pk_client_change_status,
      pk_client_package_cb, pk_client_transaction_cb,
      pk_client_update_detail_cb, pk_client_details_cb, pk_client_files_cb,
      pk_client_repo_signature_required_cb, pk_client_eula_required_cb,
      pk_client_repo_detail_cb, pk_client_error_code_cb,
      pk_client_allow_cancel_cb, pk_client_caller_active_changed_cb,
      pk_client_require_restart_cb, pk_client_message_cb, g_signal_emit,
      g_main_loop_quit;
    rewrite ?bind_modify, ?bind_record, ?bind_get_priv;
    cbn [priv trace restart_levels flat_map app fold_right];
    try (destruct (synchronous _));
    try (destruct (_ || _));
    try (destruct (Z.gtb_spec (pk_restart_enum_from_text E restart_text)
                     (require_restart (priv s))));
    (split; [ reflexivity | split; [ apply Hb; reflexivity | ] ]);
    cbn [snd priv modify ret record require_restart with_require_restart
         with_is_finished with_last_status with_package_list with_loop];
    try reflexivity; lia.
Qed.

Lemma proxy_signals_require_restart evs s :
  bound (priv s) ->
  fst (proxy_signals E evs s) = Some tt
  /\ require_restart (priv (snd (proxy_signals E evs s)))
     = fold_right Z.max (require_restart (priv s)) (restart_levels E evs).
Proof.
  revert s. induction evs as [|ev evs IH]; intros s Hb.
  - split; reflexivity.
  - destruct (proxy_signal_require_restart ev s Hb) as (Hr & Hb' & Hl).
    cbn [proxy_signals]. unfold bind.
    destruct (proxy_signal E ev s) as [[[]|] s1]; cbn [fst snd] in *;
      [ | discriminate ].
    destruct (IH s1 Hb') as [Hr' Hl']. split; [ exact Hr' | ].
    rewrite Hl', Hl. unfold restart_levels. cbn [flat_map].
    rewrite app_nil_r, fold_right_max_app.
    set (one := match ev with RequireRestart _ _ => _ | _ => [] end).
    set (init := require_restart (priv s)).
    clearbody one init. clear.
    induction (flat_map _ evs) as [|l ls IHl]; simpl.
    + pose proof (fold_right_max_le one init). lia.
    + rewrite IHl. pose proof (fold_right_max_le one init). lia.
Qed.

End Restart.

(** C6.  On a bound client, after any sequence of signals the tracked
    restart level is the maximum of the level before and of the levels of
    all RequireRestart signals of the sequence; it is the same for every
    order the signals arrive in, and no signal lowers it. *)
Theorem require_restart_is_the_maximum (E : Env) (s : Sys) (evs : list BusSignal) :
  bound (priv s) ->
  fst (proxy_signals E evs s) = Some tt
  /\ fst (pk_client_get_require_restart (snd (proxy_signals E evs s)))
     = Some (fold_right Z.max (require_restart (priv s)) (restart_levels E evs))
  /\ (forall evs', Permutation evs evs' ->
        require_restart (priv (snd (proxy_signals E evs' s)))
        = require_restart (priv (snd (proxy_signals E evs s))))
  /\ (forall ev,
        require_restart (priv s)
        <= require_restart (priv (snd (proxy_signal E ev s)))).
Proof.
  intros Hb.
  destruct (proxy_signals_require_restart E evs s Hb) as [Hr Hl].
  split; [ exact Hr | ]. split; [ | split ].
  - unfold pk_client_get_require_restart. rewrite bind_get_priv. cbn [fst ret].
    rewrite Hl. reflexivity.
  - intros evs' Hperm.
    destruct (proxy_signals_require_restart E evs' s Hb) as [_ Hl'].
    rewrite Hl, Hl'. apply fold_right_max_permutation.
    apply Permutation_sym. unfold restart_levels.
    apply Permutation_flat_map. exact Hperm.
  - intros ev. destruct (proxy_signal_require_restart E ev s Hb) as (_ & _ & H).
    rewrite H. apply fold_right_max_le.
Qed.

(** A system restart is asked for, then a session restart. *)
Lemma require_restart_is_the_maximum_witness :
  let E := Script.env (inr "/7_dcaeaaab_data") [None] false [] in
  let s := bound_to "/7_dcaeaaab_data" pk_client_new in
  let evs := [RequireRestart "system" "kernel"; Package "installed" "hal;0.5;i386;fedora" "HAL";
              RequireRestart "session" "gnome-session"] in
  fst (pk_client_get_require_restart (snd (proxy_signals E evs s))) = Some 3
  /\ require_restart (priv (snd (proxy_signals E (rev evs) s))) = 3.
Proof.
  intros E s evs.
  destruct (require_restart_is_the_maximum E s evs) as (_ & H2 & H3 & _).
  - exists "/7_dcaeaaab_data". reflexivity.
  - split.
    + rewrite H2. reflexivity.
    + rewrite (H3 (rev evs) (Permutation_rev evs)). reflexivity.
Defined.

(** ** Reset *)

Section Reset.

Variable E : Env.

(** [pk_client_cancel] returns, never writes to the private data, and leaves
    no error when it returns [TRUE]. *)
Lemma pk_client_cancel_runs s :
  exists r error tr,
    pk_client_cancel E s = (Some (r, error), mkSys (priv s) tr)
    /\ (r = true -> error = None).
Proof.
  unfold pk_client_cancel. rewrite bind_get_priv.
  destruct (proxy (priv s)) as [p|].
  - rewrite (bind_returns _ _ _ _ _ (dbus_g_proxy_call_runs E p _ _ s)).
    destruct (dbus_reply E _ _ _ _) as [e|].
    + destruct (_ || _); do 3 eexists; (split; [ reflexivity | ]);
        [ reflexivity | discriminate ].
    + do 3 eexists. split; reflexivity.
  - exists true, None, (trace s). destruct s. split; reflexivity.
Qed.

Lemma reset_after_cancel (error : option GError) s :
  (pk_client_disconnect_proxy;;
   modify reset_fields;;
   modify (fun c => with_package_list (pk_package_list_clear (package_list c)) c);;
   ret (true, error)) s
  = (Some (true, error), mkSys (reset_priv (priv s)) (trace s)).
Proof.
  destruct s as [c tr]. destruct c as [proxy0 ? ? ? ? ? ? ? ? ? ? ? ? ? ? ? ? ? ? ? ? ? ?].
  destruct proxy0; reflexivity.
Qed.

Lemma pk_client_reset_succeeds s error :
  fst (pk_client_reset E s) = Some (true, error) ->
  error = None /\ priv (snd (pk_client_reset E s)) = reset_priv (priv s).
Proof.
  unfold pk_client_reset. rewrite bind_get_priv.
  destruct (negb (is_none (tid (priv s))) && negb (is_finished (priv s))).
  - destruct (pk_client_cancel_runs s) as (r & error1 & tr & Hc & Hnone).
    rewrite (bind_returns _ _ _ _ _ Hc). tests.
    destruct r; tests.
    + rewrite reset_after_cancel. cbn [fst snd priv].
      intros H. injection H as <-. split; [ apply Hnone | ]; reflexivity.
    + discriminate.
  - rewrite bind_ret. tests. rewrite reset_after_cancel. cbn [fst snd priv].
    intros H. injection H as <-. split; reflexivity.
Qed.

(** A reset whose cancel fails leaves the private data as it was. *)
Lemma pk_client_reset_fails s error :
  fst (pk_client_reset E s) = Some (false, error) ->
  priv (snd (pk_client_reset E s)) = priv s.
Proof.
  unfold pk_client_reset. rewrite bind_get_priv.
  destruct (negb (is_none (tid (priv s))) && negb (is_finished (priv s))).
  - destruct (pk_client_cancel_runs s) as (r & error1 & tr & Hc & Hnone).
    rewrite (bind_returns _ _ _ _ _ Hc). tests.
    destruct r; tests.
    + rewrite reset_after_cancel. discriminate.
    + reflexivity.
  - rewrite bind_ret. tests. rewrite reset_after_cancel. discriminate.
Qed.

End Reset.

(** A client searched for "power" and its transaction finished: the reset
    succeeds, and the search text and the filters are gone. *)
Lemma reset_clears_cached_request :
  let E := Script.env (inr "/7_dcaeaaab_data") [None] false [] in
  let s := snd (run_ops E [Call (SearchName 1 (Some "power"));
                           Signal (Finished "success" 12)] pk_client_new) in
  ~ reset_leaves_cached_request E s.
Proof.
  intros E s H. destruct (H None eq_refl) as (_ & _ & Hsearch & _).
  discriminate Hsearch.
Qed.

(** C3.  A [pk_client_reset] that succeeds clears the tid, the proxy with
    its callbacks, the package list, the last status, the role and the
    finished flag, and with them the cached strings (package id and ids, key
    id, transaction id, full path and paths, search text) and the cached
    filters; it leaves the cached flags (force, allow-deps, autoremove,
    trusted), the cached provides, the buffer and synchronous settings and
    the tracked restart level as they were, and it leaves no error. *)
Theorem pk_client_reset_clears_and_keeps (E : Env) (s : Sys) (error : option GError) :
  fst (pk_client_reset E s) = Some (true, error) ->
  let c := priv s in
  let c' := priv (snd (pk_client_reset E s)) in
  error = None
  /\ (tid c' = None /\ proxy c' = None /\ package_list c' = []
      /\ last_status c' = PK_STATUS_ENUM_UNKNOWN
      /\ role c' = PK_ROLE_ENUM_UNKNOWN /\ is_finished c' = false)
  /\ (cached_package_id c' = None /\ cached_package_ids c' = None
      /\ cached_key_id c' = None /\ cached_transaction_id c' = None
      /\ cached_full_path c' = None /\ cached_full_paths c' = None
      /\ cached_search c' = None /\ cached_filters c' = PK_FILTER_ENUM_UNKNOWN)
  /\ (cached_force c' = cached_force c
      /\ cached_allow_deps c' = cached_allow_deps c
      /\ cached_autoremove c' = cached_autoremove c
      /\ cached_trusted c' = cached_trusted c
      /\ cached_provides c' = cached_provides c
      /\ use_buffer c' = use_buffer c /\ synchronous c' = synchronous c
      /\ require_restart c' = require_restart c /\ loop c' = loop c).
Proof.
  intros H c c'. destruct (pk_client_reset_succeeds E s error H) as [He Hp].
  unfold c'. rewrite Hp. repeat split. exact He.
Qed.

Lemma pk_client_reset_clears_and_keeps_witness :
  let E := Script.env (inr "/7_dcaeaaab_data") [None] false [] in
  let s := snd (run_ops E [SetUseBuffer true;
                           Call (GetDepends 1 (Some "hal;0.5.10;i386;fedora") true);
                           Signal (Finished "success" 12)] pk_client_new) in
  let c' := priv (snd (pk_client_reset E s)) in
  cached_package_id (priv s) = Some "hal;0.5.10;i386;fedora"
  /\ cached_package_id c' = None
  /\ cached_force c' = true /\ use_buffer c' = true.
Proof.
  intros E s c'.
  destruct (pk_client_reset_clears_and_keeps E s None eq_refl)
    as (_ & _ & (H1 & _) & (H2 & _ & _ & _ & _ & H3 & _)).
  split; [ reflexivity | ]. split; [ exact H1 | ]. split.
  - fold c' in H2. rewrite H2. reflexivity.
  - fold c' in H3. rewrite H3. reflexivity.
Defined.

(** ** The check of package ids before the allocation *)

Lemma append_assoc (a b c : string) :
  String.append (String.append a b) c = String.append a (String.append b c).
Proof. induction a as [|ch a IH]; simpl; [ reflexivity | rewrite IH; reflexivity ]. Qed.

Lemma append_empty_r (a : string) : String.append a "" = a.
Proof. induction a as [|ch a IH]; simpl; [ reflexivity | rewrite IH; reflexivity ]. Qed.

Lemma includes_append (needle text before after : string) :
  includes needle text ->
  includes needle (String.append before (String.append text after)).
Proof.
  intros (b & a & ->).
  exists (String.append before b), (String.append a after).
  rewrite !append_assoc. reflexivity.
Qed.

Lemma includes_refl (text : string) : includes text text.
Proof. exists "", "". simpl. rewrite append_empty_r. reflexivity. Qed.

(** Each id of a vector is part of the text [pk_package_ids_to_text] makes
    of the vector. *)
Lemma pk_package_ids_to_text_includes (package_ids : list string)
    (delimiter package_id : string) :
  In package_id package_ids ->
  includes package_id (pk_package_ids_to_text package_ids delimiter).
Proof.
  unfold pk_package_ids_to_text.
  induction package_ids as [|x xs IH]; intros Hin; [ destruct Hin | ].
  destruct xs as [|y ys].
  - destruct Hin as [->|[]]. apply includes_refl.
  - change (String.concat delimiter (x :: y :: ys))
      with (String.append x (String.append delimiter (String.concat delimiter (y :: ys)))).
    destruct Hin as [->|Hin].
    + exists "", (String.append delimiter (String.concat delimiter (y :: ys))).
      reflexivity.
    + specialize (IH Hin).
      pose proof (includes_append _ _ (String.append x delimiter) "" IH) as H.
      rewrite append_empty_r, append_assoc in H. exact H.
Qed.

(** Resolve is given a text of three fields: the daemon allocates a
    transaction and Resolve is called. *)
Lemma resolve_does_not_check_package_id :
  let E := Script.env (inr "/7_dcaeaaab_data") [None] false [] in
  ~ rejects_invalid_package_id E (Resolve 1 (Some "foo;1.0;x86_64")) pk_client_new.
Proof.
  intros E H.
  destruct (H ["foo;1.0;x86_64"] "foo;1.0;x86_64" eq_refl (or_introl eq_refl) eq_refl)
    as (e & Hrun & _).
  discriminate Hrun.
Qed.

Section Preflight.

Variable E : Env.

Lemma invalid_package_id_error package_id :
  let e := mkGError PK_CLIENT_ERROR PK_CLIENT_ERROR_INVALID_PACKAGEID
             (package_id_not_valid package_id) in
  domain e = PK_CLIENT_ERROR
  /\ code e = PK_CLIENT_ERROR_INVALID_PACKAGEID
  /\ includes package_id (message e).
Proof.
  repeat split. exists "package_id '", "' is not valid". reflexivity.
Qed.

Lemma invalid_package_ids_error package_ids package_id :
  In package_id package_ids ->
  let e := mkGError PK_CLIENT_ERROR PK_CLIENT_ERROR_INVALID_PACKAGEID
             (package_ids_not_valid package_ids) in
  domain e = PK_CLIENT_ERROR
  /\ code e = PK_CLIENT_ERROR_INVALID_PACKAGEID
  /\ includes package_id (message e).
Proof.
  intros Hin. repeat split. cbn [message]. unfold package_ids_not_valid.
  apply includes_append. apply pk_package_ids_to_text_includes. exact Hin.
Qed.

(** *** The history only grows *)

Lemma extends_history_ret {A : Type} (a : A) : extends_history (ret a).
Proof. intros s. exists []. cbn [ret snd]. rewrite app_nil_r. reflexivity. Qed.

Lemma extends_history_park {A : Type} : extends_history (@park A).
Proof. intros s. exists []. cbn [park snd]. rewrite app_nil_r. reflexivity. Qed.

Lemma extends_history_goes_wrong {A : Type} how : extends_history (@goes_wrong A how).
Proof. intros s. exists [how]. reflexivity. Qed.

Lemma extends_history_bind {A B : Type} (m : M A) (f : A -> M B) :
  extends_history m -> (forall a, extends_history (f a)) ->
  extends_history (bind m f).
Proof.
  intros Hm Hf s. unfold bind. destruct (Hm s) as [rest Hr].
  destruct (m s) as [[a|] s1]; cbn [snd] in *.
  - destruct (Hf a s1) as [rest' Hr']. exists (rest ++ rest').
    rewrite Hr', Hr, app_assoc. reflexivity.
  - exists rest. exact Hr.
Qed.

Lemma extends_history_get_priv : extends_history get_priv.
Proof. intros s. exists []. cbn [get_priv snd]. rewrite app_nil_r. reflexivity. Qed.

Lemma extends_history_history : extends_history history.
Proof. intros s. exists []. cbn [history snd]. rewrite app_nil_r. reflexivity. Qed.

Lemma extends_history_modify f : extends_history (modify f).
Proof. intros s. exists []. cbn [modify snd trace]. rewrite app_nil_r. reflexivity. Qed.

Lemma extends_history_record e : extends_history (record e).
Proof. intros s. exists [e]. reflexivity. Qed.

Lemma extends_history_g_signal_emit signal : extends_history (g_signal_emit signal).
Proof. apply extends_history_record. Qed.

Create HintDb pk_history.

#[local] Hint Resolve extends_history_get_priv extends_history_history
  extends_history_modify extends_history_record extends_history_g_signal_emit
  : pk_history.

Ltac grows :=
  repeat match goal with
    | |- extends_history (ret _) => apply extends_history_ret
    | |- extends_history park => apply extends_history_park
    | |- extends_history (goes_wrong _) => apply extends_history_goes_wrong
    | |- extends_history (bind _ _) => apply extends_history_bind; [ | intros ? ]
    | |- extends_history (if ?b then _ else _) => destruct b
    | |- extends_history (match ?x with _ => _ end) => destruct x
    | |- extends_history _ => solve [ auto with pk_history ]
    end.

Lemma extends_history_callback ev : extends_history (callback E ev).
Proof.
  destruct ev; simpl;
    unfold pk_client_finished_cb, pk_client_progress_changed_cb,
      pk_client_status_changed_cb, pk_client_change_status, pk_client_package_cb,
      pk_client_transaction_cb, pk_client_update_detail_cb,
      pk_client_details_cb, pk_client_files_cb,
      pk_client_repo_signature_required_cb, pk_client_eula_required_cb,
      pk_client_repo_detail_cb, pk_client_error_code_cb,
      pk_client_require_restart_cb, pk_client_message_cb,
      pk_client_caller_active_changed_cb, pk_client_allow_cancel_cb,
      g_main_loop_quit;
    grows.
Qed.

#[local] Hint Resolve extends_history_callback : pk_history.

Lemma extends_history_proxy_signal ev : extends_history (proxy_signal E ev).
Proof. unfold proxy_signal. grows. Qed.

#[local] Hint Resolve extends_history_proxy_signal : pk_history.

Lemma extends_history_g_main_loop_iterate pending :
  extends_history (g_main_loop_iterate E pending).
Proof. induction pending as [ | ev pending IH ]; simpl; grows. Qed.

#[local] Hint Resolve extends_history_g_main_loop_iterate : pk_history.

Lemma extends_history_wait_for_finished r : extends_history (wait_for_finished E r).
Proof.
  unfold wait_for_finished, g_main_loop_run, pk_client_change_status. grows.
Qed.

Lemma extends_history_dbus_g_proxy_call p method args :
  extends_history (dbus_g_proxy_call E p method args).
Proof. unfold dbus_g_proxy_call. grows. Qed.

Lemma extends_history_gain_privilege_str error_str :
  extends_history (gain_privilege_str E error_str).
Proof. unfold gain_privilege_str. grows. Qed.

Lemma extends_history_set_tid tid' : extends_history (pk_client_set_tid E tid').
Proof. unfold pk_client_set_tid. grows. Qed.

#[local] Hint Resolve extends_history_wait_for_finished
  extends_history_dbus_g_proxy_call extends_history_gain_privilege_str
  extends_history_set_tid : pk_history.

Lemma extends_history_call_action method args :
  extends_history (call_action E method args).
Proof. unfold call_action. grows. Qed.

Lemma extends_history_call_and_wait error method args :
  extends_history (call_and_wait E error method args).
Proof. unfold call_and_wait. grows. Qed.

Lemma extends_history_propagate_and_wait r error_pk :
  extends_history (propagate_and_wait E r error_pk).
Proof. unfold propagate_and_wait. grows. Qed.

#[local] Hint Resolve extends_history_call_action extends_history_call_and_wait
  extends_history_propagate_and_wait : pk_history.

Lemma extends_history_retry_with_privilege method args :
  extends_history (retry_with_privilege E (call_action E method args)).
Proof. unfold retry_with_privilege. grows. Qed.

#[local] Hint Resolve extends_history_retry_with_privilege : pk_history.

(** An action that got as far as the allocation asked the daemon for a
    transaction first, whatever came of it. *)
Lemma asks_for_transaction_allocate (f : Ret -> M Ret) s :
  (forall x, extends_history (f x)) ->
  asks_for_transaction (bind (pk_client_allocate_transaction_id E) f s) s.
Proof.
  intros Hf.
  assert (Hrest : extends_history
            (bind (match pk_control_allocate_transaction_id E (trace s) with
                   | inl error =>
                       if error_location E (trace s) then ret (false, Some error)
                       else goes_wrong NullDereference
                   | inr tid' =>
                       '(r, error) <- pk_client_set_tid E tid' ;;
                       if negb r then
                         if error_location E (trace s) then ret (false, error)
                         else goes_wrong NullDereference
                       else ret (true, error)
                   end) f)).
  { apply extends_history_bind; [ grows | exact Hf ]. }
  destruct (Hrest (mkSys (priv s) (trace s ++ [ControlAllocateTid]))) as [rest Hr].
  exists rest. cbn [trace] in Hr. rewrite <- app_assoc in Hr. exact Hr.
Qed.

(** The actions that validate package ids, their arguments being present. *)
Ltac by_action a Hids :=
  destruct a; cbn [validated_package_ids] in Hids; try discriminate Hids;
  repeat match type of Hids with
    | match ?x with _ => _ end = _ => destruct x; try discriminate Hids
    end;
  injection Hids as <-;
  cbn [run_action package_ids_pass];
  unfold pk_client_install_package, pk_client_remove_package,
    pk_client_update_package;
  unfold pk_client_get_depends, pk_client_get_requires, pk_client_get_details,
    pk_client_get_files, pk_client_get_update_detail,
    pk_client_install_signature, pk_client_install_packages,
    pk_client_remove_packages, pk_client_update_packages.

Lemma rejected_before_allocation a s package_ids :
  validated_package_ids a = Some package_ids ->
  package_ids_pass E a = false ->
  exists e,
    run_action E a s = (Some (false, Some e), s)
    /\ domain e = PK_CLIENT_ERROR
    /\ code e = PK_CLIENT_ERROR_INVALID_PACKAGEID
    /\ forall package_id, In package_id package_ids ->
         includes package_id (message e).
Proof.
  intros Hids.
  by_action a Hids; intros Hbad; rewrite Hbad; cbn [negb];
    (eexists; split; [ reflexivity | ]);
    (split; [ reflexivity | split; [ reflexivity | ] ]);
    intros package_id Hin;
    first
      [ destruct Hin as [<-|[]];
        apply (proj2 (proj2 (invalid_package_id_error _)))
      | apply (proj2 (proj2 (invalid_package_ids_error _ _ Hin))) ].
Qed.

Lemma accepted_then_allocation a s package_ids :
  validated_package_ids a = Some package_ids ->
  package_ids_pass E a = true ->
  asks_for_transaction (run_action E a s) s.
Proof.
  intros Hids.
  by_action a Hids; intros Hok; rewrite Hok; cbn [negb];
    apply asks_for_transaction_allocate; intros [r error];
    unfold pk_client_install_signature_action, pk_client_install_package_action,
      pk_client_remove_packages_action, pk_client_update_packages_action;
    grows.
Qed.

Lemma invalid_package_id_fails_validator a package_ids package_id :
  (forall ids, pk_package_ids_check E ids = true ->
     forall id, In id ids -> pk_package_id_check E id = true) ->
  validated_package_ids a = Some package_ids ->
  In package_id package_ids ->
  pk_package_id_check E package_id = false ->
  package_ids_pass E a = false.
Proof.
  intros Hvec Hids Hin Hbad.
  assert (Hvbad : pk_package_ids_check E package_ids = false).
  { destruct (pk_package_ids_check E package_ids) eqn:Hv; [ | reflexivity ].
    rewrite (Hvec _ Hv _ Hin) in Hbad. discriminate. }
  destruct a; cbn [validated_package_ids] in Hids; try discriminate Hids;
    repeat match type of Hids with
      | match ?x with _ => _ end = _ => destruct x; try discriminate Hids
      end;
    injection Hids as <-; cbn [package_ids_pass];
    first [ exact Hvbad | destruct Hin as [<-|[]]; exact Hbad ].
Qed.

End Preflight.

(** C4.  For get-depends, get-requires, get-details, get-files,
    get-update-detail, install-signature, install-packages, remove-packages
    and update-packages, and for the one-package forms of the last three,
    called with their arguments present, the validator is asked before
    anything else is done.  When it rejects, the call returns [FALSE] with
    [PK_CLIENT_ERROR_INVALID_PACKAGEID], the message includes the text of
    each of the ids, and the client and the history are as before: no
    transaction id was allocated and no method was called.  When it accepts,
    the daemon is asked for a transaction.  If the validator of vectors
    accepts a vector only when each id passes, every call with an id that
    does not pass is rejected in this way.  The one-package forms validate
    the vector [g_strsplit] makes of their id, and that vector is empty for
    the empty text: the empty text is never validated itself, and the call
    goes on to the daemon when the validator accepts the empty vector. *)
Theorem invalid_package_id_rejected_before_allocation
    (E : Env) (a : Action) (s : Sys) (package_ids : list string) :
  validated_package_ids a = Some package_ids ->
  (package_ids_pass E a = false ->
   exists e,
     run_action E a s = (Some (false, Some e), s)
     /\ domain e = PK_CLIENT_ERROR
     /\ code e = PK_CLIENT_ERROR_INVALID_PACKAGEID
     /\ forall package_id, In package_id package_ids ->
          includes package_id (message e))
  /\ (package_ids_pass E a = true -> asks_for_transaction (run_action E a s) s)
  /\ ((forall ids, pk_package_ids_check E ids = true ->
         forall id, In id ids -> pk_package_id_check E id = true) ->
      forall package_id,
        In package_id package_ids ->
        pk_package_id_check E package_id = false ->
        exists e,
          run_action E a s = (Some (false, Some e), s)
          /\ domain e = PK_CLIENT_ERROR
          /\ code e = PK_CLIENT_ERROR_INVALID_PACKAGEID
          /\ includes package_id (message e))
  /\ (empty_package_id a = true ->
      package_ids = []
      /\ package_ids_pass E a = pk_package_ids_check E []).
Proof.
  intros Hids. split; [ | split; [ | split ] ].
  - apply rejected_before_allocation. exact Hids.
  - apply accepted_then_allocation with (package_ids := package_ids). exact Hids.
  - intros Hvec package_id Hin Hbad.
    destruct (rejected_before_allocation E a s package_ids Hids
                (invalid_package_id_fails_validator E a package_ids package_id
                   Hvec Hids Hin Hbad))
      as (e & Hrun & Hd & Hc & Hm).
    exists e. split; [ exact Hrun | ]. split; [ exact Hd | ].
    split; [ exact Hc | ]. apply Hm. exact Hin.
  - intros He.
    destruct a; try discriminate He;
      match goal with
      | H : empty_package_id ?a = true |- _ =>
          match a with
          | context [?x] =>
              match type of x with
              | option string =>
                  destruct x as [[|c text]|]; try discriminate H
              end
          end
      end;
      cbn [validated_package_ids g_strsplit_1] in Hids;
      injection Hids as <-; split; reflexivity.
Qed.

(** The daemon is never asked for "foo;1.0;x86_64"; it is asked for a
    transaction when install-package is given the empty text. *)
Lemma invalid_package_id_rejected_before_allocation_witness :
  let E := Script.env (inr "/7_dcaeaaab_data") [None] false [] in
  (exists e,
     run_action E (InstallPackages (Some ["hal;0.5.10;i386;fedora"; "foo;1.0;x86_64"]))
       pk_client_new
     = (Some (false, Some e), pk_client_new)
     /\ domain e = PK_CLIENT_ERROR
     /\ code e = PK_CLIENT_ERROR_INVALID_PACKAGEID
     /\ includes "foo;1.0;x86_64" (message e))
  /\ Script.check_package_id EmptyString = false
  /\ asks_for_transaction
       (run_action E (InstallPackage (Some EmptyString)) pk_client_new)
       pk_client_new.
Proof.
  intros E. split; [ | split ].
  - refine (proj1 (proj2 (proj2 (invalid_package_id_rejected_before_allocation E
             (InstallPackages (Some ["hal;0.5.10;i386;fedora"; "foo;1.0;x86_64"]))
             pk_client_new ["hal;0.5.10;i386;fedora"; "foo;1.0;x86_64"] _)))
             _ "foo;1.0;x86_64" _ _).
    + reflexivity.
    + intros ids Hv id Hin. cbn in Hv. unfold Script.check_package_ids in Hv.
      rewrite forallb_forall in Hv. apply Hv. exact Hin.
    + right. left. reflexivity.
    + reflexivity.
  - reflexivity.
  - refine (proj1 (proj2 (invalid_package_id_rejected_before_allocation E
             (InstallPackage (Some EmptyString)) pk_client_new [] _)) _).
    + reflexivity.
    + reflexivity.
Defined.
(** ** Requeue *)

(** A client searched and its transaction has not finished: requeue fails
    with [PK_CLIENT_ERROR_FAILED]. *)
Lemma requeue_not_finished_is_not_role_unknown :
  let E := Script.env (inr "/7_dcaeaaab_data") [None] false [] in
  let s := snd (run_ops E [Call (SearchName 1 (Some "power"))] pk_client_new) in
  ~ requeue_refuses_with_role_unknown E s.
Proof.
  intros E s H. destruct (H (or_intror eq_refl)) as (e & Hrun & Hcode).
  injection Hrun as <-. discriminate Hcode.
Qed.

(** C2.  [pk_client_requeue] with the role unknown fails with
    [PK_CLIENT_ERROR_ROLE_UNKNOWN]; with a role but the transaction not
    finished it fails with [PK_CLIENT_ERROR_FAILED]; both leave the client
    and the trace as they were.  Otherwise it clears the tid, the status,
    the finished flag and the package list and, for a role it can issue
    again, runs the action of that role with the cached values and fixes up
    its error; for any other role it fails with
    [PK_CLIENT_ERROR_ROLE_UNKNOWN] and calls nothing. *)
Theorem pk_client_requeue_outcomes (E : Env) (s : Sys) :
  (role (priv s) = PK_ROLE_ENUM_UNKNOWN ->
   pk_client_requeue E s = (Some (false, Some role_unknown), s))
  /\ (role (priv s) <> PK_ROLE_ENUM_UNKNOWN -> is_finished (priv s) = false ->
      pk_client_requeue E s = (Some (false, Some not_finished), s))
  /\ (forall a, is_finished (priv s) = true ->
      requeue_action (priv s) = Some a ->
      pk_client_requeue E s = fixed_up_action E a (requeued s))
  /\ (role (priv s) <> PK_ROLE_ENUM_UNKNOWN -> is_finished (priv s) = true ->
      requeue_action (priv s) = None ->
      pk_client_requeue E s = (Some (false, Some role_unknown), requeued s)).
Proof.
  destruct s as [c tr].
  destruct c as [proxy0 loop0 finished0 ? ? tid0 ? ? ? role0 ? ? ? ? ? ? ? ? ? ? ? ? ?].
  unfold pk_client_requeue, requeue_action, requeued. rewrite bind_get_priv.
  cbn [priv role is_finished].
  split; [ | split; [ | split ] ].
  - intros ->. reflexivity.
  - intros Hr ->. destruct role0; try reflexivity. contradiction.
  - intros a -> Ha.
    destruct role0; try discriminate; injection Ha as <-; reflexivity.
  - intros Hr -> Ha.
    destruct role0; try discriminate; try reflexivity. contradiction.
Qed.

(** A new client; a search that is running; the search finished and
    requeued, SearchName is called again with the cached filter and text; a
    finished what-provides. *)
Lemma pk_client_requeue_outcomes_witness :
  let E := Script.env (inr "/7_dcaeaaab_data") [None; None] false [] in
  let running := snd (run_ops E [Call (SearchName 1 (Some "power"))] pk_client_new) in
  let finished := snd (proxy_signal E (Finished "success" 12) running) in
  let provided := snd (run_ops E [Call (WhatProvides 1 PK_PROVIDES_ENUM_CODEC (Some "mp3"));
                                  Signal (Finished "success" 3)] pk_client_new) in
  pk_client_requeue E pk_client_new = (Some (false, Some role_unknown), pk_client_new)
  /\ pk_client_requeue E running = (Some (false, Some not_finished), running)
  /\ fst (pk_client_requeue E finished) = Some (true, None)
  /\ skipn 5 (trace (snd (pk_client_requeue E finished)))
     = [ControlAllocateTid; ProxyNewForName "/7_dcaeaaab_data";
        ProxyCall "/7_dcaeaaab_data" "SearchName"
          [G_TYPE_STRING (Some "none"); G_TYPE_STRING (Some "power")];
        SignalEmit (PK_CLIENT_STATUS_CHANGED PK_STATUS_ENUM_WAIT)]
  /\ pk_client_requeue E provided = (Some (false, Some role_unknown), requeued provided).
Proof.
  intros E running finished provided.
  split; [ | split; [ | split; [ | split ] ] ].
  - apply (proj1 (pk_client_requeue_outcomes E pk_client_new)). reflexivity.
  - apply (proj1 (proj2 (pk_client_requeue_outcomes E running)));
      [ discriminate | reflexivity ].
  - rewrite (proj1 (proj2 (proj2 (pk_client_requeue_outcomes E finished)))
               (SearchName 1 (Some "power")) eq_refl eq_refl).
    reflexivity.
  - rewrite (proj1 (proj2 (proj2 (pk_client_requeue_outcomes E finished)))
               (SearchName 1 (Some "power")) eq_refl eq_refl).
    reflexivity.
  - apply (proj2 (proj2 (proj2 (pk_client_requeue_outcomes E provided))));
      [ discriminate | reflexivity | reflexivity ].
Defined.

(** ** Signals on a bound client *)

Section Signals.

Variable E : Env.

Lemma received_written_only ev c : written_by_signals_only c (received E ev c).
Proof.
  unfold written_by_signals_only.
  destruct c as [? ? ? ub sy ? ? rr ? ? ? ? ? ? ? ? ? ? ? ? ? ? ?].
  destruct ev; cbn [received synchronous use_buffer require_restart];
    try reflexivity.
  - destruct sy; reflexivity.
  - destruct (ub || sy); reflexivity.
  - destruct (_ >? rr); reflexivity.
Qed.

Lemma written_by_signals_only_refl c : written_by_signals_only c c.
Proof. destruct c. reflexivity. Qed.

Lemma written_by_signals_only_trans c1 c2 c3 :
  written_by_signals_only c1 c2 -> written_by_signals_only c2 c3 ->
  written_by_signals_only c1 c3.
Proof.
  unfold written_by_signals_only. intros H12 H23.
  rewrite H23 at 1. rewrite H12 at 1. destruct c1. reflexivity.
Qed.

Lemma written_by_signals_only_bound c c' :
  written_by_signals_only c c' -> bound c -> bound c'.
Proof.
  unfold written_by_signals_only, bound. intros H [path Hp]. exists path.
  rewrite H. destruct c. exact Hp.
Qed.

(** One signal on a bound client: the callback runs, the observers are told
    once. *)
Lemma proxy_signal_bound ev s :
  bound (priv s) ->
  proxy_signal E ev s
  = (Some tt, mkSys (received E ev (priv s))
                    (trace s ++ [SignalEmit (notification E ev)])).
Proof.
  intros [path Hp]. unfold proxy_signal. rewrite bind_get_priv. rewrite Hp.
  destruct s as [c tr]. cbn [priv trace] in *.
  destruct ev; cbn [signal_name proxy_connected connected_signals existsb
                    String.eqb Ascii.eqb Bool.eqb orb andb callback];
    cbv beta iota;
    unfold pk_client_finished_cb, pk_client_progress_changed_cb,
      pk_client_status_changed_cb, pk_client_change_status,
      pk_client_package_cb, pk_client_transaction_cb,
      pk_client_update_detail_cb, pk_client_details_cb, pk_client_files_cb,
      pk_client_repo_signature_required_cb, pk_client_eula_required_cb,
      pk_client_repo_detail_cb, pk_client_error_code_cb,
      pk_client_allow_cancel_cb, pk_client_caller_active_changed_cb,
      pk_client_require_restart_cb, pk_client_message_cb, g_signal_emit,
      g_main_loop_quit;
    rewrite ?bind_modify, ?bind_record, ?bind_get_priv;
    cbn [priv trace received notification synchronous use_buffer require_restart
         with_is_finished];
    try reflexivity.
  - destruct (synchronous c); reflexivity.
  - destruct (use_buffer c || synchronous c); reflexivity.
  - destruct (_ >? _); reflexivity.
Qed.

(** A list of signals on a bound client: each callback in turn, each signal
    told to the observers once and in the order of arrival. *)
Lemma proxy_signals_bound evs s :
  bound (priv s) ->
  proxy_signals E evs s
  = (Some tt, mkSys (fold_left (fun c ev => received E ev c) evs (priv s))
                    (trace s ++ map (fun ev => SignalEmit (notification E ev)) evs)).
Proof.
  revert s. induction evs as [|ev evs IH]; intros s Hb.
  - cbn. rewrite app_nil_r. destruct s. reflexivity.
  - cbn [proxy_signals fold_left map].
    rewrite (bind_returns _ _ _ _ _ (proxy_signal_bound ev s Hb)).
    rewrite IH.
    + cbn [priv trace]. rewrite <- app_assoc. reflexivity.
    + cbn [priv]. apply (written_by_signals_only_bound (priv s)).
      * apply received_written_only.
      * exact Hb.
Qed.

Lemma fold_received_written_only evs c :
  written_by_signals_only c (fold_left (fun c ev => received E ev c) evs c).
Proof.
  revert c. induction evs as [|ev evs IH]; intros c.
  - apply written_by_signals_only_refl.
  - cbn [fold_left].
    apply (written_by_signals_only_trans c (received E ev c)).
    + apply received_written_only.
    + apply IH.
Qed.

Lemma fold_received_flags evs c :
  let c' := fold_left (fun c ev => received E ev c) evs c in
  use_buffer c' = use_buffer c /\ synchronous c' = synchronous c.
Proof.
  intros c'. pose proof (fold_received_written_only evs c) as H.
  fold c' in H. unfold written_by_signals_only in H. rewrite H.
  destruct c. split; reflexivity.
Qed.

Lemma received_flags ev c :
  use_buffer (received E ev c) = use_buffer c
  /\ synchronous (received E ev c) = synchronous c.
Proof. apply (fold_received_flags [ev] c). Qed.

Lemma fold_received_package_list evs c :
  use_buffer c || synchronous c = true ->
  package_list (fold_left (fun c ev => received E ev c) evs c)
  = package_list c ++ package_items E evs.
Proof.
  revert c. induction evs as [|ev evs IH]; intros c Hon.
  - cbn. rewrite app_nil_r. reflexivity.
  - cbn [fold_left]. rewrite IH.
    + unfold package_items. cbn [flat_map]. fold (package_items E evs).
      rewrite app_assoc. f_equal.
      destruct ev; cbn [received]; rewrite ?app_nil_r; try reflexivity.
      * destruct (synchronous c); reflexivity.
      * rewrite Hon. reflexivity.
      * destruct (_ >? _); reflexivity.
    + destruct (received_flags ev c) as [-> ->]. exact Hon.
Qed.

Lemma fold_received_package_list_off evs c :
  use_buffer c || synchronous c = false ->
  package_list (fold_left (fun c ev => received E ev c) evs c) = package_list c.
Proof.
  revert c. induction evs as [|ev evs IH]; intros c Hoff; [ reflexivity | ].
  cbn [fold_left]. rewrite IH.
  - destruct ev; cbn [received]; try reflexivity.
    + destruct (synchronous c); reflexivity.
    + rewrite Hoff. reflexivity.
    + destruct (_ >? _); reflexivity.
  - destruct (received_flags ev c) as [-> ->]. exact Hoff.
Qed.

Lemma fold_received_last_status evs c :
  last_status (fold_left (fun c ev => received E ev c) evs c)
  = status_after E evs (last_status c).
Proof.
  revert c. unfold status_after. induction evs as [|ev evs IH]; intros c;
    [ reflexivity | ].
  cbn [fold_left]. rewrite IH. f_equal.
  destruct ev; cbn [received]; try reflexivity.
  - destruct (synchronous c); reflexivity.
  - destruct (_ || _); reflexivity.
  - destruct (_ >? _); reflexivity.
Qed.

Lemma fold_received_is_finished evs c :
  is_finished (fold_left (fun c ev => received E ev c) evs c)
  = is_finished c || existsb is_finished_signal evs.
Proof.
  revert c. induction evs as [|ev evs IH]; intros c.
  - cbn. rewrite orb_false_r. reflexivity.
  - cbn [fold_left existsb]. rewrite IH.
    destruct ev; cbn [received is_finished_signal]; rewrite ?orb_false_l;
      try reflexivity;
      repeat match goal with
        | |- context [if ?b then _ else _] => destruct b
        end;
      cbn [is_finished with_is_finished with_loop orb]; rewrite ?orb_true_r;
      reflexivity.
Qed.

End Signals.

Lemma written_by_signals_only_frame (c c' : PkClientPrivate) :
  written_by_signals_only c c' ->
  tid c' = tid c /\ proxy c' = proxy c /\ role c' = role c
  /\ requeue_action c' = requeue_action c
  /\ use_buffer c' = use_buffer c /\ synchronous c' = synchronous c.
Proof.
  unfold written_by_signals_only. intros H. rewrite H.
  destruct c. repeat split.
Qed.

(** X1.  Every signal that reaches a bound client is handed to the observers
    exactly once and in the order of arrival: nothing is dropped, batched or
    reordered, and the delivery always returns.  The texts of the enumerated
    values (exit, status, info, role, restart, group, error code, message)
    are handed on decoded, the other values as they came.  The type of a
    RepoSignatureRequired signal is neither: the callback passes the pointer
    to its text where the signal is registered to carry an unsigned number,
    so the observers get a number read from the address of the text. *)
Theorem signals_are_forwarded_in_order (E : Env) (s : Sys) (evs : list BusSignal) :
  bound (priv s) ->
  fst (proxy_signals E evs s) = Some tt
  /\ trace (snd (proxy_signals E evs s))
     = trace s ++ map (fun ev => SignalEmit (notification E ev)) evs.
Proof.
  intros Hb. rewrite (proxy_signals_bound E evs s Hb). split; reflexivity.
Qed.

Lemma signals_are_forwarded_in_order_witness :
  let E := Script.env (inr "/7_dcaeaaab_data") [None] false [] in
  let s := bound_to "/7_dcaeaaab_data" pk_client_new in
  trace (snd (proxy_signals E [StatusChanged "running";
                               Package "installed" "hal;0.5.10;i386;fedora" "HAL";
                               RepoSignatureRequired "hal;0.5.10;i386;fedora"
                                 "fedora" "http://fedoraproject.org/keys" "Fedora" "4F2A6FD2"
                                 "CAB4 4B99 6F27 744E" "2007-10-23"
                                 (mkGCharPointer 6295616 "gpg");
                               Finished "success" 7] s))
  = trace s ++ [SignalEmit (PK_CLIENT_STATUS_CHANGED (PK_STATUS_ENUM_VALUE 3));
                SignalEmit (PK_CLIENT_PACKAGE 0 "hal;0.5.10;i386;fedora" "HAL");
                SignalEmit (PK_CLIENT_REPO_SIGNATURE_REQUIRED
                              "hal;0.5.10;i386;fedora" "fedora" "http://fedoraproject.org/keys" "Fedora" "4F2A6FD2"
                                 "CAB4 4B99 6F27 744E" "2007-10-23"
                              (guint_from_pointer 6295616));
                SignalEmit (PK_CLIENT_FINISHED 0 7)].
Proof.
  intros E s.
  apply (proj2 (signals_are_forwarded_in_order E s
                  [StatusChanged "running";
                   Package "installed" "hal;0.5.10;i386;fedora" "HAL";
                   RepoSignatureRequired "hal;0.5.10;i386;fedora"
                     "fedora" "http://fedoraproject.org/keys" "Fedora" "4F2A6FD2"
                                 "CAB4 4B99 6F27 744E" "2007-10-23"
                     (mkGCharPointer 6295616 "gpg");
                   Finished "success" 7]
                  (ex_intro _ "/7_dcaeaaab_data" eq_refl))).
Defined.

(** X2.  On a bound client with the buffer or the synchronous mode on, the
    package list after a sequence of signals is the list before followed by
    one row per Package signal, in the order of arrival and with repeated
    packages kept; with [use_buffer] on, that is the list the accessor
    gives. *)
Theorem package_list_is_in_arrival_order (E : Env) (s : Sys) (evs : list BusSignal) :
  bound (priv s) ->
  use_buffer (priv s) || synchronous (priv s) = true ->
  let s' := snd (proxy_signals E evs s) in
  package_list (priv s') = package_list (priv s) ++ package_items E evs
  /\ (use_buffer (priv s) = true ->
      fst (pk_client_get_package_list s')
      = Some (Some (package_list (priv s) ++ package_items E evs))).
Proof.
  intros Hb Hon s'. unfold s'. rewrite (proxy_signals_bound E evs s Hb).
  cbn [snd priv]. split.
  - apply fold_received_package_list. exact Hon.
  - intros Hu. unfold pk_client_get_package_list. rewrite bind_get_priv.
    cbn [priv]. destruct (fold_received_flags E evs (priv s)) as [-> _].
    rewrite Hu. cbn [negb fst ret].
    rewrite fold_received_package_list by exact Hon. reflexivity.
Qed.

Lemma package_list_is_in_arrival_order_witness :
  let E := Script.env (inr "/7_dcaeaaab_data") [None] false [] in
  let s := bound_to "/7_dcaeaaab_data"
             (mkSys (with_use_buffer true pk_client_init) []) in
  let evs := [Package "installed" "hal;0.5.10;i386;fedora" "HAL";
              StatusChanged "running";
              Package "available" "hal;0.5.10;i386;fedora" "HAL"] in
  fst (pk_client_get_package_list (snd (proxy_signals E evs s)))
  = Some (Some [mkItem 0 "hal;0.5.10;i386;fedora" "HAL";
                mkItem 1 "hal;0.5.10;i386;fedora" "HAL"]).
Proof.
  intros E s evs.
  apply (proj2 (package_list_is_in_arrival_order E s evs
                  (ex_intro _ "/7_dcaeaaab_data" eq_refl) eq_refl) eq_refl).
Defined.

(** X3.  The signals of a transaction write to five fields only: the
    finished flag, the loop, the last status, the package list and the
    restart level.  The tid, the proxy, the role, the cached request and the
    two mode flags are as before; the last status is the one of the last
    StatusChanged signal; the finished flag is set by a Finished signal and
    no signal clears it. *)
Theorem signals_write_five_fields (E : Env) (s : Sys) (evs : list BusSignal) :
  bound (priv s) ->
  let c := priv s in
  let c' := priv (snd (proxy_signals E evs s)) in
  written_by_signals_only c c'
  /\ (tid c' = tid c /\ proxy c' = proxy c /\ role c' = role c
      /\ requeue_action c' = requeue_action c
      /\ use_buffer c' = use_buffer c /\ synchronous c' = synchronous c)
  /\ last_status c' = status_after E evs (last_status c)
  /\ is_finished c' = is_finished c || existsb is_finished_signal evs.
Proof.
  intros Hb c c'. unfold c'. rewrite (proxy_signals_bound E evs s Hb).
  cbn [snd priv].
  pose proof (fold_received_written_only E evs c) as Hw.
  split; [ exact Hw | ]. split; [ | split ].
  - exact (written_by_signals_only_frame _ _ Hw).
  - apply fold_received_last_status.
  - apply fold_received_is_finished.
Qed.

Lemma signals_write_five_fields_witness :
  let E := Script.env (inr "/7_dcaeaaab_data") [None] false [] in
  let s := snd (run_ops E [Call (SearchName 1 (Some "power"))] pk_client_new) in
  let c' := priv (snd (proxy_signals E [StatusChanged "running"; Finished "success" 7;
                                        AllowCancel false] s)) in
  requeue_action c' = Some (SearchName 1 (Some "power"))
  /\ last_status c' = PK_STATUS_ENUM_VALUE 3
  /\ is_finished c' = true.
Proof.
  intros E s c'.
  destruct (signals_write_five_fields E s
              [StatusChanged "running"; Finished "success" 7; AllowCancel false]
              (ex_intro _ "/7_dcaeaaab_data" eq_refl))
    as (_ & (_ & _ & _ & Hq & _) & Hst & Hf).
  fold c' in Hq, Hst, Hf. rewrite Hq, Hst, Hf. repeat split.
Defined.

(** * The private main loop of the synchronous mode *)

Section Loop.

Variable E : Env.

Lemma received_loop (ev : BusSignal) (c : PkClientPrivate) :
  is_finished_signal ev = false -> loop (received E ev c) = loop c.
Proof.
  intros H. destruct ev; try discriminate H; cbn [received];
    repeat match goal with
           | |- context [if ?b then _ else _] => destruct b
           end; destruct c; reflexivity.
Qed.

Lemma received_finished_quits (exit_text : string) (runtime : Z)
    (c : PkClientPrivate) :
  synchronous c = true ->
  is_running (loop (received E (Finished exit_text runtime) c)) = false
  /\ is_finished (received E (Finished exit_text runtime) c) = true.
Proof.
  intros H. cbn [received]. rewrite H. destruct c. split; reflexivity.
Qed.

(** The loop hands over the signals up to the first Finished one and is
    left there. *)
Lemma g_main_loop_iterate_until_finished pre exit_text runtime post s :
  bound (priv s) ->
  synchronous (priv s) = true ->
  is_running (loop (priv s)) = true ->
  forallb (fun ev => negb (is_finished_signal ev)) pre = true ->
  g_main_loop_iterate E (pre ++ Finished exit_text runtime :: post) s
  = (Some tt,
     mkSys (received E (Finished exit_text runtime)
              (fold_left (fun c ev => received E ev c) pre (priv s)))
           (trace s ++ map (fun ev => SignalEmit (notification E ev))
                         (pre ++ [Finished exit_text runtime]))).
Proof.
  revert s. induction pre as [ | ev pre IH ]; intros s Hb Hs Hl Hpre.
  - cbn [app g_main_loop_iterate fold_left map].
    rewrite (bind_returns _ _ _ _ _ (proxy_signal_bound E _ s Hb)).
    rewrite bind_get_priv. cbn [priv].
    destruct (received_finished_quits exit_text runtime (priv s) Hs) as [-> _].
    reflexivity.
  - cbn [forallb] in Hpre. apply andb_prop in Hpre. destruct Hpre as [Hev Hpre].
    apply negb_true_iff in Hev.
    cbn [app g_main_loop_iterate fold_left map].
    rewrite (bind_returns _ _ _ _ _ (proxy_signal_bound E _ s Hb)).
    rewrite bind_get_priv. cbn [priv].
    rewrite (received_loop ev (priv s) Hev), Hl.
    rewrite IH; cbn [priv trace].
    + rewrite <- app_assoc. reflexivity.
    + exact (written_by_signals_only_bound _ _ (received_written_only E ev (priv s)) Hb).
    + destruct (received_flags E ev (priv s)) as [_ ->]. exact Hs.
    + rewrite (received_loop ev (priv s) Hev). exact Hl.
    + exact Hpre.
Qed.

(** Without a Finished signal the loop is never left. *)
Lemma g_main_loop_iterate_parks pending s :
  bound (priv s) ->
  is_running (loop (priv s)) = true ->
  forallb (fun ev => negb (is_finished_signal ev)) pending = true ->
  g_main_loop_iterate E pending s
  = (None,
     mkSys (fold_left (fun c ev => received E ev c) pending (priv s))
           (trace s ++ map (fun ev => SignalEmit (notification E ev)) pending)).
Proof.
  revert s. induction pending as [ | ev pre IH ]; intros s Hb Hl Hpre.
  - cbn [g_main_loop_iterate fold_left map]. rewrite app_nil_r.
    destruct s. reflexivity.
  - cbn [forallb] in Hpre. apply andb_prop in Hpre. destruct Hpre as [Hev Hpre].
    apply negb_true_iff in Hev.
    cbn [g_main_loop_iterate fold_left map].
    rewrite (bind_returns _ _ _ _ _ (proxy_signal_bound E _ s Hb)).
    rewrite bind_get_priv. cbn [priv].
    rewrite (received_loop ev (priv s) Hev), Hl.
    rewrite IH; cbn [priv trace].
    + rewrite <- app_assoc. reflexivity.
    + exact (written_by_signals_only_bound _ _ (received_written_only E ev (priv s)) Hb).
    + rewrite (received_loop ev (priv s) Hev). exact Hl.
    + exact Hpre.
Qed.

(** The wait of a synchronous action whose transaction finishes. *)
Lemma wait_for_finished_synchronous pre exit_text runtime post s :
  bound (priv s) ->
  synchronous (priv s) = true ->
  is_finished (priv s) = false ->
  g_main_context_pending E
    (trace s ++ [SignalEmit (PK_CLIENT_STATUS_CHANGED PK_STATUS_ENUM_WAIT)])
  = pre ++ Finished exit_text runtime :: post ->
  forallb (fun ev => negb (is_finished_signal ev)) pre = true ->
  wait_for_finished E true s
  = (Some tt,
     mkSys (received E (Finished exit_text runtime)
              (fold_left (fun c ev => received E ev c) pre
                 (with_loop (mkLoop true)
                    (with_last_status PK_STATUS_ENUM_WAIT (priv s)))))
           (trace s
            ++ [SignalEmit (PK_CLIENT_STATUS_CHANGED PK_STATUS_ENUM_WAIT);
                MainLoopRun]
            ++ map (fun ev => SignalEmit (notification E ev))
                 (pre ++ [Finished exit_text runtime]))).
Proof.
  intros Hb Hs Hf Hpend Hpre.
  unfold wait_for_finished. rewrite bind_get_priv. rewrite Hf. tests.
  unfold pk_client_change_status, g_signal_emit.
  unfold bind at 1. unfold bind at 1. cbn [record modify fst snd priv trace].
  cbv beta iota.
  rewrite bind_get_priv. cbn [priv].
  replace (synchronous (with_last_status PK_STATUS_ENUM_WAIT (priv s)))
    with true by (rewrite <- Hs; destruct (priv s); reflexivity).
  unfold g_main_loop_run. rewrite bind_modify, bind_history, bind_record.
  cbn [priv trace]. rewrite Hpend.
  rewrite g_main_loop_iterate_until_finished; cbn [priv trace].
  - rewrite <- !app_assoc. reflexivity.
  - destruct Hb as [path Hp]. exists path. rewrite <- Hp.
    destruct (priv s); reflexivity.
  - rewrite <- Hs. destruct (priv s); reflexivity.
  - destruct (priv s); reflexivity.
  - exact Hpre.
Qed.

(** The wait of a synchronous action whose transaction never finishes. *)
Lemma wait_for_finished_parks pending s :
  bound (priv s) ->
  synchronous (priv s) = true ->
  is_finished (priv s) = false ->
  g_main_context_pending E
    (trace s ++ [SignalEmit (PK_CLIENT_STATUS_CHANGED PK_STATUS_ENUM_WAIT)])
  = pending ->
  forallb (fun ev => negb (is_finished_signal ev)) pending = true ->
  fst (wait_for_finished E true s) = None.
Proof.
  intros Hb Hs Hf Hpend Hpre.
  unfold wait_for_finished. rewrite bind_get_priv. rewrite Hf. tests.
  unfold pk_client_change_status, g_signal_emit.
  unfold bind at 1. unfold bind at 1. cbn [record modify fst snd priv trace].
  cbv beta iota.
  rewrite bind_get_priv. cbn [priv].
  replace (synchronous (with_last_status PK_STATUS_ENUM_WAIT (priv s)))
    with true by (rewrite <- Hs; destruct (priv s); reflexivity).
  unfold g_main_loop_run. rewrite bind_modify, bind_history, bind_record.
  cbn [priv trace]. rewrite Hpend.
  rewrite g_main_loop_iterate_parks; cbn [priv trace].
  - reflexivity.
  - destruct Hb as [path Hp]. exists path. rewrite <- Hp.
    destruct (priv s); reflexivity.
  - destruct (priv s); reflexivity.
  - exact Hpre.
Qed.

End Loop.

(** A synchronous search by name whose transaction finishes, run in
    full. *)
Lemma pk_client_search_name_synchronous (E : Env) (s : Sys) (tid' : string)
    (filters : PkFilterEnum) (search : option string)
    (pre post : list BusSignal) (exit_text : string) (runtime : Z) :
  let args := [filter_arg E filters; G_TYPE_STRING search] in
  let called := trace (bound_to tid' s) ++ [ProxyCall tid' "SearchName" args] in
  let waiting := SignalEmit (PK_CLIENT_STATUS_CHANGED PK_STATUS_ENUM_WAIT) in
  allocates E s tid' ->
  synchronous (priv s) = true ->
  is_finished (priv s) = false ->
  dbus_reply E (trace (bound_to tid' s)) tid' "SearchName" args = None ->
  g_main_context_pending E (called ++ [waiting])
  = pre ++ Finished exit_text runtime :: post ->
  forallb (fun ev => negb (is_finished_signal ev)) pre = true ->
  pk_client_search_name E filters search s
    = (Some (true, None),
       mkSys (received E (Finished exit_text runtime)
                (fold_left (fun c ev => received E ev c) pre
                   (with_loop (mkLoop true)
                      (with_last_status PK_STATUS_ENUM_WAIT
                         (with_cached_search search
                            (with_cached_filters filters
                               (with_role PK_ROLE_ENUM_SEARCH_NAME
                                  (priv (bound_to tid' s)))))))))
             (called ++ [waiting; MainLoopRun]
              ++ map (fun ev => SignalEmit (notification E ev))
                   (pre ++ [Finished exit_text runtime]))).
Proof.
  intros args called waiting Ha Hs Hf Hreply Hpend Hpre.
  unfold pk_client_search_name, pk_client_search.
  rewrite (bind_returns _ _ _ _ _
             (pk_client_allocate_transaction_id_allocates E s tid' Ha)).
  tests. rewrite bind_modify. unfold call_and_wait.
  rewrite bind_get_priv. cbn [priv].
  replace (proxy (with_cached_search search
                    (with_cached_filters filters
                       (with_role PK_ROLE_ENUM_SEARCH_NAME
                          (priv (bound_to tid' s))))))
    with (Some (mkProxy tid' connected_signals))
    by (destruct s as [c t]; destruct c; reflexivity).
  rewrite (bind_returns _ _ _ _ _ (dbus_g_proxy_call_runs E _ _ _ _)).
  cbn [priv trace proxy_path]. fold args. rewrite Hreply.
  cbn [is_none].
  match goal with
  | |- bind (wait_for_finished E true) _ ?s2 = _ =>
      assert (Hb2 : bound (priv s2))
        by (exists tid'; destruct s as [c t]; destruct c; reflexivity);
      assert (Hs2 : synchronous (priv s2) = true)
        by (cbn [priv]; rewrite <- Hs; destruct s as [c t]; destruct c;
            reflexivity);
      assert (Hf2 : is_finished (priv s2) = false)
        by (cbn [priv]; rewrite <- Hf; destruct s as [c t]; destruct c;
            reflexivity);
      rewrite (bind_returns _ _ _ _ _
                 (wait_for_finished_synchronous E pre exit_text runtime post s2
                    Hb2 Hs2 Hf2 Hpend Hpre))
  end.
  cbn [priv trace]. unfold called. rewrite <- ?app_assoc. reflexivity.
Qed.

(** What a synchronous search by name that finishes leaves. *)
Lemma pk_client_search_name_synchronous_result (E : Env) (s : Sys)
    (tid' : string) (filters : PkFilterEnum) (search : option string)
    (pre post : list BusSignal) (exit_text : string) (runtime : Z) :
  let args := [filter_arg E filters; G_TYPE_STRING search] in
  let called := trace (bound_to tid' s) ++ [ProxyCall tid' "SearchName" args] in
  let waiting := SignalEmit (PK_CLIENT_STATUS_CHANGED PK_STATUS_ENUM_WAIT) in
  allocates E s tid' ->
  synchronous (priv s) = true ->
  is_finished (priv s) = false ->
  dbus_reply E (trace (bound_to tid' s)) tid' "SearchName" args = None ->
  g_main_context_pending E (called ++ [waiting])
  = pre ++ Finished exit_text runtime :: post ->
  forallb (fun ev => negb (is_finished_signal ev)) pre = true ->
  let s' := snd (pk_client_search_name E filters search s) in
  fst (pk_client_search_name E filters search s) = Some (true, None)
  /\ is_finished (priv s') = true
  /\ package_list (priv s') = package_list (priv s) ++ package_items E pre
  /\ last_status (priv s') = status_after E pre PK_STATUS_ENUM_WAIT
  /\ trace s'
     = called ++ [waiting; MainLoopRun]
       ++ map (fun ev => SignalEmit (notification E ev))
            (pre ++ [Finished exit_text runtime]).
Proof.
  intros args called waiting Ha Hs Hf Hreply Hpend Hpre s'.
  pose proof (pk_client_search_name_synchronous E s tid' filters search pre
                post exit_text runtime Ha Hs Hf Hreply Hpend Hpre) as Hrun.
  cbv zeta in Hrun. fold args called waiting in Hrun.
  unfold s'. rewrite Hrun. cbn [fst snd priv trace].
  split; [ reflexivity | ].
  assert (Hsyn : synchronous
            (with_loop (mkLoop true)
               (with_last_status PK_STATUS_ENUM_WAIT
                  (with_cached_search search
                     (with_cached_filters filters
                        (with_role PK_ROLE_ENUM_SEARCH_NAME
                           (priv (bound_to tid' s))))))) = true)
    by (rewrite <- Hs; destruct s as [c t]; destruct c; reflexivity).
  set (c0 := with_loop _ _) in *.
  assert (Hsyn' : synchronous (fold_left (fun c ev => received E ev c) pre c0) = true)
    by (destruct (fold_received_flags E pre c0) as [_ ->]; exact Hsyn).
  repeat split.
  - exact (proj2 (received_finished_quits E exit_text runtime _ Hsyn')).
  - cbn [received]. rewrite Hsyn'.
    replace (package_list (with_loop (mkLoop false)
               (with_is_finished true (fold_left (fun c ev => received E ev c) pre c0))))
      with (package_list (fold_left (fun c ev => received E ev c) pre c0))
      by (destruct (fold_left _ pre c0); reflexivity).
    rewrite fold_received_package_list by (rewrite Hsyn; apply orb_true_r).
    unfold c0. destruct s as [c t]; destruct c; reflexivity.
  - cbn [received]. rewrite Hsyn'.
    replace (last_status (with_loop (mkLoop false)
               (with_is_finished true (fold_left (fun c ev => received E ev c) pre c0))))
      with (last_status (fold_left (fun c ev => received E ev c) pre c0))
      by (destruct (fold_left _ pre c0); reflexivity).
    rewrite fold_received_last_status.
    unfold c0. destruct s as [c t]; destruct c; reflexivity.
Qed.

(** X4.  A synchronous search by name returns when, and only when, the
    Finished signal of its transaction arrives: it then returns TRUE without
    an error, the client is finished, the package list has grown by the
    packages signalled before Finished, in order, the observers were told
    the client waits and then each signal up to Finished, and what was
    pending behind Finished is not delivered. *)
Theorem synchronous_search_returns_at_finished (E : Env) (s : Sys)
    (tid' : string) (filters : PkFilterEnum) (search : option string)
    (pre post : list BusSignal) (exit_text : string) (runtime : Z) :
  let args := [filter_arg E filters; G_TYPE_STRING search] in
  let called := trace (bound_to tid' s) ++ [ProxyCall tid' "SearchName" args] in
  let waiting := SignalEmit (PK_CLIENT_STATUS_CHANGED PK_STATUS_ENUM_WAIT) in
  allocates E s tid' ->
  synchronous (priv s) = true ->
  is_finished (priv s) = false ->
  dbus_reply E (trace (bound_to tid' s)) tid' "SearchName" args = None ->
  g_main_context_pending E (called ++ [waiting])
  = pre ++ Finished exit_text runtime :: post ->
  forallb (fun ev => negb (is_finished_signal ev)) pre = true ->
  let s' := snd (pk_client_search_name E filters search s) in
  fst (pk_client_search_name E filters search s) = Some (true, None)
  /\ is_finished (priv s') = true
  /\ package_list (priv s') = package_list (priv s) ++ package_items E pre
  /\ last_status (priv s') = status_after E pre PK_STATUS_ENUM_WAIT
  /\ trace s'
     = called ++ [waiting; MainLoopRun]
       ++ map (fun ev => SignalEmit (notification E ev))
            (pre ++ [Finished exit_text runtime]).
Proof.
  intros args called waiting Ha Hs Hf Hreply Hpend Hpre.
  exact (pk_client_search_name_synchronous_result E s tid' filters search pre
           post exit_text runtime Ha Hs Hf Hreply Hpend Hpre).
Qed.

Lemma synchronous_search_returns_at_finished_witness :
  let hal := Package "installed" "hal;0.5.10;i386;fedora" "HAL" in
  let E := Script.env (inr "/7_dcaeaaab_data") [None] false
             [StatusChanged "running"; hal; Finished "success" 7; hal] in
  let s := mkSys (with_synchronous true pk_client_init) [] in
  let s' := snd (pk_client_search_name E 1 (Some "power") s) in
  fst (pk_client_search_name E 1 (Some "power") s) = Some (true, None)
  /\ is_finished (priv s') = true
  /\ package_list (priv s') = [mkItem 0 "hal;0.5.10;i386;fedora" "HAL"]
  /\ last_status (priv s') = PK_STATUS_ENUM_VALUE 3.
Proof.
  intros hal E s s'.
  destruct (synchronous_search_returns_at_finished E s "/7_dcaeaaab_data" 1
              (Some "power") [StatusChanged "running"; hal] [hal] "success" 7
              (conj eq_refl (conj eq_refl eq_refl)) eq_refl eq_refl eq_refl
              eq_refl eq_refl)
    as (Hr & Hf & Hp & Hst & _).
  split; [ exact Hr | ]. split; [ exact Hf | ].
  split; [ exact Hp | exact Hst ].
Defined.

(** X5.  A synchronous search by name whose transaction never signals
    Finished never returns: nothing but that signal ends the wait. *)
Theorem synchronous_search_waits_for_finished (E : Env) (s : Sys)
    (tid' : string) (filters : PkFilterEnum) (search : option string)
    (pending : list BusSignal) :
  let args := [filter_arg E filters; G_TYPE_STRING search] in
  let called := trace (bound_to tid' s) ++ [ProxyCall tid' "SearchName" args] in
  let waiting := SignalEmit (PK_CLIENT_STATUS_CHANGED PK_STATUS_ENUM_WAIT) in
  allocates E s tid' ->
  synchronous (priv s) = true ->
  is_finished (priv s) = false ->
  dbus_reply E (trace (bound_to tid' s)) tid' "SearchName" args = None ->
  g_main_context_pending E (called ++ [waiting]) = pending ->
  forallb (fun ev => negb (is_finished_signal ev)) pending = true ->
  fst (pk_client_search_name E filters search s) = None.
Proof.
  intros args called waiting Ha Hs Hf Hreply Hpend Hpre.
  unfold pk_client_search_name, pk_client_search.
  rewrite (bind_returns _ _ _ _ _
             (pk_client_allocate_transaction_id_allocates E s tid' Ha)).
  tests. rewrite bind_modify. unfold call_and_wait.
  rewrite bind_get_priv. cbn [priv].
  replace (proxy (with_cached_search search
                    (with_cached_filters filters
                       (with_role PK_ROLE_ENUM_SEARCH_NAME
                          (priv (bound_to tid' s))))))
    with (Some (mkProxy tid' connected_signals))
    by (destruct s as [c t]; destruct c; reflexivity).
  rewrite (bind_returns _ _ _ _ _ (dbus_g_proxy_call_runs E _ _ _ _)).
  cbn [priv trace proxy_path]. fold args. rewrite Hreply.
  cbn [is_none].
  match goal with
  | |- fst (bind (wait_for_finished E true) _ ?s2) = None =>
      assert (Hb2 : bound (priv s2))
        by (exists tid'; destruct s as [c t]; destruct c; reflexivity);
      assert (Hs2 : synchronous (priv s2) = true)
        by (cbn [priv]; rewrite <- Hs; destruct s as [c t]; destruct c;
            reflexivity);
      assert (Hf2 : is_finished (priv s2) = false)
        by (cbn [priv]; rewrite <- Hf; destruct s as [c t]; destruct c;
            reflexivity);
      pose proof (wait_for_finished_parks E pending s2 Hb2 Hs2 Hf2 Hpend Hpre)
        as Hw
  end.
  unfold bind at 1.
  destruct (wait_for_finished E true _) as [[ [] | ] s3].
  - discriminate Hw.
  - reflexivity.
Qed.

Lemma synchronous_search_waits_for_finished_witness :
  let hal := Package "installed" "hal;0.5.10;i386;fedora" "HAL" in
  let E := Script.env (inr "/7_dcaeaaab_data") [None] false
             [StatusChanged "running"; hal] in
  let s := mkSys (with_synchronous true pk_client_init) [] in
  fst (pk_client_search_name E 1 (Some "power") s) = None.
Proof.
  intros hal E s.
  apply (synchronous_search_waits_for_finished E s "/7_dcaeaaab_data" 1
           (Some "power") [StatusChanged "running"; hal]
           (conj eq_refl (conj eq_refl eq_refl)) eq_refl eq_refl eq_refl
           eq_refl eq_refl).
Defined.
(** * What every operation keeps

    A property of the private data that the writes of the client keep is
    kept by every operation.  The writes are: the five fields of the
    callbacks, the role and the cached request, the binding of a tid, the
    fields [pk_client_requeue] and [pk_client_reset] clear, and the two mode
    flags, which are written only while they are off. *)

Section Keeping.

Variable E : Env.
Variable P : PkClientPrivate -> Prop.

Hypothesis P_signal : forall c c', written_by_signals_only c c' -> P c -> P c'.
Hypothesis P_request : forall c c', request_written_only c c' -> P c -> P c'.
Hypothesis P_set_tid : forall tid', preserves P (pk_client_set_tid E tid').
Hypothesis P_requeue : forall c, P c -> P (requeue_fields c).
Hypothesis P_reset : forall c, P c -> P (reset_priv c).
Hypothesis P_use_buffer :
  forall b c, use_buffer c = false -> P c -> P (with_use_buffer b c).
Hypothesis P_synchronous :
  forall b c, synchronous c = false -> P c -> P (with_synchronous b c).

Ltac keep_modify :=
  match goal with
  | |- preserves P (modify _) =>
      let c := fresh "c" in
      let Hc := fresh "Hc" in
      apply preserves_modify; intros c Hc;
      first [ apply (P_signal c);
              [ unfold written_by_signals_only; destruct c; reflexivity
              | exact Hc ]
            | apply (P_request c);
              [ unfold request_written_only; destruct c; reflexivity
              | exact Hc ] ]
  end.

Ltac keep_all := repeat first [ keep_step | keep_modify ].

Lemma keeps_g_main_loop_quit : preserves P g_main_loop_quit.
Proof. unfold g_main_loop_quit. keep_all. Qed.

Lemma keeps_change_status status : preserves P (pk_client_change_status status).
Proof. unfold pk_client_change_status. keep_all. Qed.

#[local] Hint Resolve keeps_g_main_loop_quit keeps_change_status : pk_keep.

Lemma keeps_callback ev : preserves P (callback E ev).
Proof.
  destruct ev; simpl;
    unfold pk_client_finished_cb, pk_client_progress_changed_cb,
      pk_client_status_changed_cb, pk_client_package_cb,
      pk_client_transaction_cb, pk_client_update_detail_cb,
      pk_client_details_cb, pk_client_files_cb,
      pk_client_repo_signature_required_cb, pk_client_eula_required_cb,
      pk_client_repo_detail_cb, pk_client_error_code_cb,
      pk_client_require_restart_cb, pk_client_message_cb,
      pk_client_caller_active_changed_cb, pk_client_allow_cancel_cb;
    keep_all.
Qed.

#[local] Hint Resolve keeps_callback : pk_keep.

Lemma keeps_proxy_signal ev : preserves P (proxy_signal E ev).
Proof. unfold proxy_signal. keep_all. Qed.

#[local] Hint Resolve keeps_proxy_signal : pk_keep.

Lemma keeps_proxy_signals evs : preserves P (proxy_signals E evs).
Proof. induction evs as [|ev evs IH]; simpl; keep_all. Qed.

Lemma keeps_g_main_loop_iterate pending :
  preserves P (g_main_loop_iterate E pending).
Proof. induction pending as [|ev pending IH]; simpl; keep_all. Qed.

#[local] Hint Resolve keeps_g_main_loop_iterate : pk_keep.

Lemma keeps_g_main_loop_run : preserves P (g_main_loop_run E).
Proof. unfold g_main_loop_run. keep_all. Qed.

Lemma keeps_dbus_g_proxy_call p method args :
  preserves P (dbus_g_proxy_call E p method args).
Proof. unfold dbus_g_proxy_call. keep_all. Qed.

Lemma keeps_gain_privilege_str error_str :
  preserves P (gain_privilege_str E error_str).
Proof. unfold gain_privilege_str. keep_all. Qed.

#[local] Hint Resolve keeps_g_main_loop_run keeps_dbus_g_proxy_call
  keeps_gain_privilege_str : pk_keep.

Lemma keeps_cancel : preserves P (pk_client_cancel E).
Proof. unfold pk_client_cancel. keep_all. Qed.

Lemma keeps_wait_for_finished r : preserves P (wait_for_finished E r).
Proof. unfold wait_for_finished. keep_all. Qed.

#[local] Hint Resolve keeps_cancel keeps_wait_for_finished : pk_keep.

Lemma keeps_call_and_wait error method args :
  preserves P (call_and_wait E error method args).
Proof. unfold call_and_wait. keep_all. Qed.

Lemma keeps_call_action method args : preserves P (call_action E method args).
Proof. unfold call_action. keep_all. Qed.

Lemma keeps_retry_with_privilege action :
  preserves P action -> preserves P (retry_with_privilege E action).
Proof. intros H. unfold retry_with_privilege. keep_all. Qed.

Lemma keeps_propagate_and_wait r error_pk :
  preserves P (propagate_and_wait E r error_pk).
Proof. unfold propagate_and_wait. keep_all. Qed.

#[local] Hint Resolve keeps_call_and_wait keeps_call_action
  keeps_retry_with_privilege keeps_propagate_and_wait : pk_keep.

Lemma keeps_queries :
  preserves P (pk_client_get_allow_cancel E)
  /\ preserves P (pk_client_get_status E)
  /\ preserves P (pk_client_get_package E)
  /\ preserves P (pk_client_get_progress E)
  /\ (forall want, preserves P (pk_client_get_role E want))
  /\ preserves P (pk_client_is_caller_active E).
Proof.
  repeat match goal with |- _ /\ _ => split end;
    try match goal with |- forall _ : bool, _ => intros want end;
    unfold pk_client_get_allow_cancel, pk_client_get_status,
      pk_client_get_package, pk_client_get_progress, pk_client_get_role,
      pk_client_is_caller_active;
    keep_all.
Qed.

Lemma keeps_allocate_transaction_id :
  preserves P (pk_client_allocate_transaction_id E).
Proof.
  unfold pk_client_allocate_transaction_id.
  pose proof P_set_tid. keep_all.
Qed.

#[local] Hint Resolve keeps_allocate_transaction_id : pk_keep.

Lemma keeps_run_action a : preserves P (run_action E a).
Proof.
  destruct a; simpl;
    unfold pk_client_get_updates, pk_client_update_system,
      pk_client_update_system_action,
      pk_client_search_name, pk_client_search_details, pk_client_search_group,
      pk_client_search_file, pk_client_search, pk_client_get_depends,
      pk_client_get_packages, pk_client_get_requires, pk_client_what_provides,
      pk_client_get_update_detail, pk_client_rollback, pk_client_resolve,
      pk_client_get_details, pk_client_get_files,
      pk_client_update_package, pk_client_install_package,
      pk_client_remove_package, pk_client_install_file,
      pk_client_remove_packages, pk_client_remove_packages_action,
      pk_client_refresh_cache, pk_client_refresh_cache_action,
      pk_client_install_packages, pk_client_install_package_action,
      pk_client_install_signature, pk_client_install_signature_action,
      pk_client_update_packages, pk_client_update_packages_action,
      pk_client_install_files, pk_client_install_files_action,
      pk_client_get_repo_list, pk_client_accept_eula,
      pk_client_accept_eula_action, pk_client_repo_enable,
      pk_client_repo_enable_action, pk_client_repo_set_data,
      pk_client_repo_set_data_action, pk_client_get_old_transactions;
    keep_all.
Qed.

Lemma keeps_requeue : preserves P (pk_client_requeue E).
Proof.
  unfold pk_client_requeue.
  apply preserves_bind; [ auto with pk_keep | intros c ].
  destruct (PkRoleEnum_eqb (role c) PK_ROLE_ENUM_UNKNOWN); [ apply preserves_ret | ].
  destruct (negb (is_finished c)); [ apply preserves_ret | ].
  apply preserves_bind;
    [ apply preserves_modify; exact P_requeue | intros _ ].
  apply preserves_bind; [ keep_all | intros _ ].
  apply preserves_bind; [ auto with pk_keep | intros p ].
  destruct (role p); try apply preserves_ret;
    (apply preserves_bind; [ | intros [r error]; apply preserves_ret ]).
  - apply (keeps_run_action (SearchName _ _)).
  - apply (keeps_run_action (SearchDetails _ _)).
  - apply (keeps_run_action (SearchGroup _ _)).
  - apply (keeps_run_action (SearchFile _ _)).
  - apply (keeps_run_action (GetDepends _ _ _)).
  - apply (keeps_run_action (GetRequires _ _ _)).
  - apply (keeps_run_action (GetDetails _)).
  - apply (keeps_run_action (GetFiles _)).
  - apply (keeps_run_action (GetUpdates _)).
  - apply (keeps_run_action (GetUpdateDetail _)).
  - apply (keeps_run_action (Resolve _ _)).
  - apply (keeps_run_action (Rollback _)).
  - apply (keeps_run_action (InstallPackages _)).
  - apply (keeps_run_action (InstallFiles _ _)).
  - exact (keeps_run_action (InstallSignature PK_SIGTYPE_ENUM_GPG (cached_key_id p) (cached_package_id p))).
  - apply (keeps_run_action (RemovePackages _ _ _)).
  - apply (keeps_run_action (UpdatePackages _)).
  - apply (keeps_run_action UpdateSystem).
  - apply (keeps_run_action (RefreshCache _)).
  - apply (keeps_run_action (GetRepoList _)).
Qed.

Lemma keeps_reset : preserves P (pk_client_reset E).
Proof.
  intros s H. unfold pk_client_reset. rewrite bind_get_priv.
  destruct (negb (is_none (tid (priv s))) && negb (is_finished (priv s))).
  - destruct (pk_client_cancel_runs E s) as (r & error1 & tr & Hc & _).
    rewrite (bind_returns _ _ _ _ _ Hc). tests.
    destruct r; tests.
    + rewrite reset_after_cancel. cbn [snd priv]. apply P_reset. exact H.
    + exact H.
  - rewrite bind_ret. tests. rewrite reset_after_cancel. cbn [snd priv].
    apply P_reset. exact H.
Qed.

Lemma keeps_set_use_buffer b : preserves P (pk_client_set_use_buffer b).
Proof.
  intros s H. unfold pk_client_set_use_buffer. rewrite bind_get_priv.
  destruct (use_buffer (priv s)) eqn:Hu; tests; [ exact H | ].
  rewrite bind_modify. cbn [ret snd priv]. apply P_use_buffer; assumption.
Qed.

Lemma keeps_set_synchronous b : preserves P (pk_client_set_synchronous b).
Proof.
  intros s H. unfold pk_client_set_synchronous. rewrite bind_get_priv.
  destruct (synchronous (priv s)) eqn:Hu; tests; [ exact H | ].
  rewrite bind_modify. cbn [ret snd priv]. apply P_synchronous; assumption.
Qed.

Lemma keeps_run_op op : preserves P (run_op E op).
Proof.
  destruct keeps_queries as (Q1 & Q2 & Q3 & Q4 & Q5 & Q6).
  destruct op; simpl; unfold discard;
    try (apply preserves_bind; [ | intros ?; apply preserves_ret ]).
  - apply keeps_run_action.
  - apply keeps_cancel.
  - apply keeps_reset.
  - apply keeps_requeue.
  - apply P_set_tid.
  - apply keeps_set_use_buffer.
  - apply keeps_set_synchronous.
  - exact Q1.
  - exact Q2.
  - exact Q3.
  - exact Q4.
  - apply Q5.
  - exact Q6.
  - apply keeps_proxy_signal.
Qed.

Lemma keeps_run_ops ops : preserves P (run_ops E ops).
Proof.
  induction ops as [|op ops IH]; simpl.
  - apply preserves_ret.
  - apply preserves_bind; [ apply keeps_run_op | intros _; exact IH ].
Qed.

End Keeping.
(** ** A tid and its proxy *)

Section TidProxy.

Variable E : Env.

Lemma tid_has_proxy_signal c c' :
  written_by_signals_only c c' -> tid_has_proxy c -> tid_has_proxy c'.
Proof.
  intros Hw H t. destruct (written_by_signals_only_frame c c' Hw) as (-> & -> & _).
  apply H.
Qed.

Lemma request_written_only_frame c c' :
  request_written_only c c' ->
  tid c' = tid c /\ proxy c' = proxy c
  /\ use_buffer c' = use_buffer c /\ synchronous c' = synchronous c
  /\ is_finished c' = is_finished c /\ package_list c' = package_list c.
Proof.
  unfold request_written_only. intros H. rewrite H.
  destruct c. repeat split.
Qed.

Lemma tid_has_proxy_request c c' :
  request_written_only c c' -> tid_has_proxy c -> tid_has_proxy c'.
Proof.
  intros Hw H t. destruct (request_written_only_frame c c' Hw) as (-> & -> & _).
  apply H.
Qed.

Lemma tid_has_proxy_set_tid tid' :
  preserves tid_has_proxy (pk_client_set_tid E tid').
Proof.
  intros s H. unfold pk_client_set_tid. rewrite bind_get_priv.
  destruct (tid (priv s)) eqn:Ht; [ exact H | ].
  rewrite bind_history, bind_record.
  destruct (dbus_g_proxy_new_for_name E (trace s) tid'); tests; [ | exact H ].
  rewrite !bind_modify. cbn [ret snd priv].
  intros t Hset. destruct (priv s). cbn in Hset |- *.
  injection Hset as <-. reflexivity.
Qed.

Lemma reachable_tid_has_proxy s : reachable E s -> tid_has_proxy (priv s).
Proof.
  intros [ops <-].
  apply (keeps_run_ops E tid_has_proxy tid_has_proxy_signal tid_has_proxy_request
           tid_has_proxy_set_tid).
  - intros c _ t Ht. destruct c. discriminate Ht.
  - intros c _ t Ht. discriminate Ht.
  - intros b c _ H t Ht. destruct c. exact (H t Ht).
  - intros b c _ H t Ht. destruct c. exact (H t Ht).
  - intros t Ht. discriminate Ht.
Qed.

(** The buffer mode, once on, is kept by every action. *)
Lemma use_buffer_on_run_action a :
  preserves (fun c => use_buffer c = true) (run_action E a).
Proof.
  apply (keeps_run_action E (fun c => use_buffer c = true)).
  - intros c c' Hw Hc.
    destruct (written_by_signals_only_frame c c' Hw) as (_ & _ & _ & _ & -> & _).
    exact Hc.
  - intros c c' Hw Hc.
    destruct (request_written_only_frame c c' Hw) as (_ & _ & -> & _).
    exact Hc.
  - intros tid'. unfold pk_client_set_tid. repeat keep_step;
      apply preserves_modify; intros c Hc; destruct c; exact Hc.
Qed.

End TidProxy.

(** X6.  Over every sequence of calls and signals from a new client, a
    client that has a tid holds the proxy of that very transaction with all
    its callbacks connected.  So each of the four queries that test the tid
    (allow-cancel, status, package, progress) either finds no tid, and then
    returns FALSE with no error set and without a call, or makes its one
    call on that transaction: their branch that sets the "No proxy for
    transaction" error is never taken. *)
Theorem a_tid_comes_with_its_proxy (E : Env) (s : Sys) :
  reachable E s ->
  (forall t, tid (priv s) = Some t ->
     proxy (priv s) = Some (mkProxy t connected_signals)
     /\ trace (snd (pk_client_get_allow_cancel E s))
        = trace s ++ [ProxyCall t "GetAllowCancel" []]
     /\ trace (snd (pk_client_get_status E s))
        = trace s ++ [ProxyCall t "GetStatus" []]
     /\ trace (snd (pk_client_get_package E s))
        = trace s ++ [ProxyCall t "GetPackage" []]
     /\ trace (snd (pk_client_get_progress E s))
        = trace s ++ [ProxyCall t "GetProgress" []])
  /\ (tid (priv s) = None ->
      pk_client_get_allow_cancel E s = (Some ((false, None), None), s)
      /\ pk_client_get_status E s = (Some ((false, None), None), s)
      /\ pk_client_get_package E s = (Some ((false, None), None), s)
      /\ pk_client_get_progress E s = (Some ((false, None), None), s)).
Proof.
  intros Hr. split.
  - intros t Ht. pose proof (reachable_tid_has_proxy E s Hr t Ht) as Hp.
    split; [ exact Hp | ].
    unfold pk_client_get_allow_cancel, pk_client_get_status,
      pk_client_get_package, pk_client_get_progress.
    rewrite !bind_get_priv, Ht, Hp. cbn [is_none].
    rewrite !bind_history.
    rewrite !(bind_returns _ _ _ _ _ (dbus_g_proxy_call_runs E _ _ _ s)).
    repeat split.
  - intros Ht.
    unfold pk_client_get_allow_cancel, pk_client_get_status,
      pk_client_get_package, pk_client_get_progress.
    rewrite !bind_get_priv, Ht. repeat split.
Qed.

Lemma a_tid_comes_with_its_proxy_witness :
  let E := Script.env (inr "/7_dcaeaaab_data") [None] false [] in
  let s := snd (run_ops E [Call (SearchName 1 (Some "power"));
                           Signal (Finished "success" 12);
                           Requeue] pk_client_new) in
  proxy (priv s) = Some (mkProxy "/7_dcaeaaab_data" connected_signals)
  /\ trace (snd (pk_client_get_status E s))
     = trace s ++ [ProxyCall "/7_dcaeaaab_data" "GetStatus" []].
Proof.
  intros E s.
  destruct (a_tid_comes_with_its_proxy E s
              (ex_intro _ [Call (SearchName 1 (Some "power"));
                           Signal (Finished "success" 12);
                           Requeue] eq_refl))
    as [H _].
  destruct (H "/7_dcaeaaab_data" eq_refl) as (Hp & _ & Hs & _).
  split; [ exact Hp | exact Hs ].
Defined.

(** X7.  The buffer mode and the synchronous mode can be switched on once
    and never off: once a flag is on it stays on through any sequence of
    calls and signals, a reset and a requeue included, and every later
    attempt to set it, to either value, fails with the Failed error and
    changes nothing. *)
Theorem modes_are_switched_on_for_good (E : Env) (ops : list Op) (s : Sys) (b : bool) :
  let s' := snd (run_ops E ops s) in
  (use_buffer (priv s) = true ->
   use_buffer (priv s') = true
   /\ pk_client_set_use_buffer b s'
      = (Some (false, Some (mkGError PK_CLIENT_ERROR PK_CLIENT_ERROR_FAILED
                              "already set use_buffer!")), s'))
  /\ (synchronous (priv s) = true ->
      synchronous (priv s') = true
      /\ pk_client_set_synchronous b s'
         = (Some (false, Some (mkGError PK_CLIENT_ERROR PK_CLIENT_ERROR_FAILED
                                 "already set synchronous!")), s')).
Proof.
  intros s'. split; intros H.
  - assert (H' : use_buffer (priv s') = true).
    { apply (keeps_run_ops E (fun c => use_buffer c = true)); try exact H.
      - intros c c' Hw Hc.
        destruct (written_by_signals_only_frame c c' Hw) as (_ & _ & _ & _ & -> & _).
        exact Hc.
      - intros c c' Hw Hc.
        destruct (request_written_only_frame c c' Hw) as (_ & _ & -> & _).
        exact Hc.
      - intros tid'. unfold pk_client_set_tid. repeat keep_step;
          apply preserves_modify; intros c Hc; destruct c; exact Hc.
      - intros c Hc. destruct c; exact Hc.
      - intros c Hc. destruct c; exact Hc.
      - intros b' c Hoff Hon. congruence.
      - intros b' c _ Hc. destruct c; exact Hc. }
    split; [ exact H' | ].
    unfold pk_client_set_use_buffer. rewrite bind_get_priv, H'. reflexivity.
  - assert (H' : synchronous (priv s') = true).
    { apply (keeps_run_ops E (fun c => synchronous c = true)); try exact H.
      - intros c c' Hw Hc.
        destruct (written_by_signals_only_frame c c' Hw) as (_ & _ & _ & _ & _ & ->).
        exact Hc.
      - intros c c' Hw Hc.
        destruct (request_written_only_frame c c' Hw) as (_ & _ & _ & -> & _).
        exact Hc.
      - intros tid'. unfold pk_client_set_tid. repeat keep_step;
          apply preserves_modify; intros c Hc; destruct c; exact Hc.
      - intros c Hc. destruct c; exact Hc.
      - intros c Hc. destruct c; exact Hc.
      - intros b' c _ Hc. destruct c; exact Hc.
      - intros b' c Hoff Hon. congruence. }
    split; [ exact H' | ].
    unfold pk_client_set_synchronous. rewrite bind_get_priv, H'. reflexivity.
Qed.

Lemma modes_are_switched_on_for_good_witness :
  let E := Script.env (inr "/7_dcaeaaab_data") [None] false [] in
  let s := mkSys (with_use_buffer true pk_client_init) [] in
  let s' := snd (run_ops E [Call (SearchName 1 (Some "power"));
                            Signal (Finished "success" 12);
                            Reset] s) in
  use_buffer (priv s') = true
  /\ fst (pk_client_set_use_buffer false s')
     = Some (false, Some (mkGError PK_CLIENT_ERROR PK_CLIENT_ERROR_FAILED
                            "already set use_buffer!")).
Proof.
  intros E s s'.
  destruct (modes_are_switched_on_for_good E
              [Call (SearchName 1 (Some "power"));
               Signal (Finished "success" 12); Reset] s false) as [H _].
  destruct (H eq_refl) as [Hon Hset]. fold s' in Hon, Hset.
  split; [ exact Hon | ]. rewrite Hset. reflexivity.
Defined.

(** * Cancel *)

Section Suffix.

Lemma substring_all (s : string) : String.substring 0 (String.length s) s = s.
Proof. induction s as [|c s IH]; simpl; [ reflexivity | rewrite IH; reflexivity ]. Qed.

Lemma substring_append_suffix (prefix suffix : string) :
  String.substring (String.length prefix) (String.length suffix)
    (String.append prefix suffix) = suffix.
Proof.
  induction prefix as [|c prefix IH]; simpl; [ apply substring_all | exact IH ].
Qed.

Lemma substring_split (s : string) (m : nat) :
  (m <= String.length s)%nat ->
  s = String.append (String.substring 0 m s)
        (String.substring m (String.length s - m) s).
Proof.
  revert m. induction s as [|c s IH]; intros m Hm; simpl in Hm.
  - assert (m = 0%nat) as -> by lia. reflexivity.
  - destruct m as [|m]; simpl.
    + rewrite substring_all. reflexivity.
    + rewrite <- (IH m) by lia. reflexivity.
Qed.

Lemma string_length_append (a b : string) :
  String.length (String.append a b) = (String.length a + String.length b)%nat.
Proof. induction a as [|c a IH]; simpl; [ reflexivity | rewrite IH; reflexivity ]. Qed.

(** [g_str_has_suffix] says that the string ends with the suffix. *)
Lemma g_str_has_suffix_true (str suffix : string) :
  g_str_has_suffix str suffix = true
  <-> exists text, str = String.append text suffix.
Proof.
  unfold g_str_has_suffix. split.
  - intros H. apply andb_prop in H. destruct H as [Hle Heq].
    apply Nat.leb_le in Hle. apply String.eqb_eq in Heq.
    exists (String.substring 0 (String.length str - String.length suffix) str).
    pose proof (substring_split str (String.length str - String.length suffix))
      as Hs.
    replace (String.length str - (String.length str - String.length suffix))%nat
      with (String.length suffix) in Hs by lia.
    rewrite Heq in Hs. apply Hs. lia.
  - intros [text ->]. rewrite string_length_append.
    replace (String.length text + String.length suffix - String.length suffix)%nat
      with (String.length text) by lia.
    rewrite substring_append_suffix, String.eqb_refl, andb_true_r.
    apply Nat.leb_le. lia.
Qed.

(** The test of [pk_client_cancel] on the message of the remote error. *)
Lemma not_running_or_missing_true (e : GError) :
  not_running_or_missing e = true <-> says_not_running e \/ says_does_not_exist e.
Proof.
  unfold not_running_or_missing, says_not_running, says_does_not_exist, pk_strequal.
  rewrite orb_true_iff, String.eqb_eq, g_str_has_suffix_true. reflexivity.
Qed.

End Suffix.

(** A client has searched for what provides a codec and the search has
    finished; the requeue finds no branch for the role, clears the tid and
    keeps the proxy.  The client has no tid, and cancel calls the daemon,
    whose error it returns. *)
Lemma cancel_without_tid_can_fail :
  let busy := mkGError DBUS_GERROR DBUS_GERROR_REMOTE_EXCEPTION
                "backend is busy" in
  let E := Script.env (inr "/7_dcaeaaab_data") [None; Some busy] false [] in
  let s := snd (run_ops E [Call (WhatProvides 1 PK_PROVIDES_ENUM_CODEC (Some "mp3"));
                           Signal (Finished "success" 12);
                           Requeue] pk_client_new) in
  reachable E s
  /\ tid (priv s) = None
  /\ pk_client_cancel E s
     = (Some (false, Some (mkGError DBUS_GERROR PK_CLIENT_ERROR_FAILED
                             "backend is busy")),
        mkSys (priv s) (trace s ++ [ProxyCall "/7_dcaeaaab_data" "Cancel" []]))
  /\ ~ cancel_without_tid_succeeds E s.
Proof.
  intros busy E s.
  split; [ eexists; reflexivity | ].
  split; [ reflexivity | ].
  split; [ vm_compute; reflexivity | ].
  intros H. specialize (H eq_refl). vm_compute in H. discriminate H.
Qed.

(** C5.  [pk_client_cancel] on a client without a proxy returns [TRUE] and
    touches nothing.  With a proxy it calls Cancel once, and returns [TRUE]
    when the call succeeds, or when the message of the remote error is
    "cancelling a non-running transaction" or ends with " doesn't exist" and
    a line feed; for every other remote error it returns [FALSE] with the
    fixed-up error.  A client that operations lead to from a new client and
    that has a tid has the proxy of that transaction: the call goes to the
    bound transaction. *)
Theorem pk_client_cancel_outcomes (E : Env) (s : Sys) :
  (proxy (priv s) = None ->
   pk_client_cancel E s = (Some (true, None), s))
  /\ (forall p, proxy (priv s) = Some p ->
      let s' := mkSys (priv s) (trace s ++ [ProxyCall (proxy_path p) "Cancel" []]) in
      (dbus_reply E (trace s) (proxy_path p) "Cancel" [] = None ->
       pk_client_cancel E s = (Some (true, None), s'))
      /\ (forall e, dbus_reply E (trace s) (proxy_path p) "Cancel" [] = Some e ->
          says_not_running e \/ says_does_not_exist e ->
          pk_client_cancel E s = (Some (true, None), s'))
      /\ (forall e, dbus_reply E (trace s) (proxy_path p) "Cancel" [] = Some e ->
          ~ says_not_running e -> ~ says_does_not_exist e ->
          pk_client_cancel E s = (Some (false, pk_client_error_fixup (Some e)), s')))
  /\ (reachable E s ->
      forall t, tid (priv s) = Some t ->
        exists p, proxy (priv s) = Some p /\ proxy_path p = t).
Proof.
  split; [ | split ].
  - intros Hp. unfold pk_client_cancel, bind, get_priv. simpl. rewrite Hp. reflexivity.
  - intros p Hp s'.
    assert (Hrun : pk_client_cancel E s
                   = match dbus_reply E (trace s) (proxy_path p) "Cancel" [] with
                     | None => (Some (true, None), s')
                     | Some e =>
                         if not_running_or_missing e
                         then (Some (true, None), s')
                         else (Some (false, pk_client_error_fixup (Some e)), s')
                     end).
    { unfold pk_client_cancel, dbus_g_proxy_call, bind, get_priv, history,
        record, ret, not_running_or_missing.
      cbv beta iota. rewrite Hp.
      destruct (dbus_reply E (trace s) (proxy_path p) "Cancel" []) as [e|];
        [ | reflexivity ].
      destruct (_ || _); reflexivity. }
    rewrite Hrun. repeat split.
    + intros ->. reflexivity.
    + intros e -> He. apply not_running_or_missing_true in He. rewrite He.
      reflexivity.
    + intros e -> H1 H2.
      destruct (not_running_or_missing e) eqn:He; [ | reflexivity ].
      apply not_running_or_missing_true in He. destruct He; contradiction.
  - intros Hr t Ht. exists (mkProxy t connected_signals).
    split; [ exact (reachable_tid_has_proxy E s Hr t Ht) | reflexivity ].
Qed.

(** A new client; a bound client whose Cancel succeeds, is answered that the
    transaction does not exist, and is answered that the backend is busy. *)
Lemma pk_client_cancel_outcomes_witness :
  let gone := mkGError DBUS_GERROR DBUS_GERROR_REMOTE_EXCEPTION
                (String.append "/7_dcaeaaab_data doesn't exist"
                   (String "010" EmptyString)) in
  let busy := mkGError DBUS_GERROR DBUS_GERROR_REMOTE_EXCEPTION
                "backend is busy" in
  let daemon reply := Script.env (inr "/7_dcaeaaab_data") [reply] false [] in
  let bound := mkSys (with_proxy (Some (mkProxy "/7_dcaeaaab_data" connected_signals))
                        (with_tid (Some "/7_dcaeaaab_data") pk_client_init)) [] in
  pk_client_cancel (daemon None) pk_client_new = (Some (true, None), pk_client_new)
  /\ fst (pk_client_cancel (daemon None) bound) = Some (true, None)
  /\ fst (pk_client_cancel (daemon (Some gone)) bound) = Some (true, None)
  /\ fst (pk_client_cancel (daemon (Some busy)) bound)
     = Some (false, Some (mkGError DBUS_GERROR PK_CLIENT_ERROR_FAILED "backend is busy")).
Proof.
  intros gone busy daemon bound.
  split; [ | split; [ | split ] ].
  - apply (proj1 (pk_client_cancel_outcomes (daemon None) pk_client_new)).
    reflexivity.
  - destruct (proj1 (proj2 (pk_client_cancel_outcomes (daemon None) bound)) _ eq_refl)
      as (H & _ & _).
    rewrite (H eq_refl). reflexivity.
  - destruct (proj1 (proj2 (pk_client_cancel_outcomes (daemon (Some gone)) bound))
                _ eq_refl) as (_ & H & _).
    rewrite (H gone eq_refl).
    + reflexivity.
    + right. exists "/7_dcaeaaab_data". reflexivity.
  - destruct (proj1 (proj2 (pk_client_cancel_outcomes (daemon (Some busy)) bound))
                _ eq_refl) as (_ & _ & H).
    rewrite (H busy eq_refl).
    + reflexivity.
    + intros Hn. discriminate Hn.
    + intros Hs.
      assert (Hb : not_running_or_missing busy = true)
        by (apply not_running_or_missing_true; right; exact Hs).
      discriminate Hb.
Defined.
(** ** An allocation that fails *)

Section Allocation.

Variable E : Env.

(** The failed allocation reads the error to warn, through the location the
    caller passed. *)
Lemma pk_client_allocate_transaction_id_fails s error tr :
  allocation_fails E s error tr ->
  pk_client_allocate_transaction_id E s
  = if error_location E (trace s)
    then (Some (false, Some error), mkSys (priv s) tr)
    else (None, mkSys (priv s) (tr ++ [NullDereference])).
Proof.
  intros [Ht Hf]. unfold pk_client_allocate_transaction_id.
  rewrite bind_history, bind_record.
  destruct (pk_control_allocate_transaction_id E (trace s)) as [e|t].
  - destruct Hf as [-> ->].
    destruct (error_location E (trace s)); reflexivity.
  - destruct Hf as (Hp & -> & ->).
    erewrite bind_returns.
    2: { unfold pk_client_set_tid. rewrite bind_get_priv. cbn [priv].
         rewrite Ht. rewrite bind_history, bind_record. cbn [priv trace].
         rewrite Hp. reflexivity. }
    tests. unfold goes_wrong.
    destruct (error_location E (trace s)); cbn [priv trace];
      rewrite <- ?app_assoc; reflexivity.
Qed.

End Allocation.

(** X8.  When the allocation of the transaction fails, an action changes
    nothing in the client: no role and no cached request is saved, no tid is
    bound, and the action never returns TRUE.  To a caller that passed an
    error location it returns FALSE, and when it got as far as the daemon
    the error is the one of the allocation: the error of the daemon as it
    gave it, or "Cannot connect to PackageKit tid" when the proxy cannot be
    made.  For a caller that passed [NULL] as error location, an action that
    got as far as the daemon reads the message of the error through [NULL]
    to warn, and does not return. *)
Theorem failed_allocation_changes_nothing (E : Env) (s : Sys) (error : GError)
    (tr : Trace) (a : Action) :
  allocation_fails E s error tr ->
  priv (snd (run_action E a s)) = priv s
  /\ (forall r error', fst (run_action E a s) = Some (r, error') -> r = false)
  /\ (error_location E (trace s) = true ->
      exists error', fst (run_action E a s) = Some (false, error'))
  /\ (trace (snd (run_action E a s)) <> trace s ->
      run_action E a s
      = if error_location E (trace s)
        then (Some (false, Some error), mkSys (priv s) tr)
        else (None, mkSys (priv s) (tr ++ [NullDereference]))).
Proof.
  intros Hf.
  pose proof (pk_client_allocate_transaction_id_fails E s error tr Hf) as Ha.
  destruct (run_action_not_allocated E a s) as [(error' & H & _)|H].
  - intros error' s1. rewrite Ha.
    destruct (error_location E (trace s)); discriminate.
  - rewrite H. cbn [fst snd priv trace].
    split; [ reflexivity | ].
    split; [ intros r e Hr; injection Hr as <- _; reflexivity | ].
    split; [ intros _; exists error'; reflexivity | ].
    intros Hneq. contradiction Hneq. reflexivity.
  - rewrite H, Ha.
    destruct (error_location E (trace s)); cbn [fst snd priv trace].
    + split; [ reflexivity | ].
      split; [ intros r e Hr; injection Hr as <- _; reflexivity | ].
      split; [ intros _; eexists; reflexivity | ].
      intros _. reflexivity.
    + split; [ reflexivity | ].
      split; [ intros r e Hr; discriminate Hr | ].
      split; [ intros Hl; discriminate Hl | ].
      intros _. reflexivity.
Qed.

(** The daemon has no transaction to give to a search: once for a caller
    that passes an error location, once for a caller that passes [NULL]. *)
Lemma failed_allocation_changes_nothing_witness :
  let e := mkGError DBUS_GERROR DBUS_GERROR_REMOTE_EXCEPTION "no transaction slots" in
  let E := Script.env (inl e) [] false [] in
  run_action E (SearchName 1 (Some "power")) pk_client_new
  = (Some (false, Some e), mkSys pk_client_init [ControlAllocateTid])
  /\ run_action (Script.without_error_location E) (SearchName 1 (Some "power"))
       pk_client_new
     = (None, mkSys pk_client_init [ControlAllocateTid; NullDereference]).
Proof.
  intros e E. split.
  - refine (proj2 (proj2 (proj2 (failed_allocation_changes_nothing E pk_client_new
                         e [ControlAllocateTid] (SearchName 1 (Some "power"))
                         _))) _).
    + vm_compute. repeat split.
    + vm_compute. discriminate.
  - refine (proj2 (proj2 (proj2 (failed_allocation_changes_nothing
                         (Script.without_error_location E) pk_client_new
                         e [ControlAllocateTid] (SearchName 1 (Some "power"))
                         _))) _).
    + vm_compute. repeat split.
    + vm_compute. discriminate.
Defined.
(** ** The errors handed to the caller *)

Section FixedUp.

Variable E : Env.

Lemma fixed_up_none : fixed_up None.
Proof. intros e H. discriminate H. Qed.

Lemma fixed_up_error_set error code' buffer :
  fixed_up (pk_client_error_set error code' buffer).
Proof. intros e H. injection H as <-. reflexivity. Qed.

Lemma fixed_up_error_fixup error : fixed_up (pk_client_error_fixup error).
Proof.
  intros e H. destruct error as [e0|]; [ | discriminate H ].
  unfold pk_client_error_fixup in H. fold (is_remote_exception e0) in H.
  destruct (is_remote_exception e0) eqn:He; injection H as <-.
  - unfold is_remote_exception. cbn [domain code]. apply andb_false_r.
  - exact He.
Qed.

Lemma returns_fixed_up_ret {A : Type} (error_of : A -> option GError) (a : A) :
  fixed_up (error_of a) -> returns_fixed_up error_of (ret a).
Proof. intros H s a' s' Hr. injection Hr as <- _. exact H. Qed.

Lemma returns_fixed_up_bind {A B : Type} (error_of : B -> option GError)
    (m : M A) (f : A -> M B) :
  (forall a, returns_fixed_up error_of (f a)) ->
  returns_fixed_up error_of (bind m f).
Proof.
  intros H s b s' Hr. unfold bind in Hr.
  destruct (m s) as [[a|] s1]; [ | discriminate Hr ].
  exact (H a s1 b s' Hr).
Qed.

Ltac fixed :=
  repeat match goal with
    | |- returns_fixed_up _ (bind _ _) => apply returns_fixed_up_bind; intros ?
    | |- returns_fixed_up _ (ret _) =>
        apply returns_fixed_up_ret; cbn [fst snd];
        first [ apply fixed_up_none | apply fixed_up_error_set
              | apply fixed_up_error_fixup ]
    | |- returns_fixed_up _ (if ?b then _ else _) => destruct b
    | |- returns_fixed_up _ (match ?x with _ => _ end) => destruct x
    end.

Lemma returns_fixed_up_call_and_wait error method args :
  returns_fixed_up snd (call_and_wait E error method args).
Proof. unfold call_and_wait. fixed. Qed.

Lemma returns_fixed_up_propagate_and_wait r error_pk :
  returns_fixed_up snd (propagate_and_wait E r error_pk).
Proof. unfold propagate_and_wait. destruct r; cbn [negb]; fixed. Qed.

Lemma returns_fixed_up_cancel : returns_fixed_up snd (pk_client_cancel E).
Proof. unfold pk_client_cancel. fixed. Qed.

Lemma returns_fixed_up_reset : returns_fixed_up snd (pk_client_reset E).
Proof.
  intros s [r error] s' Hr. cbn [snd]. revert Hr.
  unfold pk_client_reset. rewrite bind_get_priv.
  destruct (negb (is_none (tid (priv s))) && negb (is_finished (priv s))).
  - destruct (pk_client_cancel E s) as [[[r1 error1]|] s1] eqn:Hc;
      [ | unfold bind; rewrite Hc; discriminate ].
    rewrite (bind_returns _ _ _ _ _ Hc). tests.
    pose proof (returns_fixed_up_cancel s (r1, error1) s1 Hc) as Hfx.
    destruct r1; tests.
    + rewrite reset_after_cancel. intros H. injection H as <- <- _. exact Hfx.
    + intros H. injection H as <- <- _. exact Hfx.
  - rewrite bind_ret. tests. rewrite reset_after_cancel.
    intros H. injection H as <- <- _. apply fixed_up_none.
Qed.

Lemma returns_fixed_up_requeue : returns_fixed_up snd (pk_client_requeue E).
Proof. unfold pk_client_requeue. fixed. Qed.

Lemma returns_fixed_up_set_tid tid' :
  returns_fixed_up snd (pk_client_set_tid E tid').
Proof. unfold pk_client_set_tid. fixed. Qed.

Lemma returns_fixed_up_queries :
  returns_fixed_up (fun x => snd (fst x)) (pk_client_get_allow_cancel E)
  /\ returns_fixed_up (fun x => snd (fst x)) (pk_client_get_status E)
  /\ returns_fixed_up (fun x => snd (fst x)) (pk_client_get_package E)
  /\ returns_fixed_up (fun x => snd (fst x)) (pk_client_get_progress E)
  /\ (forall want,
        returns_fixed_up (fun x => snd (fst x)) (pk_client_get_role E want))
  /\ returns_fixed_up (fun x => snd (fst x)) (pk_client_is_caller_active E).
Proof.
  repeat match goal with |- _ /\ _ => split end;
    try match goal with |- forall _ : bool, _ => intros want end;
    unfold pk_client_get_allow_cancel, pk_client_get_status,
      pk_client_get_package, pk_client_get_progress, pk_client_get_role,
      pk_client_is_caller_active;
    fixed.
Qed.

(** Once the transaction is allocated, every action but
    [pk_client_update_system] hands back a fixed-up error. *)
Lemma run_action_fixed_up a s tid' r error s' :
  allocates E s tid' ->
  a <> UpdateSystem ->
  run_action E a s = (Some (r, error), s') ->
  fixed_up error.
Proof.
  intros Ha Hneq.
  pose proof (pk_client_allocate_transaction_id_allocates E s tid' Ha) as Hal.
  assert (Hend : forall m : M Ret,
             returns_fixed_up snd m ->
             forall s0, m s0 = (Some (r, error), s') -> fixed_up error)
    by (intros m Hm s0 H0; exact (Hm s0 (r, error) s' H0)).
  destruct a; try (contradiction Hneq; reflexivity); simpl;
    unfold pk_client_get_updates,
      pk_client_search_name, pk_client_search_details, pk_client_search_group,
      pk_client_search_file, pk_client_search, pk_client_get_depends,
      pk_client_get_packages, pk_client_get_requires, pk_client_what_provides,
      pk_client_get_update_detail, pk_client_rollback, pk_client_resolve,
      pk_client_get_details, pk_client_get_files,
      pk_client_update_package, pk_client_install_package,
      pk_client_remove_package, pk_client_install_file,
      pk_client_remove_packages, pk_client_refresh_cache,
      pk_client_install_packages, pk_client_install_signature,
      pk_client_update_packages, pk_client_install_files,
      pk_client_get_repo_list, pk_client_accept_eula, pk_client_repo_enable,
      pk_client_repo_set_data, pk_client_get_old_transactions;
    repeat match goal with
      | |- context [match ?x with _ => _ end] =>
          is_var x; destruct x
      | |- context [if negb ?b then _ else _] =>
          destruct b; cbn [negb]; cbv iota
      end;
    try rewrite (bind_returns _ _ _ _ _ Hal); tests;
    apply Hend; fixed;
    auto using returns_fixed_up_call_and_wait,
      returns_fixed_up_propagate_and_wait.
Qed.

End FixedUp.
(** ** The request an action saves *)

Section Saved.

Variable E : Env.

Lemma saved_as_signal a tid' c c' :
  written_by_signals_only c c' -> saved_as E a tid' c -> saved_as E a tid' c'.
Proof.
  intros Hw (Ht & Hp & Hr & Hq).
  destruct (written_by_signals_only_frame c c' Hw) as (H1 & H2 & H3 & H4 & _).
  unfold saved_as. rewrite H1, H2, H3, H4.
  repeat split; assumption.
Qed.

Lemma kept_at (P : PkClientPrivate -> Prop) (m : M Ret) s :
  preserves P m -> P (priv s) -> P (priv (snd (m s))).
Proof. intros H. apply H. Qed.

(** An action that got as far as the daemon, which allocated [tid'], leaves
    its role and its request in the client, whatever it returns and whether
    it returns. *)
Lemma run_action_saved_as a s tid' :
  allocates E s tid' ->
  trace (snd (run_action E a s)) <> trace s ->
  saved_as E a tid' (priv (snd (run_action E a s))).
Proof.
  intros Ha.
  pose proof (pk_client_allocate_transaction_id_allocates E s tid' Ha) as Hal.
  pose proof (keeps_call_and_wait E _ (saved_as_signal a tid')) as K1.
  pose proof (keeps_call_action E (saved_as E a tid')) as K2.
  pose proof (keeps_retry_with_privilege E (saved_as E a tid')) as K3.
  pose proof (keeps_propagate_and_wait E _ (saved_as_signal a tid')) as K4.
  pose proof (keeps_wait_for_finished E _ (saved_as_signal a tid')) as K5.
  pose proof (keeps_dbus_g_proxy_call E (saved_as E a tid')) as K6.
  pose proof (keeps_gain_privilege_str E (saved_as E a tid')) as K7.
  pose proof (keeps_change_status (saved_as E a tid') (saved_as_signal a tid')) as K8.
  destruct a; simpl;
    unfold pk_client_get_updates, pk_client_update_system,
      pk_client_search_name, pk_client_search_details, pk_client_search_group,
      pk_client_search_file, pk_client_search, pk_client_get_depends,
      pk_client_get_packages, pk_client_get_requires, pk_client_what_provides,
      pk_client_get_update_detail, pk_client_rollback, pk_client_resolve,
      pk_client_get_details, pk_client_get_files,
      pk_client_update_package, pk_client_install_package,
      pk_client_remove_package, pk_client_install_file,
      pk_client_remove_packages, pk_client_refresh_cache,
      pk_client_install_packages, pk_client_install_signature,
      pk_client_update_packages, pk_client_install_files,
      pk_client_get_repo_list, pk_client_accept_eula, pk_client_repo_enable,
      pk_client_repo_set_data, pk_client_get_old_transactions;
    repeat match goal with
      | |- context [match ?x with _ => _ end] =>
          is_var x; destruct x
      | |- context [if negb ?b then _ else _] =>
          destruct b; cbn [negb]; cbv iota
      end;
    try (intros Hneq; contradiction Hneq; reflexivity);
    intros _;
    rewrite (bind_returns _ _ _ _ _ Hal); tests; cbv zeta;
    try rewrite bind_modify; cbv beta;
    (apply kept_at;
     [ unfold pk_client_update_system_action, pk_client_remove_packages_action,
         pk_client_refresh_cache_action, pk_client_install_package_action,
         pk_client_install_signature_action, pk_client_update_packages_action,
         pk_client_install_files_action, pk_client_accept_eula_action,
         pk_client_repo_enable_action, pk_client_repo_set_data_action;
       repeat keep_step
     | destruct s as [c t]; destruct c; repeat split;
       cbn; intros ? Heq; first [ discriminate Heq
                                | injection Heq as <-; reflexivity ] ]).
Qed.

(** A finished client whose role has a branch in [pk_client_requeue]: the
    fields are cleared and the action of the role runs, fixed up. *)
Lemma pk_client_requeue_reissues s a' :
  requeue_action (priv s) = Some a' ->
  is_finished (priv s) = true ->
  pk_client_requeue E s = fixed_up_action E a' (requeued s).
Proof.
  destruct s as [c tr].
  destruct c as [proxy0 loop0 finished0 ? ? tid0 ? ? ? role0 ? ? ? ? ? ? ? ? ? ? ? ? ?].
  unfold pk_client_requeue, requeue_action, requeued. rewrite bind_get_priv.
  cbn [priv role is_finished].
  intros Ha ->.
  destruct role0; try discriminate; injection Ha as <-; reflexivity.
Qed.

End Saved.
(** X9.  Once its transaction is allocated, every action other than
    [pk_client_update_system] hands the caller an error that went through
    the fix-up, whatever the daemon answers: never a remote exception of
    the bus. *)
Theorem actions_hand_back_fixed_up_errors (E : Env) (s : Sys) (tid' : string)
    (a : Action) (r : bool) (error : option GError) (s' : Sys) :
  allocates E s tid' ->
  a <> UpdateSystem ->
  run_action E a s = (Some (r, error), s') ->
  fixed_up error /\ pk_client_error_fixup error = error.
Proof.
  intros Ha Hneq Hrun.
  pose proof (run_action_fixed_up E a s tid' r error s' Ha Hneq Hrun) as H.
  split; [ exact H | ].
  destruct error as [e|]; [ | reflexivity ].
  unfold pk_client_error_fixup. fold (is_remote_exception e).
  rewrite (H e eq_refl). reflexivity.
Qed.

Lemma actions_hand_back_fixed_up_errors_witness :
  let e := mkGError DBUS_GERROR DBUS_GERROR_REMOTE_EXCEPTION
             "transaction backend could not be started" in
  let E := Script.env (inr "/7_dcaeaaab_data") [Some e] false [] in
  fst (run_action E (RefreshCache true) pk_client_new)
  = Some (false, Some (mkGError DBUS_GERROR PK_CLIENT_ERROR_FAILED
                         "transaction backend could not be started"))
  /\ fixed_up (Some (mkGError DBUS_GERROR PK_CLIENT_ERROR_FAILED
                       "transaction backend could not be started")).
Proof.
  intros e E. split; [ reflexivity | ].
  apply (proj1 (actions_hand_back_fixed_up_errors E pk_client_new
                  "/7_dcaeaaab_data" (RefreshCache true) false _ _
                  (conj eq_refl (conj eq_refl eq_refl))
                  ltac:(discriminate) eq_refl)).
Defined.

(** X10.  Requeue, cancel, reset, binding a tid and the six queries hand
    the caller only fixed-up errors, in every state and whatever the daemon
    answers.  For requeue this covers the errors of the allocation and of
    [pk_client_update_system], which the direct call hands over as they
    are. *)
Theorem calls_hand_back_fixed_up_errors (E : Env) :
  returns_fixed_up snd (pk_client_requeue E)
  /\ returns_fixed_up snd (pk_client_cancel E)
  /\ returns_fixed_up snd (pk_client_reset E)
  /\ (forall tid', returns_fixed_up snd (pk_client_set_tid E tid'))
  /\ returns_fixed_up (fun x => snd (fst x)) (pk_client_get_allow_cancel E)
  /\ returns_fixed_up (fun x => snd (fst x)) (pk_client_get_status E)
  /\ returns_fixed_up (fun x => snd (fst x)) (pk_client_get_package E)
  /\ returns_fixed_up (fun x => snd (fst x)) (pk_client_get_progress E)
  /\ (forall want,
        returns_fixed_up (fun x => snd (fst x)) (pk_client_get_role E want))
  /\ returns_fixed_up (fun x => snd (fst x)) (pk_client_is_caller_active E).
Proof.
  split; [ apply returns_fixed_up_requeue | ].
  split; [ apply returns_fixed_up_cancel | ].
  split; [ apply returns_fixed_up_reset | ].
  split; [ apply returns_fixed_up_set_tid | ].
  apply returns_fixed_up_queries.
Qed.

Lemma calls_hand_back_fixed_up_errors_witness :
  let e := mkGError DBUS_GERROR DBUS_GERROR_REMOTE_EXCEPTION "cancel not allowed" in
  let E := Script.env (inr "/7_dcaeaaab_data") [None; Some e] false [] in
  let s := snd (run_action E (SearchName 1 (Some "power")) pk_client_new) in
  fst (pk_client_cancel E s)
  = Some (false, Some (mkGError DBUS_GERROR PK_CLIENT_ERROR_FAILED "cancel not allowed"))
  /\ fixed_up (Some (mkGError DBUS_GERROR PK_CLIENT_ERROR_FAILED "cancel not allowed")).
Proof.
  intros e E s. split; [ vm_compute; reflexivity | ].
  refine (proj1 (proj2 (calls_hand_back_fixed_up_errors E)) s
            (false, Some (mkGError DBUS_GERROR PK_CLIENT_ERROR_FAILED
                            "cancel not allowed"))
            (snd (pk_client_cancel E s)) _).
  vm_compute. reflexivity.
Defined.

(** X11.  A requeue repeats the call.  When an action got as far as the
    daemon, which allocated its tid, and the transaction has finished, then
    whatever signals arrived and whatever the action returned, requeue
    issues that action again with the arguments of the call: a single
    package id or file as the vector of it, files as the paths they resolved
    to, a signature as a GPG one. *)
Theorem a_requeue_repeats_the_call (E : Env) (s : Sys) (tid' : string)
    (a a' : Action) (evs : list BusSignal) :
  allocates E s tid' ->
  trace (snd (run_action E a s)) <> trace s ->
  reissued E a = Some a' ->
  let s1 := snd (proxy_signals E evs (snd (run_action E a s))) in
  is_finished (priv s1) = true ->
  requeue_action (priv s1) = Some a'
  /\ pk_client_requeue E s1 = fixed_up_action E a' (requeued s1).
Proof.
  intros Ha Hneq Hre s1 Hfin.
  assert (Hq : requeue_action (priv s1) = Some a').
  { pose proof (keeps_proxy_signals E _ (saved_as_signal E a tid') evs _
                  (run_action_saved_as E a s tid' Ha Hneq)) as (_ & _ & _ & H).
    exact (H a' Hre). }
  split; [ exact Hq | ].
  apply pk_client_requeue_reissues; assumption.
Qed.

Lemma a_requeue_repeats_the_call_witness :
  let E := Script.env (inr "/7_dcaeaaab_data") [None; None] false [] in
  let s1 := snd (proxy_signals E [Finished "success" 12]
                   (snd (run_action E (InstallPackage (Some "hal;0.5.10;i386;fedora"))
                           pk_client_new))) in
  pk_client_requeue E s1
  = fixed_up_action E (InstallPackages (Some ["hal;0.5.10;i386;fedora"]))
      (requeued s1).
Proof.
  intros E.
  refine (proj2 (a_requeue_repeats_the_call E pk_client_new "/7_dcaeaaab_data"
                   (InstallPackage (Some "hal;0.5.10;i386;fedora"))
                   (InstallPackages (Some ["hal;0.5.10;i386;fedora"]))
                   [Finished "success" 12] _ _ _ _)).
  - repeat split; vm_compute; reflexivity.
  - vm_compute. discriminate.
  - reflexivity.
  - vm_compute. reflexivity.
Defined.

(** X12.  After an action that got as far as the daemon, which allocated
    its tid, the client knows its role: asked for the role without the
    package id, [pk_client_get_role] answers with the role of the action and
    makes no call; asked for the package id too, it makes one GetRole call
    on the transaction.  Signals that arrive in between change nothing of
    that. *)
Theorem the_role_is_answered_locally (E : Env) (s : Sys) (tid' : string)
    (a : Action) (ro : PkRoleEnum) (evs : list BusSignal) :
  allocates E s tid' ->
  trace (snd (run_action E a s)) <> trace s ->
  action_role a = Some ro ->
  let s1 := snd (proxy_signals E evs (snd (run_action E a s))) in
  pk_client_get_role E false s1 = (Some ((true, None), Some (ro, None)), s1)
  /\ trace (snd (pk_client_get_role E true s1))
     = trace s1 ++ [ProxyCall tid' "GetRole" []].
Proof.
  intros Ha Hneq Hro s1.
  pose proof (keeps_proxy_signals E _ (saved_as_signal E a tid') evs _
                (run_action_saved_as E a s tid' Ha Hneq)) as (_ & Hp & Hr & _).
  fold s1 in Hp, Hr. specialize (Hr ro Hro).
  assert (Hk : PkRoleEnum_eqb ro PK_ROLE_ENUM_UNKNOWN = false)
    by (destruct a; try discriminate Hro; injection Hro as <-; reflexivity).
  unfold pk_client_get_role. rewrite !bind_get_priv, Hp, Hr, Hk.
  split; [ reflexivity | ].
  cbn [negb andb]. rewrite bind_history.
  rewrite (bind_returns _ _ _ _ _ (dbus_g_proxy_call_runs E _ _ _ s1)).
  reflexivity.
Qed.

Lemma the_role_is_answered_locally_witness :
  let E := Script.env (inr "/7_dcaeaaab_data") [None] false [] in
  let s1 := snd (proxy_signals E [StatusChanged "running"]
                   (snd (run_action E (SearchName 1 (Some "power")) pk_client_new))) in
  pk_client_get_role E false s1
  = (Some ((true, None), Some (PK_ROLE_ENUM_SEARCH_NAME, None)), s1).
Proof.
  intros E.
  refine (proj1 (the_role_is_answered_locally E pk_client_new "/7_dcaeaaab_data"
                   (SearchName 1 (Some "power")) PK_ROLE_ENUM_SEARCH_NAME
                   [StatusChanged "running"] _ _ _)).
  - repeat split; vm_compute; reflexivity.
  - vm_compute. discriminate.
  - reflexivity.
Defined.
(** ** Installing local files *)

Section InstallFiles.

Variable E : Env.

(** An entry whose path resolves is sent as the resolved path. *)
Lemma resolve_entry_resolved entry path :
  realpath E entry = Some path -> resolve_entry E entry = Some path.
Proof.
  intros H. unfold resolve_entry, pk_resolve_local_path. rewrite H.
  unfold pk_strequal. destruct (String.eqb path entry) eqn:He; [ | reflexivity ].
  apply String.eqb_eq in He. subst. reflexivity.
Qed.

Lemma strv_of_resolved rel :
  Forall (fun entry => realpath E entry <> None) rel ->
  strv_of (map (resolve_entry E) rel)
  = map (fun entry => match realpath E entry with
                      | Some path => path
                      | None => entry
                      end) rel.
Proof.
  induction 1 as [ | entry rel Hentry _ IH ]; [ reflexivity | ].
  cbn [map]. destruct (realpath E entry) as [path|] eqn:Hr;
    [ | contradiction Hentry; reflexivity ].
  rewrite (resolve_entry_resolved entry path Hr). cbn [strv_of].
  rewrite IH. reflexivity.
Qed.

End InstallFiles.

(** X13.  [pk_client_install_files] sends the daemon the resolved paths:
    when every file of the call resolves, the InstallFiles call carries, in
    the order of the call, the path each file resolved to, and the same
    vector is saved for a requeue next to the trusted flag.  On a client
    that is not synchronous, with the daemon accepting the call, it then
    returns TRUE without an error, having told the observers that the
    client waits. *)
Theorem install_files_sends_the_resolved_paths (E : Env) (s : Sys)
    (tid' : string) (trusted : bool) (rel : list string) :
  let files := map (fun entry => match realpath E entry with
                                 | Some path => path
                                 | None => entry
                                 end) rel in
  let call := ProxyCall tid' "InstallFiles"
                [G_TYPE_BOOLEAN trusted; G_TYPE_STRV files] in
  allocates E s tid' ->
  Forall (fun entry => realpath E entry <> None) rel ->
  synchronous (priv s) = false ->
  is_finished (priv s) = false ->
  dbus_reply E (trace (bound_to tid' s)) tid' "InstallFiles"
    [G_TYPE_BOOLEAN trusted; G_TYPE_STRV files] = None ->
  pk_client_install_files E trusted (Some rel) s
  = (Some (true, None),
     mkSys (with_last_status PK_STATUS_ENUM_WAIT
              (with_cached_full_paths (Some files)
                 (with_cached_trusted trusted
                    (with_role PK_ROLE_ENUM_INSTALL_FILES
                       (priv (bound_to tid' s))))))
           (trace (bound_to tid' s)
            ++ [call; SignalEmit (PK_CLIENT_STATUS_CHANGED PK_STATUS_ENUM_WAIT)])).
Proof.
  intros files call Ha Hres Hs Hf Hreply.
  unfold pk_client_install_files.
  rewrite (bind_returns _ _ _ _ _ (pk_client_allocate_transaction_id_allocates E s tid' Ha)).
  tests. cbv zeta. rewrite (strv_of_resolved E rel Hres). fold files.
  rewrite bind_modify.
  set (s1 := mkSys _ (trace (bound_to tid' s))).
  erewrite bind_returns.
  2:{ apply (retry_with_privilege_not_denied E _ s1 true None
               (mkSys (priv s1) (trace s1 ++ [call]))).
      - unfold pk_client_install_files_action.
        rewrite (call_action_bound E _ _ s1 (mkProxy tid' connected_signals))
          by (destruct s as [c t]; destruct c; reflexivity).
        cbn [proxy_path]. unfold s1 at 1 2. cbn [trace]. rewrite Hreply.
        reflexivity.
      - reflexivity. }
  tests. unfold propagate_and_wait, wait_for_finished.
  cbn [negb]. cbv zeta. unfold bind at 1. rewrite bind_get_priv.
  replace (is_finished (priv {| priv := priv s1; trace := trace s1 ++ [call] |}))
    with false by (rewrite <- Hf; destruct s as [c t]; destruct c; reflexivity).
  tests. unfold pk_client_change_status, g_signal_emit.
  unfold bind at 1. unfold bind at 1. cbn [record modify fst snd priv trace].
  cbv beta iota. rewrite bind_get_priv. cbn [priv].
  replace (synchronous (with_last_status PK_STATUS_ENUM_WAIT (priv s1)))
    with false by (rewrite <- Hs; destruct s as [c t]; destruct c; reflexivity).
  cbn [ret fst snd]. cbv beta iota.
  unfold s1. cbn [priv trace]. rewrite <- app_assoc. reflexivity.
Qed.

Lemma install_files_sends_the_resolved_paths_witness :
  let E := mkEnv Script.check_package_id Script.check_package_ids
             (fun _ => true)
             (fun _ => inr "/7_dcaeaaab_data") (fun _ _ => true)
             (fun _ _ _ _ => None) Script.denied_by_policy (fun _ _ => false)
             (fun _ => true) (fun _ => "running") (fun _ => "")
             (fun _ => (0, 0, 0, 0)) (fun _ => ("unknown", "")) (fun _ => true)
             (fun _ => [])
             (fun path => if String.prefix "/" path then Some path
                          else Some (String.append "/home/hughsie/" path))
             (fun _ => 0) Script.status_from_text (fun _ => 0)
             (fun _ => PK_ROLE_ENUM_UNKNOWN) Script.restart_from_text
             (fun _ => 0) (fun _ => 0) (fun _ => 0) (fun _ => "none")
             (fun _ => "any") (fun _ => "gpg") in
  trace (snd (pk_client_install_files E true
                (Some ["Desktop/bar.rpm"; "/tmp/foo.rpm"]) pk_client_new))
  = [ControlAllocateTid; ProxyNewForName "/7_dcaeaaab_data";
     ProxyCall "/7_dcaeaaab_data" "InstallFiles"
       [G_TYPE_BOOLEAN true;
        G_TYPE_STRV ["/home/hughsie/Desktop/bar.rpm"; "/tmp/foo.rpm"]];
     SignalEmit (PK_CLIENT_STATUS_CHANGED PK_STATUS_ENUM_WAIT)].
Proof.
  intros E.
  rewrite (install_files_sends_the_resolved_paths E pk_client_new
             "/7_dcaeaaab_data" true ["Desktop/bar.rpm"; "/tmp/foo.rpm"]).
  - reflexivity.
  - repeat split; reflexivity.
  - repeat constructor; discriminate.
  - reflexivity.
  - reflexivity.
  - reflexivity.
Defined.
(** * A client that is not synchronous never waits *)

Section AtOnce.

Variable E : Env.

(** [faults] says whether the calls may go wrong; if they may not, the
    callers pass error locations and the refusals need no argument. *)
Variable faults : bool.
Hypothesis Hloc : faults = false -> callers_pass_error_location E.
Hypothesis Hfmt : faults = false -> refusals_need_no_argument E.

Lemma returns_at_once_ret {A : Type} (a : A) : returns_at_once faults (ret a).
Proof. intros s H. split; [ left; exists a; reflexivity | exact H ]. Qed.

Lemma returns_at_once_bind {A B : Type} (m : M A) (f : A -> M B) :
  returns_at_once faults m -> (forall a, returns_at_once faults (f a)) ->
  returns_at_once faults (bind m f).
Proof.
  intros Hm Hf s H. destruct (Hm s H) as [[[a Ha] | [Hfl Hst]] Hs]; unfold bind.
  - destruct (m s) as [[a'|] s1]; [ | discriminate Ha ].
    apply Hf. exact Hs.
  - destruct (m s) as [[a'|] s1]; [ destruct Hst as [Hn _]; discriminate Hn | ].
    cbv beta iota. split; [ right | exact Hs ].
    split; [ exact Hfl | ]. destruct Hst as [_ Hst].
    split; [ reflexivity | exact Hst ].
Qed.

(** What was read from the private data is known not to be synchronous. *)
Lemma returns_at_once_bind_get_priv {B : Type} (f : PkClientPrivate -> M B) :
  (forall c, synchronous c = false -> returns_at_once faults (f c)) ->
  returns_at_once faults (bind get_priv f).
Proof. intros Hf s H. rewrite bind_get_priv. apply Hf; exact H. Qed.

Lemma returns_at_once_modify (f : PkClientPrivate -> PkClientPrivate) :
  (forall c, synchronous (f c) = synchronous c) -> returns_at_once faults (modify f).
Proof.
  intros Hf s H. split; [ left; exists tt; reflexivity | ].
  cbn [modify snd priv]. rewrite Hf. exact H.
Qed.

Lemma returns_at_once_history : returns_at_once faults history.
Proof. intros s H. split; [ left; eexists; reflexivity | exact H ]. Qed.

Lemma returns_at_once_record e : returns_at_once faults (record e).
Proof. intros s H. split; [ left; eexists; reflexivity | exact H ]. Qed.

Lemma returns_at_once_g_signal_emit signal : returns_at_once faults (g_signal_emit signal).
Proof. apply returns_at_once_record. Qed.

(** A call goes wrong only where faults are allowed. *)
Lemma returns_at_once_goes_wrong {A : Type} (how : Ext) :
  faults = true -> is_fault how = true -> returns_at_once faults (@goes_wrong A how).
Proof.
  intros Hfl Hhow s H. split; [ right | exact H ].
  split; [ exact Hfl | ]. split; [ reflexivity | ].
  exists (trace s), how. split; [ reflexivity | exact Hhow ].
Qed.

(** The read of the error after an allocation that failed. *)
Lemma returns_at_once_error_location {A : Type} h (m : M A) :
  returns_at_once faults m ->
  returns_at_once faults (if error_location E h then m else goes_wrong NullDereference).
Proof.
  intros Hm. destruct (error_location E h) eqn:Hl; [ exact Hm | ].
  destruct (Bool.bool_dec faults true) as [Hfl|Hfl].
  - apply returns_at_once_goes_wrong; [ exact Hfl | reflexivity ].
  - apply Bool.not_true_is_false in Hfl. rewrite (Hloc Hfl h) in Hl.
    discriminate Hl.
Qed.

(** The message of a refusal of the policy taken as a format. *)
Lemma returns_at_once_refusal {A : Type} error_pk (f : string -> M A) :
  denied_by_policy E error_pk = true ->
  (forall buffer, returns_at_once faults (f buffer)) ->
  returns_at_once faults
    (match g_vasprintf_no_args (error_message error_pk) with
     | Some buffer => f buffer
     | None => goes_wrong (FormatWithoutArgument (error_message error_pk))
     end).
Proof.
  intros Hd Hf.
  destruct (g_vasprintf_no_args (error_message error_pk)) eqn:Hm; [ apply Hf | ].
  destruct (Bool.bool_dec faults true) as [Hfl|Hfl].
  - apply returns_at_once_goes_wrong; [ exact Hfl | reflexivity ].
  - apply Bool.not_true_is_false in Hfl.
    destruct error_pk as [e|]; [ | discriminate Hd ].
    contradiction (Hfmt Hfl e Hd).
Qed.

#[local] Hint Resolve returns_at_once_history returns_at_once_record
  returns_at_once_g_signal_emit : pk_keep.

Ltac at_once :=
  repeat match goal with
    | |- returns_at_once faults (bind get_priv _) =>
        let c := fresh "c" in
        let Hc := fresh "Hc" in
        apply returns_at_once_bind_get_priv; intros c Hc
    | |- returns_at_once faults (bind _ _) => apply returns_at_once_bind; [ | intros ? ]
    | H : synchronous ?c = false |- returns_at_once faults (if synchronous ?c then _ else _) =>
        rewrite H
    | |- returns_at_once faults (if error_location E _ then _ else _) =>
        apply returns_at_once_error_location
    | H : denied_by_policy E ?e = true
      |- returns_at_once faults (match g_vasprintf_no_args (error_message ?e) with _ => _ end) =>
        apply (returns_at_once_refusal e _ H); intros ?
    | |- returns_at_once faults (if ?b then _ else _) => destruct b eqn:?
    | |- returns_at_once faults (match ?x with _ => _ end) => destruct x
    | |- returns_at_once faults (ret _) => apply returns_at_once_ret
    | |- returns_at_once faults (modify _) =>
        let c := fresh "c" in
        apply returns_at_once_modify; intros c; destruct c; reflexivity
    | |- returns_at_once _ _ => solve [ auto with pk_keep ]
    end.

Lemma returns_at_once_callback ev : returns_at_once faults (callback E ev).
Proof.
  destruct ev; simpl;
    unfold pk_client_finished_cb, pk_client_progress_changed_cb,
      pk_client_status_changed_cb, pk_client_change_status, pk_client_package_cb,
      pk_client_transaction_cb, pk_client_update_detail_cb,
      pk_client_details_cb, pk_client_files_cb,
      pk_client_repo_signature_required_cb, pk_client_eula_required_cb,
      pk_client_repo_detail_cb, pk_client_error_code_cb,
      pk_client_require_restart_cb, pk_client_message_cb,
      pk_client_caller_active_changed_cb, pk_client_allow_cancel_cb,
      g_main_loop_quit;
    at_once.
Qed.

#[local] Hint Resolve returns_at_once_callback : pk_keep.

Lemma returns_at_once_proxy_signal ev : returns_at_once faults (proxy_signal E ev).
Proof. unfold proxy_signal. at_once. Qed.

Lemma returns_at_once_dbus_g_proxy_call p method args :
  returns_at_once faults (dbus_g_proxy_call E p method args).
Proof. unfold dbus_g_proxy_call. at_once. Qed.

Lemma returns_at_once_gain_privilege_str error_str :
  returns_at_once faults (gain_privilege_str E error_str).
Proof. unfold gain_privilege_str. at_once. Qed.

#[local] Hint Resolve returns_at_once_proxy_signal
  returns_at_once_dbus_g_proxy_call returns_at_once_gain_privilege_str : pk_keep.

Lemma returns_at_once_cancel : returns_at_once faults (pk_client_cancel E).
Proof. unfold pk_client_cancel. at_once. Qed.

Lemma returns_at_once_set_tid tid' : returns_at_once faults (pk_client_set_tid E tid').
Proof. unfold pk_client_set_tid. at_once. Qed.

#[local] Hint Resolve returns_at_once_cancel returns_at_once_set_tid : pk_keep.

Lemma returns_at_once_allocate_transaction_id :
  returns_at_once faults (pk_client_allocate_transaction_id E).
Proof. unfold pk_client_allocate_transaction_id. at_once. Qed.

Lemma returns_at_once_wait_for_finished r :
  returns_at_once faults (wait_for_finished E r).
Proof. unfold wait_for_finished, pk_client_change_status. at_once. Qed.

#[local] Hint Resolve returns_at_once_allocate_transaction_id
  returns_at_once_wait_for_finished : pk_keep.

Lemma returns_at_once_call_and_wait error method args :
  returns_at_once faults (call_and_wait E error method args).
Proof. unfold call_and_wait. at_once. Qed.

Lemma returns_at_once_call_action method args :
  returns_at_once faults (call_action E method args).
Proof. unfold call_action. at_once. Qed.

Lemma returns_at_once_retry_with_privilege action :
  returns_at_once faults action -> returns_at_once faults (retry_with_privilege E action).
Proof. intros H. unfold retry_with_privilege. at_once. Qed.

Lemma returns_at_once_propagate_and_wait r error_pk :
  returns_at_once faults (propagate_and_wait E r error_pk).
Proof. unfold propagate_and_wait. at_once. Qed.

#[local] Hint Resolve returns_at_once_call_and_wait returns_at_once_call_action
  returns_at_once_retry_with_privilege returns_at_once_propagate_and_wait : pk_keep.

Lemma returns_at_once_run_action a : returns_at_once faults (run_action E a).
Proof.
  destruct a; simpl;
    unfold pk_client_get_updates, pk_client_update_system,
      pk_client_update_system_action,
      pk_client_search_name, pk_client_search_details, pk_client_search_group,
      pk_client_search_file, pk_client_search, pk_client_get_depends,
      pk_client_get_packages, pk_client_get_requires, pk_client_what_provides,
      pk_client_get_update_detail, pk_client_rollback, pk_client_resolve,
      pk_client_get_details, pk_client_get_files,
      pk_client_update_package, pk_client_install_package,
      pk_client_remove_package, pk_client_install_file,
      pk_client_remove_packages, pk_client_remove_packages_action,
      pk_client_refresh_cache, pk_client_refresh_cache_action,
      pk_client_install_packages, pk_client_install_package_action,
      pk_client_install_signature, pk_client_install_signature_action,
      pk_client_update_packages, pk_client_update_packages_action,
      pk_client_install_files, pk_client_install_files_action,
      pk_client_get_repo_list, pk_client_accept_eula,
      pk_client_accept_eula_action, pk_client_repo_enable,
      pk_client_repo_enable_action, pk_client_repo_set_data,
      pk_client_repo_set_data_action, pk_client_get_old_transactions,
      pk_client_change_status;
    at_once.
Qed.

Lemma returns_at_once_requeue : returns_at_once faults (pk_client_requeue E).
Proof.
  unfold pk_client_requeue.
  apply returns_at_once_bind_get_priv; intros c Hc.
  destruct (PkRoleEnum_eqb (role c) PK_ROLE_ENUM_UNKNOWN);
    [ apply returns_at_once_ret | ].
  destruct (negb (is_finished c)); [ apply returns_at_once_ret | ].
  apply returns_at_once_bind; [ at_once | intros _ ].
  apply returns_at_once_bind; [ at_once | intros _ ].
  apply returns_at_once_bind_get_priv; intros p Hp.
  destruct (role p); try apply returns_at_once_ret;
    (apply returns_at_once_bind;
     [ | intros [r error]; apply returns_at_once_ret ]).
  - apply (returns_at_once_run_action (SearchName _ _)).
  - apply (returns_at_once_run_action (SearchDetails _ _)).
  - apply (returns_at_once_run_action (SearchGroup _ _)).
  - apply (returns_at_once_run_action (SearchFile _ _)).
  - apply (returns_at_once_run_action (GetDepends _ _ _)).
  - apply (returns_at_once_run_action (GetRequires _ _ _)).
  - apply (returns_at_once_run_action (GetDetails _)).
  - apply (returns_at_once_run_action (GetFiles _)).
  - apply (returns_at_once_run_action (GetUpdates _)).
  - apply (returns_at_once_run_action (GetUpdateDetail _)).
  - apply (returns_at_once_run_action (Resolve _ _)).
  - apply (returns_at_once_run_action (Rollback _)).
  - apply (returns_at_once_run_action (InstallPackages _)).
  - apply (returns_at_once_run_action (InstallFiles _ _)).
  - exact (returns_at_once_run_action (InstallSignature PK_SIGTYPE_ENUM_GPG (cached_key_id p) (cached_package_id p))).
  - apply (returns_at_once_run_action (RemovePackages _ _ _)).
  - apply (returns_at_once_run_action (UpdatePackages _)).
  - apply (returns_at_once_run_action UpdateSystem).
  - apply (returns_at_once_run_action (RefreshCache _)).
  - apply (returns_at_once_run_action (GetRepoList _)).
Qed.

Lemma returns_at_once_reset : returns_at_once faults (pk_client_reset E).
Proof.
  unfold pk_client_reset, pk_client_disconnect_proxy, reset_fields. at_once.
Qed.

Lemma returns_at_once_queries :
  returns_at_once faults (pk_client_get_allow_cancel E)
  /\ returns_at_once faults (pk_client_get_status E)
  /\ returns_at_once faults (pk_client_get_package E)
  /\ returns_at_once faults (pk_client_get_progress E)
  /\ (forall want, returns_at_once faults (pk_client_get_role E want))
  /\ returns_at_once faults (pk_client_is_caller_active E).
Proof.
  repeat match goal with |- _ /\ _ => split end;
    try match goal with |- forall _ : bool, _ => intros want end;
    unfold pk_client_get_allow_cancel, pk_client_get_status,
      pk_client_get_package, pk_client_get_progress, pk_client_get_role,
      pk_client_is_caller_active;
    at_once.
Qed.

Lemma returns_at_once_run_op op :
  op <> SetSynchronous true -> returns_at_once faults (run_op E op).
Proof.
  intros Hop.
  destruct returns_at_once_queries as (Q1 & Q2 & Q3 & Q4 & Q5 & Q6).
  destruct op; simpl; unfold discard;
    try (apply returns_at_once_bind; [ | intros ?; apply returns_at_once_ret ]).
  - apply returns_at_once_run_action.
  - apply returns_at_once_cancel.
  - apply returns_at_once_reset.
  - apply returns_at_once_requeue.
  - apply returns_at_once_set_tid.
  - unfold pk_client_set_use_buffer. at_once.
  - match goal with
    | |- returns_at_once faults (pk_client_set_synchronous ?b) => destruct b
    end; [ contradiction Hop; reflexivity | ].
    intros s Hs. unfold pk_client_set_synchronous.
    rewrite bind_get_priv, Hs. split; [ left; eexists; reflexivity | ].
    destruct s as [c t]; destruct c; reflexivity.
  - exact Q1.
  - exact Q2.
  - exact Q3.
  - exact Q4.
  - apply Q5.
  - exact Q6.
  - apply returns_at_once_proxy_signal.
Qed.

Lemma returns_at_once_run_ops ops :
  Forall (fun op => op <> SetSynchronous true) ops ->
  returns_at_once faults (run_ops E ops).
Proof.
  induction 1 as [ | op ops Hop _ IH ]; simpl.
  - apply returns_at_once_ret.
  - apply returns_at_once_bind;
      [ apply returns_at_once_run_op; exact Hop | intros _; exact IH ].
Qed.

End AtOnce.

(** X14.  A client that is not synchronous never waits: whatever calls are
    made and whatever signals arrive, in any order and whatever the daemon
    answers, as long as the synchronous mode is not switched on the client
    stays not synchronous, and each call returns or goes wrong in one of two
    faults of the code: the read of the error through a [NULL] error
    location after an allocation that failed, and the message of a refusal
    of the policy taken as a format that asks for an argument.  When the
    callers pass error locations and the refusals need no argument, every
    call returns. *)
Theorem a_client_that_is_not_synchronous_never_waits (E : Env)
    (ops : list Op) (s : Sys) :
  synchronous (priv s) = false ->
  Forall (fun op => op <> SetSynchronous true) ops ->
  (fst (run_ops E ops s) = Some tt \/ stopped_in_fault (run_ops E ops s))
  /\ synchronous (priv (snd (run_ops E ops s))) = false
  /\ (callers_pass_error_location E -> refusals_need_no_argument E ->
      fst (run_ops E ops s) = Some tt).
Proof.
  intros Hs Hops. split; [ | split ].
  - destruct (returns_at_once_run_ops E true) with (ops := ops) (s := s)
      as [[[[] Hr] | [_ Hst]] _]; try assumption; try discriminate.
    + left. exact Hr.
    + right. exact Hst.
  - destruct (returns_at_once_run_ops E true) with (ops := ops) (s := s)
      as [_ Hs']; try assumption; discriminate.
  - intros Hloc Hfmt.
    destruct (returns_at_once_run_ops E false) with (ops := ops) (s := s)
      as [[[[] Hr] | [Hfl _]] _]; try assumption; try (intros _; assumption).
    discriminate Hfl.
Qed.

(** A search, a query, the end of the transaction, a requeue, a refused
    update and a reset; the caller passes error locations and the refusal
    holds no conversion. *)
Lemma a_client_that_is_not_synchronous_never_waits_witness :
  let no := mkGError DBUS_GERROR DBUS_GERROR_REMOTE_EXCEPTION
              "org.freedesktop.packagekit.update-system no" in
  let E := Script.with_denied_by_policy
             (fun e => String.eqb (message e)
                         "org.freedesktop.packagekit.update-system no")
             (Script.env (inr "/7_dcaeaaab_data") [None; None; Some no] false []) in
  let ops := [Call (SearchName 1 (Some "power")); GetStatus;
              Signal (Finished "success" 12); Requeue; Reset;
              Call UpdateSystem; Reset] in
  fst (run_ops E ops pk_client_new) = Some tt.
Proof.
  intros no E ops.
  refine (proj2 (proj2 (a_client_that_is_not_synchronous_never_waits E ops
                          pk_client_new _ _)) _ _).
  - reflexivity.
  - repeat constructor; discriminate.
  - intros h. reflexivity.
  - intros e He. cbn in He. apply String.eqb_eq in He. rewrite He.
    vm_compute. discriminate.
Defined.
(** * A requeue that fails *)

Section FailedRequeue.

Variable E : Env.

Lemma triple_ret_failed (x : Ret) :
  triple in_progress (ret x) failed_in_progress.
Proof. intros s a s' H Hr. injection Hr as <- <-. intros _. exact H. Qed.

Lemma triple_bind_keep {A : Type} (m : M A) (f : A -> M Ret) :
  preserves in_progress m ->
  (forall a, triple in_progress (f a) failed_in_progress) ->
  triple in_progress (bind m f) failed_in_progress.
Proof.
  intros Hm Hf s x s' H Hr. unfold bind in Hr.
  specialize (Hm s H). destruct (m s) as [[a|] s1]; [ | discriminate Hr ].
  exact (Hf a s1 x s' Hm Hr).
Qed.

Lemma triple_goes_wrong (how : Ext) :
  triple in_progress (@goes_wrong Ret how) failed_in_progress.
Proof. intros s a s' _ Hr. discriminate Hr. Qed.

(** The end of an action: after a call that failed there is no wait, and
    after a wait the action returns [TRUE]. *)
Lemma triple_finish (r : bool) (error : option GError) :
  triple in_progress (wait_for_finished E r ;; ret (r, error)) failed_in_progress.
Proof.
  intros s x s' H Hr. destruct r.
  - unfold bind in Hr.
    destruct (wait_for_finished E true s) as [[[]|] s1]; [ | discriminate Hr ].
    injection Hr as <- _. intros Hf. discriminate Hf.
  - rewrite (bind_returns _ _ _ _ _ (wait_for_finished_failed E s)) in Hr.
    injection Hr as <- <-. intros _. exact H.
Qed.

Lemma in_progress_set_tid tid' :
  preserves in_progress (pk_client_set_tid E tid').
Proof.
  unfold pk_client_set_tid. repeat keep_step;
    apply preserves_modify; intros c Hc; destruct c; exact Hc.
Qed.

Lemma in_progress_allocate_transaction_id :
  preserves in_progress (pk_client_allocate_transaction_id E).
Proof. exact (keeps_allocate_transaction_id E in_progress in_progress_set_tid). Qed.

Lemma in_progress_change_status status :
  preserves in_progress (pk_client_change_status status).
Proof.
  unfold pk_client_change_status. repeat keep_step.
  apply preserves_modify; intros c Hc; destruct c; exact Hc.
Qed.

(** An action that returns [FALSE] on a client in progress leaves it in
    progress: the only wait is behind a call that succeeded. *)
Lemma triple_run_action a :
  triple in_progress (run_action E a) failed_in_progress.
Proof.
  pose proof in_progress_allocate_transaction_id as K0.
  pose proof (keeps_call_action E in_progress) as K1.
  pose proof (keeps_retry_with_privilege E in_progress) as K2.
  pose proof (keeps_dbus_g_proxy_call E in_progress) as K3.
  pose proof (keeps_gain_privilege_str E in_progress) as K4.
  pose proof in_progress_change_status as K5.
  destruct a; simpl;
    unfold pk_client_get_updates, pk_client_update_system,
      pk_client_update_system_action,
      pk_client_search_name, pk_client_search_details, pk_client_search_group,
      pk_client_search_file, pk_client_search, pk_client_get_depends,
      pk_client_get_packages, pk_client_get_requires, pk_client_what_provides,
      pk_client_get_update_detail, pk_client_rollback, pk_client_resolve,
      pk_client_get_details, pk_client_get_files,
      pk_client_update_package, pk_client_install_package,
      pk_client_remove_package, pk_client_install_file,
      pk_client_remove_packages, pk_client_remove_packages_action,
      pk_client_refresh_cache, pk_client_refresh_cache_action,
      pk_client_install_packages, pk_client_install_package_action,
      pk_client_install_signature, pk_client_install_signature_action,
      pk_client_update_packages, pk_client_update_packages_action,
      pk_client_install_files, pk_client_install_files_action,
      pk_client_get_repo_list, pk_client_accept_eula,
      pk_client_accept_eula_action, pk_client_repo_enable,
      pk_client_repo_enable_action, pk_client_repo_set_data,
      pk_client_repo_set_data_action, pk_client_get_old_transactions,
      call_and_wait, propagate_and_wait;
    cbv zeta;
    repeat first
      [ apply triple_finish
      | apply triple_ret_failed
      | apply triple_goes_wrong
      | apply triple_bind_keep;
        [ solve [ auto with pk_keep
                | apply preserves_modify; intros c [Hf Hr]; destruct c;
                  split; [ exact Hf | discriminate ]
                | repeat keep_step ]
        | intros ? ]
      | match goal with
        | |- triple _ (if ?b then _ else _) _ => destruct b
        | |- triple _ (match ?x with _ => _ end) _ => destruct x
        end ].
Qed.

(** A finished client whose role has no branch in [pk_client_requeue]: the
    fields are cleared and the role is reported unknown. *)
Lemma pk_client_requeue_no_branch s :
  role (priv s) <> PK_ROLE_ENUM_UNKNOWN ->
  is_finished (priv s) = true ->
  requeue_action (priv s) = None ->
  pk_client_requeue E s = (Some (false, Some role_unknown), requeued s).
Proof.
  destruct s as [c tr].
  destruct c as [proxy0 loop0 finished0 ? ? tid0 ? ? ? role0 ? ? ? ? ? ? ? ? ? ? ? ? ?].
  unfold pk_client_requeue, requeue_action, requeued. rewrite bind_get_priv.
  cbn [priv role is_finished].
  intros Hr -> Ha.
  destruct role0; try discriminate; try reflexivity. contradiction.
Qed.

Lemma pk_client_requeue_in_progress s :
  in_progress (priv s) ->
  pk_client_requeue E s = (Some (false, Some not_finished), s).
Proof.
  destruct s as [c tr].
  destruct c as [proxy0 loop0 finished0 ? ? tid0 ? ? ? role0 ? ? ? ? ? ? ? ? ? ? ? ? ?].
  unfold pk_client_requeue, in_progress. rewrite bind_get_priv.
  cbn [priv role is_finished].
  intros [-> Hr]. destruct role0; try reflexivity. contradiction.
Qed.

Lemma requeued_in_progress s :
  role (priv s) <> PK_ROLE_ENUM_UNKNOWN -> in_progress (priv (requeued s)).
Proof. intros H. destruct s as [c tr]. destruct c. split; [ reflexivity | exact H ]. Qed.

Lemma in_progress_callback ev :
  (forall exit_text runtime, ev <> Finished exit_text runtime) ->
  preserves in_progress (callback E ev).
Proof.
  intros Hev.
  destruct ev;
    try (exfalso; eapply Hev; reflexivity); simpl;
    unfold pk_client_progress_changed_cb,
      pk_client_status_changed_cb, pk_client_change_status, pk_client_package_cb,
      pk_client_transaction_cb, pk_client_update_detail_cb,
      pk_client_details_cb, pk_client_files_cb,
      pk_client_repo_signature_required_cb, pk_client_eula_required_cb,
      pk_client_repo_detail_cb, pk_client_error_code_cb,
      pk_client_require_restart_cb, pk_client_message_cb,
      pk_client_caller_active_changed_cb, pk_client_allow_cancel_cb;
    repeat first
      [ keep_step
      | apply preserves_modify; intros c Hc; destruct c; exact Hc ].
Qed.

(** The operations that keep a client waiting leave a client in progress
    in progress. *)
Lemma in_progress_run_op op :
  keeps_waiting op = true -> preserves in_progress (run_op E op).
Proof.
  intros Hop.
  destruct (keeps_queries E in_progress) as (Q1 & Q2 & Q3 & Q4 & Q5 & Q6).
  destruct op; try discriminate Hop; simpl; unfold discard;
    try (apply preserves_bind; [ | intros ?; apply preserves_ret ]).
  - apply keeps_cancel.
  - intros s H. rewrite (pk_client_requeue_in_progress s H). exact H.
  - apply in_progress_set_tid.
  - apply keeps_set_use_buffer. intros b c _ Hc. destruct c; exact Hc.
  - apply keeps_set_synchronous. intros b c _ Hc. destruct c; exact Hc.
  - exact Q1.
  - exact Q2.
  - exact Q3.
  - exact Q4.
  - apply Q5.
  - exact Q6.
  - unfold proxy_signal. repeat keep_step.
    apply in_progress_callback. intros exit_text runtime ->. discriminate Hop.
Qed.

Lemma in_progress_run_ops ops :
  forallb keeps_waiting ops = true -> preserves in_progress (run_ops E ops).
Proof.
  induction ops as [|op ops IH]; simpl; intros Hops.
  - apply preserves_ret.
  - apply andb_prop in Hops. destruct Hops as [Hop Hops].
    apply preserves_bind;
      [ apply in_progress_run_op; exact Hop | intros _; apply IH; exact Hops ].
Qed.

End FailedRequeue.

(** X15.  A requeue that fails is not repeated before the transaction is
    heard to finish.  When the requeue of a finished client returns FALSE,
    for whatever reason (the daemon gives no transaction, the method call
    fails, the policy refuses, the arguments are rejected, or the role has
    no branch in requeue), it has already cleared the finished flag and
    kept the role.  From then on, whatever is called and whatever signal
    arrives in between, as long as it is no new action, no reset and no
    Finished signal, a requeue fails with "not finished, so cannot requeue"
    and does nothing. *)
Theorem a_failed_requeue_fails_until_finished (E : Env) (s : Sys)
    (error : option GError) (ops : list Op) :
  role (priv s) <> PK_ROLE_ENUM_UNKNOWN ->
  is_finished (priv s) = true ->
  fst (pk_client_requeue E s) = Some (false, error) ->
  forallb keeps_waiting ops = true ->
  let s' := snd (run_ops E ops (snd (pk_client_requeue E s))) in
  is_finished (priv s') = false
  /\ role (priv s') <> PK_ROLE_ENUM_UNKNOWN
  /\ pk_client_requeue E s' = (Some (false, Some not_finished), s').
Proof.
  intros Hr Hf Hfail Hops s'.
  assert (H0 : in_progress (priv (snd (pk_client_requeue E s)))).
  { revert Hfail.
    destruct (requeue_action (priv s)) as [a'|] eqn:Hq.
    - rewrite (pk_client_requeue_reissues E s a' Hq Hf).
      unfold fixed_up_action, bind.
      destruct (run_action E a' (requeued s)) as [[[r0 e0]|] s1] eqn:Hrun;
        [ | discriminate ].
      cbn [ret fst snd]. intros H. injection H as -> _.
      exact (triple_run_action E a' (requeued s) (false, e0) s1
               (requeued_in_progress s Hr) Hrun eq_refl).
    - rewrite (pk_client_requeue_no_branch E s Hr Hf Hq). intros _.
      apply requeued_in_progress. exact Hr. }
  assert (H : in_progress (priv s')).
  { unfold s'. apply in_progress_run_ops; assumption. }
  destruct H as [H1 H2]. split; [ exact H1 | ]. split; [ exact H2 | ].
  apply pk_client_requeue_in_progress. split; assumption.
Qed.

(** A search has finished; the requeue fails at the method call; a status
    signal arrives, the status is asked for, and the requeue is tried twice
    more. *)
Lemma a_failed_requeue_fails_until_finished_witness :
  let e := mkGError DBUS_GERROR DBUS_GERROR_REMOTE_EXCEPTION
             "transaction backend could not be started" in
  let E := Script.env (inr "/7_dcaeaaab_data") [None; Some e] false [] in
  let s := snd (proxy_signals E [Finished "success" 12]
                  (snd (run_action E (SearchName 1 (Some "power")) pk_client_new))) in
  let ops := [Signal (StatusChanged "running"); GetStatus; Requeue] in
  let s' := snd (run_ops E ops (snd (pk_client_requeue E s))) in
  pk_client_requeue E s' = (Some (false, Some not_finished), s').
Proof.
  intros e E s ops.
  refine (proj2 (proj2 (a_failed_requeue_fails_until_finished E s
                          (Some (mkGError DBUS_GERROR PK_CLIENT_ERROR_FAILED
                                   "transaction backend could not be started"))
                          ops _ _ _ _))).
  - vm_compute. discriminate.
  - vm_compute. reflexivity.
  - vm_compute. reflexivity.
  - reflexivity.
Defined.
(** * Binding, unbinding and the signals *)

Section Unbound.

Variable E : Env.

(** Without a proxy no signal reaches the client. *)
Lemma proxy_signals_unbound evs s :
  proxy (priv s) = None -> proxy_signals E evs s = (Some tt, s).
Proof.
  intros Hp. induction evs as [ | ev evs IH ]; [ reflexivity | ].
  cbn [proxy_signals].
  erewrite bind_returns; [ exact IH | ].
  unfold proxy_signal. rewrite bind_get_priv, Hp. reflexivity.
Qed.

Lemma pk_client_disconnect_proxy_unbinds s :
  proxy (priv (snd (pk_client_disconnect_proxy s))) = None
  /\ exists r, fst (pk_client_disconnect_proxy s) = Some r.
Proof.
  unfold pk_client_disconnect_proxy. rewrite bind_get_priv.
  destruct (proxy (priv s)) as [p|] eqn:Hp.
  - rewrite !bind_modify. split; [ | eexists; reflexivity ].
    destruct s as [c t]; destruct c; reflexivity.
  - split; [ exact Hp | eexists; reflexivity ].
Qed.

Lemma pk_client_finalize_unbinds s :
  fst (pk_client_finalize s) = Some tt
  /\ proxy (priv (snd (pk_client_finalize s))) = None.
Proof.
  unfold pk_client_finalize. rewrite bind_get_priv.
  assert (H : forall s0, fst ((pk_client_disconnect_proxy ;; ret tt) s0) = Some tt
              /\ proxy (priv (snd ((pk_client_disconnect_proxy ;; ret tt) s0))) = None).
  { intros s0. destruct (pk_client_disconnect_proxy_unbinds s0) as [Hp [r Hr]].
    unfold bind. destruct (pk_client_disconnect_proxy s0) as [[r0|] s1];
      [ | discriminate Hr ].
    split; [ reflexivity | exact Hp ]. }
  destruct (synchronous (priv s)).
  - unfold g_main_loop_quit. rewrite bind_modify. apply H.
  - rewrite bind_ret. apply H.
Qed.

Lemma pk_client_set_tid_binds s tid' :
  tid (priv s) = None ->
  dbus_g_proxy_new_for_name E (trace s) tid' = true ->
  pk_client_set_tid E tid' s
  = (Some (true, None),
     mkSys (with_proxy (Some (mkProxy tid' connected_signals))
              (with_tid (Some tid') (priv s)))
           (trace s ++ [ProxyNewForName tid'])).
Proof.
  intros Ht Hp. unfold pk_client_set_tid. rewrite bind_get_priv, Ht.
  rewrite bind_history, bind_record. cbn [priv trace]. rewrite Hp.
  reflexivity.
Qed.

End Unbound.

(** X16.  A client that was reset or finalized hears nothing of its old
    transaction: after a reset that returned TRUE, and after the
    finalization, which always returns, the signals that still arrive reach
    no callback, change nothing and are not told to any observer. *)
Theorem an_unbound_client_hears_no_signal (E : Env) (s : Sys)
    (evs : list BusSignal) :
  (forall error, fst (pk_client_reset E s) = Some (true, error) ->
     proxy_signals E evs (snd (pk_client_reset E s))
     = (Some tt, snd (pk_client_reset E s)))
  /\ fst (pk_client_finalize s) = Some tt
  /\ proxy_signals E evs (snd (pk_client_finalize s))
     = (Some tt, snd (pk_client_finalize s)).
Proof.
  split; [ | split ].
  - intros error Hr. apply proxy_signals_unbound.
    destruct (pk_client_reset_succeeds E s error Hr) as [_ ->]. reflexivity.
  - apply pk_client_finalize_unbinds.
  - apply proxy_signals_unbound. apply pk_client_finalize_unbinds.
Qed.

Lemma an_unbound_client_hears_no_signal_witness :
  let E := Script.env (inr "/7_dcaeaaab_data") [None] false [] in
  let hal := Package "installed" "hal;0.5.10;i386;fedora" "HAL" in
  let s := snd (proxy_signals E [Finished "success" 12]
                  (snd (run_action E (SearchName 1 (Some "power")) pk_client_new))) in
  proxy_signals E [hal] (snd (pk_client_reset E s))
  = (Some tt, snd (pk_client_reset E s)).
Proof.
  intros E hal s.
  refine (proj1 (an_unbound_client_hears_no_signal E s [hal]) None _).
  vm_compute. reflexivity.
Defined.

(** X17.  [pk_client_set_tid] makes a client a listener of a transaction
    another client started: on a client without a tid, when the proxy can be
    made, it returns TRUE without an error and makes no method call; from
    then on every signal of the transaction is told to the observers of
    this client, in order, while its role stays what it was. *)
Theorem a_client_bound_by_set_tid_hears_the_transaction (E : Env) (s : Sys)
    (tid' : string) (evs : list BusSignal) :
  tid (priv s) = None ->
  dbus_g_proxy_new_for_name E (trace s) tid' = true ->
  let s1 := snd (pk_client_set_tid E tid' s) in
  let s2 := snd (proxy_signals E evs s1) in
  fst (pk_client_set_tid E tid' s) = Some (true, None)
  /\ tid (priv s1) = Some tid'
  /\ trace s1 = trace s ++ [ProxyNewForName tid']
  /\ trace s2 = trace s1 ++ map (fun ev => SignalEmit (notification E ev)) evs
  /\ role (priv s2) = role (priv s).
Proof.
  intros Ht Hp s1 s2. unfold s2, s1.
  rewrite (pk_client_set_tid_binds E s tid' Ht Hp). cbn [fst snd].
  set (s1' := mkSys _ _).
  assert (Hb : bound (priv s1'))
    by (exists tid'; destruct s as [c t]; destruct c; reflexivity).
  rewrite (proxy_signals_bound E evs s1' Hb). cbn [snd priv trace].
  split; [ reflexivity | ].
  split; [ destruct s as [c t]; destruct c; reflexivity | ].
  split; [ reflexivity | ]. split; [ reflexivity | ].
  destruct (written_by_signals_only_frame _ _
              (fold_received_written_only E evs (priv s1')))
    as (_ & _ & Hrole & _).
  rewrite Hrole. destruct s as [c t]; destruct c; reflexivity.
Qed.

Lemma a_client_bound_by_set_tid_hears_the_transaction_witness :
  let E := Script.env (inr "/7_dcaeaaab_data") [None] false [] in
  let hal := Package "installed" "hal;0.5.10;i386;fedora" "HAL" in
  let s1 := snd (pk_client_set_tid E "/7_dcaeaaab_data" pk_client_new) in
  trace (snd (proxy_signals E [hal; hal] s1))
  = trace s1 ++ [SignalEmit (PK_CLIENT_PACKAGE 0 "hal;0.5.10;i386;fedora" "HAL");
                 SignalEmit (PK_CLIENT_PACKAGE 0 "hal;0.5.10;i386;fedora" "HAL")].
Proof.
  intros E hal.
  refine (proj1 (proj2 (proj2 (proj2 (a_client_bound_by_set_tid_hears_the_transaction
                   E pk_client_new "/7_dcaeaaab_data" [hal; hal] _ _))))).
  - reflexivity.
  - reflexivity.
Defined.

(** X18.  A reset client searches afresh: after a reset that returned TRUE,
    a synchronous search by name that the daemon accepts and finishes
    returns TRUE and leaves as package list exactly the packages signalled
    in this run, none of an earlier one; with the buffer on that is what
    the accessor gives.  It is what the loop of the self test relies on. *)
Theorem a_reset_client_searches_afresh (E : Env) (s : Sys)
    (error : option GError) (tid' : string) (filters : PkFilterEnum)
    (search : option string) (pre post : list BusSignal) (exit_text : string)
    (runtime : Z) :
  let s0 := snd (pk_client_reset E s) in
  let args := [filter_arg E filters; G_TYPE_STRING search] in
  let called := trace (bound_to tid' s0) ++ [ProxyCall tid' "SearchName" args] in
  let waiting := SignalEmit (PK_CLIENT_STATUS_CHANGED PK_STATUS_ENUM_WAIT) in
  fst (pk_client_reset E s) = Some (true, error) ->
  synchronous (priv s) = true ->
  pk_control_allocate_transaction_id E (trace s0) = inr tid' ->
  dbus_g_proxy_new_for_name E (trace s0 ++ [ControlAllocateTid]) tid' = true ->
  dbus_reply E (trace (bound_to tid' s0)) tid' "SearchName" args = None ->
  g_main_context_pending E (called ++ [waiting])
  = pre ++ Finished exit_text runtime :: post ->
  forallb (fun ev => negb (is_finished_signal ev)) pre = true ->
  let s1 := snd (pk_client_search_name E filters search s0) in
  fst (pk_client_search_name E filters search s0) = Some (true, None)
  /\ package_list (priv s1) = package_items E pre
  /\ (use_buffer (priv s) = true ->
      fst (pk_client_get_package_list s1) = Some (Some (package_items E pre))).
Proof.
  intros s0 args called waiting Hr Hs Hal Hp Hreply Hpend Hpre s1.
  destruct (pk_client_reset_succeeds E s error Hr) as [_ Hpriv]. fold s0 in Hpriv.
  assert (Ha : allocates E s0 tid')
    by (split; [ rewrite Hpriv; reflexivity | split; assumption ]).
  assert (Hs0 : synchronous (priv s0) = true) by (rewrite Hpriv; exact Hs).
  assert (Hf0 : is_finished (priv s0) = false) by (rewrite Hpriv; reflexivity).
  destruct (pk_client_search_name_synchronous_result E s0 tid' filters search
              pre post exit_text runtime Ha Hs0 Hf0 Hreply Hpend Hpre)
    as (Hret & _ & Hlist & _ & _).
  fold s1 in Hlist. rewrite Hpriv in Hlist. cbn [package_list reset_priv app] in Hlist.
  split; [ exact Hret | ]. split; [ exact Hlist | ].
  intros Hu. unfold pk_client_get_package_list. rewrite bind_get_priv.
  assert (Hu1 : use_buffer (priv s1) = true).
  { apply (use_buffer_on_run_action E (SearchName filters search) s0).
    rewrite Hpriv. exact Hu. }
  rewrite Hu1, Hlist. reflexivity.
Qed.

Lemma a_reset_client_searches_afresh_witness :
  let hal := Package "installed" "hal;0.5.10;i386;fedora" "HAL" in
  let E := Script.env (inr "/7_dcaeaaab_data") [None; None] false
             [hal; Finished "success" 7] in
  let s := snd (pk_client_search_name E 1 (Some "power")
                  (mkSys (with_use_buffer true (with_synchronous true pk_client_init)) [])) in
  let s1 := snd (pk_client_search_name E 1 (Some "power") (snd (pk_client_reset E s))) in
  fst (pk_client_get_package_list s1)
  = Some (Some [mkItem 0 "hal;0.5.10;i386;fedora" "HAL"]).
Proof.
  intros hal E s.
  refine (proj2 (proj2 (a_reset_client_searches_afresh E s None "/7_dcaeaaab_data"
                          1 (Some "power") [hal] [] "success" 7
                          _ _ _ _ _ _ _)) _).
  - vm_compute. reflexivity.
  - vm_compute. reflexivity.
  - reflexivity.
  - reflexivity.
  - reflexivity.
  - reflexivity.
  - reflexivity.
  - vm_compute. reflexivity.
Defined.
(** * Two more compositions: the refusals of update-system, reset and cancel *)

(** X19.  [pk_client_update_system] reports a refusal by policy as
    FailedAuth: when the first UpdateSystem call is refused and the
    privilege is not gained, and also when the privilege is gained and the
    call made again is refused again, the refusal then being the second
    one.  The message of the refusal is passed as the format of the error
    with no argument behind it: the message of the FailedAuth error is the
    text that format gives, which is the message of the refusal with each
    [%%] turned into [%]; when the message holds another conversion the
    call goes wrong and does not return.  The client keeps the tid and the
    role of the failed update. *)
Theorem update_system_reports_failed_auth (E : Env) (s : Sys) (tid' : string)
    (e1 : GError) :
  let s1 := mkSys (with_role PK_ROLE_ENUM_UPDATE_SYSTEM (priv (bound_to tid' s)))
                  (trace (bound_to tid' s)) in
  let call := ProxyCall tid' "UpdateSystem" [] in
  let ask := PolkitGainPrivilege (message e1) in
  let failed_auth (e : GError) (tr : Trace) : option Ret * Sys :=
    match g_vasprintf_no_args (message e) with
    | Some text =>
        (Some (false,
               Some (mkGError PK_CLIENT_ERROR PK_CLIENT_ERROR_FAILED_AUTH text)),
         mkSys (priv s1) tr)
    | None =>
        (None, mkSys (priv s1) (tr ++ [FormatWithoutArgument (message e)]))
    end in
  allocates E s tid' ->
  dbus_reply E (trace s1) tid' "UpdateSystem" [] = Some e1 ->
  pk_polkit_client_error_denied_by_policy E e1 = true ->
  (pk_polkit_client_gain_privilege_str E (trace s1 ++ [call]) (message e1) = false ->
   pk_client_update_system E s = failed_auth e1 (trace s1 ++ [call; ask]))
  /\ (pk_polkit_client_gain_privilege_str E (trace s1 ++ [call]) (message e1) = true ->
      forall e2,
        dbus_reply E (trace s1 ++ [call; ask]) tid' "UpdateSystem" [] = Some e2 ->
        pk_polkit_client_error_denied_by_policy E e2 = true ->
        pk_client_update_system E s = failed_auth e2 (trace s1 ++ [call; ask; call])).
Proof.
  intros s1 call ask failed_auth Ha H1 Hd.
  assert (Hfirst :
            pk_client_update_system E s
            = ('(r, error_pk) <- pk_client_update_system_action E ;;
               if negb r && denied_by_policy E error_pk then
                 gained <- gain_privilege_str E (error_message error_pk) ;;
                 '(r, error_pk) <- (if gained
                                    then pk_client_update_system_action E
                                    else ret (r, error_pk)) ;;
                 if denied_by_policy E error_pk then
                   match g_vasprintf_no_args (error_message error_pk) with
                   | Some buffer =>
                       ret (false, pk_client_error_set None
                                     PK_CLIENT_ERROR_FAILED_AUTH buffer)
                   | None =>
                       goes_wrong (FormatWithoutArgument (error_message error_pk))
                   end
                 else (wait_for_finished E r ;;
                       ret (r, if negb r then error_pk else None))
               else (wait_for_finished E r ;;
                     ret (r, if negb r then error_pk else None))) s1).
  { unfold pk_client_update_system.
    rewrite (bind_returns _ _ _ _ _ (pk_client_allocate_transaction_id_allocates E s tid' Ha)).
    tests. rewrite bind_modify. reflexivity. }
  assert (Hcall :
            pk_client_update_system_action E s1
            = (Some (false, Some e1), mkSys (priv s1) (trace s1 ++ [call]))).
  { unfold pk_client_update_system_action.
    rewrite (call_action_bound E _ _ s1 (mkProxy tid' connected_signals)) by reflexivity.
    simpl proxy_path. rewrite H1. reflexivity. }
  split.
  - intros Hg. rewrite Hfirst. clear Hfirst.
    rewrite (bind_returns _ _ _ _ _ Hcall).
    tests. unfold denied_by_policy at 1. rewrite Hd. tests.
    rewrite (bind_returns _ _ _ _ _ (gain_privilege_str_runs E _ _)).
    cbn [trace priv error_message]. unfold call in *. rewrite Hg.
    rewrite bind_ret. tests.
    unfold denied_by_policy. rewrite Hd. tests. cbn [error_message].
    unfold failed_auth.
    destruct (g_vasprintf_no_args (message e1));
      unfold pk_client_error_set, ret, goes_wrong; cbn [priv trace];
      rewrite <- ?app_assoc; reflexivity.
  - intros Hg e2 H2 Hd2. rewrite Hfirst. clear Hfirst.
    rewrite (bind_returns _ _ _ _ _ Hcall).
    tests. unfold denied_by_policy at 1. rewrite Hd. tests.
    rewrite (bind_returns _ _ _ _ _ (gain_privilege_str_runs E _ _)).
    cbn [trace priv error_message]. unfold call in *. rewrite Hg.
    erewrite bind_returns.
    2:{ unfold pk_client_update_system_action.
        rewrite (call_action_bound E _ _ _ (mkProxy tid' connected_signals)) by reflexivity.
        simpl proxy_path. cbn [trace priv]. rewrite <- app_assoc. cbn [app].
        unfold ask in H2. rewrite H2. reflexivity. }
    tests. unfold denied_by_policy. rewrite Hd2. tests. cbn [error_message].
    unfold failed_auth.
    destruct (g_vasprintf_no_args (message e2));
      unfold pk_client_error_set, ret, goes_wrong; cbn [priv trace];
      rewrite <- ?app_assoc; reflexivity.
Qed.

(** Two refusals with the privilege gained in between; the second message
    holds [%%], which the format turns into [%].  And one refusal whose
    message holds [%s]. *)
Lemma update_system_reports_failed_auth_witness :
  let no1 := Script.refused_by_policy "update-system no" in
  let no2 := Script.refused_by_policy "update-system 100%% no" in
  let no3 := Script.refused_by_policy "update-system %s" in
  fst (pk_client_update_system
         (Script.env (inr "/7_dcaeaaab_data") [Some no1; Some no2] true [])
         pk_client_new)
  = Some (false, Some (mkGError PK_CLIENT_ERROR PK_CLIENT_ERROR_FAILED_AUTH
                         "org.freedesktop.packagekit.update-system 100% no"))
  /\ fst (pk_client_update_system
            (Script.env (inr "/7_dcaeaaab_data") [Some no3] false [])
            pk_client_new)
     = None.
Proof.
  intros no1 no2 no3. split.
  - rewrite (proj2 (update_system_reports_failed_auth
                      (Script.env (inr "/7_dcaeaaab_data") [Some no1; Some no2] true [])
                      pk_client_new "/7_dcaeaaab_data" no1
                      (conj eq_refl (conj eq_refl eq_refl)) eq_refl eq_refl)
               eq_refl no2 eq_refl eq_refl).
    reflexivity.
  - rewrite (proj1 (update_system_reports_failed_auth
                      (Script.env (inr "/7_dcaeaaab_data") [Some no3] false [])
                      pk_client_new "/7_dcaeaaab_data" no3
                      (conj eq_refl (conj eq_refl eq_refl)) eq_refl eq_refl)
               eq_refl).
    reflexivity.
Defined.

(** X20.  [pk_client_reset] and the running transaction.  On a client that
    is not running, without a tid or finished, a reset makes no call and
    succeeds.  On a running one it first makes the one Cancel call: if the
    daemon accepts it, or answers that the transaction is not running or
    does not exist, the reset goes on and succeeds; with any other answer
    the reset returns FALSE with that error fixed up and the client is as it
    was, still bound and running. *)
Theorem reset_cancels_a_running_transaction (E : Env) (s : Sys) :
  (tid (priv s) = None \/ is_finished (priv s) = true ->
   pk_client_reset E s = (Some (true, None), mkSys (reset_priv (priv s)) (trace s)))
  /\ (forall p, tid (priv s) <> None -> is_finished (priv s) = false ->
      proxy (priv s) = Some p ->
      let tr := trace s ++ [ProxyCall (proxy_path p) "Cancel" []] in
      match dbus_reply E (trace s) (proxy_path p) "Cancel" [] with
      | None =>
          pk_client_reset E s = (Some (true, None), mkSys (reset_priv (priv s)) tr)
      | Some e =>
          if not_running_or_missing e
          then pk_client_reset E s
               = (Some (true, None), mkSys (reset_priv (priv s)) tr)
          else pk_client_reset E s
               = (Some (false, pk_client_error_fixup (Some e)), mkSys (priv s) tr)
      end).
Proof.
  split.
  - intros H. unfold pk_client_reset. rewrite bind_get_priv.
    assert (Hc : negb (is_none (tid (priv s))) && negb (is_finished (priv s)) = false)
      by (destruct H as [-> | ->]; [ reflexivity | apply andb_false_r ]).
    rewrite Hc, bind_ret. tests. apply reset_after_cancel.
  - intros p Ht Hf Hp tr. unfold pk_client_reset. rewrite bind_get_priv.
    assert (Hc : negb (is_none (tid (priv s))) && negb (is_finished (priv s)) = true)
      by (rewrite Hf; destruct (tid (priv s)); [ reflexivity | contradiction ]).
    rewrite Hc.
    assert (Hcancel : pk_client_cancel E s
              = match dbus_reply E (trace s) (proxy_path p) "Cancel" [] with
                | None => (Some (true, None), mkSys (priv s) tr)
                | Some e =>
                    if not_running_or_missing e
                    then (Some (true, None), mkSys (priv s) tr)
                    else (Some (false, pk_client_error_fixup (Some e)),
                          mkSys (priv s) tr)
                end).
    { unfold pk_client_cancel. rewrite bind_get_priv, Hp.
      rewrite (bind_returns _ _ _ _ _ (dbus_g_proxy_call_runs E p _ _ s)).
      destruct (dbus_reply E (trace s) (proxy_path p) "Cancel" []) as [e|];
        [ | reflexivity ].
      unfold not_running_or_missing.
      destruct (_ || _); reflexivity. }
    destruct (dbus_reply E (trace s) (proxy_path p) "Cancel" []) as [e|].
    + destruct (not_running_or_missing e).
      * rewrite (bind_returns _ _ _ _ _ Hcancel). tests.
        rewrite reset_after_cancel. reflexivity.
      * rewrite (bind_returns _ _ _ _ _ Hcancel). reflexivity.
    + rewrite (bind_returns _ _ _ _ _ Hcancel). tests.
      rewrite reset_after_cancel. reflexivity.
Qed.

Lemma reset_cancels_a_running_transaction_witness :
  let e := mkGError DBUS_GERROR DBUS_GERROR_REMOTE_EXCEPTION "cancel not allowed" in
  let E := Script.env (inr "/7_dcaeaaab_data") [None; Some e] false [] in
  let s := snd (run_action E (SearchName 1 (Some "power")) pk_client_new) in
  pk_client_reset E s
  = (Some (false, Some (mkGError DBUS_GERROR PK_CLIENT_ERROR_FAILED "cancel not allowed")),
     mkSys (priv s) (trace s ++ [ProxyCall "/7_dcaeaaab_data" "Cancel" []])).
Proof.
  intros e E s.
  exact (proj2 (reset_cancels_a_running_transaction E s)
           (mkProxy "/7_dcaeaaab_data" connected_signals)
           ltac:(discriminate) eq_refl eq_refl).
Defined.
(** * How often the daemon is called *)

Section Calls.

Variable E : Env.

Lemma method_calls_app h h' :
  method_calls (h ++ h') = (method_calls h + method_calls h')%nat.
Proof. unfold method_calls. rewrite filter_app, length_app. reflexivity. Qed.

Lemma calls_at_most_weaken {A : Type} (n k : nat) (m : M A) :
  (n <= k)%nat -> calls_at_most n m -> calls_at_most k m.
Proof. intros Hle H s. specialize (H s). lia. Qed.

Lemma calls_at_most_ret {A : Type} (n : nat) (a : A) : calls_at_most n (ret a).
Proof. intros s. cbn [ret snd]. lia. Qed.

Lemma calls_at_most_park {A : Type} (n : nat) : calls_at_most n (@park A).
Proof. intros s. cbn [park snd]. lia. Qed.

Lemma calls_at_most_goes_wrong {A : Type} (n : nat) (how : Ext) :
  is_method_call how = false -> calls_at_most n (@goes_wrong A how).
Proof.
  intros H s. unfold goes_wrong. cbn [snd trace]. rewrite method_calls_app.
  unfold method_calls at 2. cbn [filter]. rewrite H. cbn [List.length]. lia.
Qed.

Lemma calls_at_most_bind {A B : Type} (n1 n2 : nat) (m : M A) (f : A -> M B) :
  calls_at_most n1 m -> (forall a, calls_at_most n2 (f a)) ->
  calls_at_most (n1 + n2) (bind m f).
Proof.
  intros Hm Hf s. unfold bind. specialize (Hm s).
  destruct (m s) as [[a|] s1]; cbn [snd] in *.
  - specialize (Hf a s1). lia.
  - lia.
Qed.

Lemma calls_at_most_get_priv : calls_at_most 0 get_priv.
Proof. intros s. cbn [get_priv snd]. lia. Qed.

Lemma calls_at_most_history : calls_at_most 0 history.
Proof. intros s. cbn [history snd]. lia. Qed.

Lemma calls_at_most_modify f : calls_at_most 0 (modify f).
Proof. intros s. cbn [modify snd trace]. lia. Qed.

Lemma calls_at_most_record e :
  calls_at_most (if is_method_call e then 1 else 0) (record e).
Proof.
  intros s. cbn [record snd trace]. rewrite method_calls_app.
  unfold method_calls at 2. cbn [filter]. destruct (is_method_call e); cbn [List.length]; lia.
Qed.

Lemma calls_at_most_g_signal_emit signal : calls_at_most 0 (g_signal_emit signal).
Proof. exact (calls_at_most_record (SignalEmit signal)). Qed.

Create HintDb pk_calls.

#[local] Hint Resolve calls_at_most_get_priv calls_at_most_history
  calls_at_most_modify calls_at_most_g_signal_emit : pk_calls.

(** Split a [bind] whose first part makes no call, or else one call. *)
Ltac count_part :=
  solve [ repeat match goal with
            | |- calls_at_most _ (if ?b then _ else _) => destruct b
            end;
          auto using calls_at_most_ret with pk_calls ].

Ltac count_calls :=
  repeat match goal with
    | |- calls_at_most _ (ret _) => apply calls_at_most_ret
    | |- calls_at_most _ park => apply calls_at_most_park
    | |- calls_at_most _ (goes_wrong _) =>
        apply calls_at_most_goes_wrong; reflexivity
    | |- calls_at_most ?n (bind _ _) =>
        first [ apply (calls_at_most_bind 0 n); [ count_part | intros ? ]
              | match n with
                | S ?k => apply (calls_at_most_bind 1 k);
                          [ count_part | intros ? ]
                end ]
    | |- calls_at_most _ (if ?b then _ else _) => destruct b
    | |- calls_at_most _ (match ?x with _ => _ end) => destruct x
    | |- calls_at_most _ _ => solve [ auto with pk_calls ]
    end.

Lemma calls_at_most_callback ev : calls_at_most 0 (callback E ev).
Proof.
  destruct ev; simpl;
    unfold pk_client_finished_cb, pk_client_progress_changed_cb,
      pk_client_status_changed_cb, pk_client_change_status, pk_client_package_cb,
      pk_client_transaction_cb, pk_client_update_detail_cb,
      pk_client_details_cb, pk_client_files_cb,
      pk_client_repo_signature_required_cb, pk_client_eula_required_cb,
      pk_client_repo_detail_cb, pk_client_error_code_cb,
      pk_client_require_restart_cb, pk_client_message_cb,
      pk_client_caller_active_changed_cb, pk_client_allow_cancel_cb,
      g_main_loop_quit;
    count_calls.
Qed.

#[local] Hint Resolve calls_at_most_callback : pk_calls.

Lemma calls_at_most_proxy_signal ev : calls_at_most 0 (proxy_signal E ev).
Proof. unfold proxy_signal. count_calls. Qed.

#[local] Hint Resolve calls_at_most_proxy_signal : pk_calls.

Lemma calls_at_most_g_main_loop_iterate pending :
  calls_at_most 0 (g_main_loop_iterate E pending).
Proof. induction pending as [ | ev pending IH ]; simpl; count_calls. Qed.

#[local] Hint Resolve calls_at_most_g_main_loop_iterate : pk_calls.

Lemma calls_at_most_g_main_loop_run : calls_at_most 0 (g_main_loop_run E).
Proof.
  unfold g_main_loop_run.
  pose proof (calls_at_most_record MainLoopRun) as H. count_calls.
Qed.

Lemma calls_at_most_change_status status :
  calls_at_most 0 (pk_client_change_status status).
Proof. unfold pk_client_change_status. count_calls. Qed.

#[local] Hint Resolve calls_at_most_g_main_loop_run calls_at_most_change_status
  : pk_calls.

Lemma calls_at_most_wait_for_finished r : calls_at_most 0 (wait_for_finished E r).
Proof. unfold wait_for_finished. count_calls. Qed.

Lemma calls_at_most_gain_privilege_str error_str :
  calls_at_most 0 (gain_privilege_str E error_str).
Proof.
  unfold gain_privilege_str.
  pose proof (calls_at_most_record (PolkitGainPrivilege error_str)) as H.
  count_calls.
Qed.

Lemma calls_at_most_dbus_g_proxy_call p method args :
  calls_at_most 1 (dbus_g_proxy_call E p method args).
Proof.
  unfold dbus_g_proxy_call.
  pose proof (calls_at_most_record (ProxyCall (proxy_path p) method args)) as H.
  count_calls.
Qed.

Lemma calls_at_most_set_tid tid' : calls_at_most 0 (pk_client_set_tid E tid').
Proof.
  unfold pk_client_set_tid.
  pose proof (calls_at_most_record (ProxyNewForName tid')) as H. count_calls.
Qed.

#[local] Hint Resolve calls_at_most_wait_for_finished
  calls_at_most_gain_privilege_str calls_at_most_dbus_g_proxy_call
  calls_at_most_set_tid : pk_calls.

Lemma calls_at_most_allocate_transaction_id :
  calls_at_most 0 (pk_client_allocate_transaction_id E).
Proof.
  unfold pk_client_allocate_transaction_id.
  pose proof (calls_at_most_record ControlAllocateTid) as H. count_calls.
Qed.

Lemma calls_at_most_call_action method args :
  calls_at_most 1 (call_action E method args).
Proof. unfold call_action. count_calls. Qed.

Lemma calls_at_most_call_and_wait error method args :
  calls_at_most 1 (call_and_wait E error method args).
Proof. unfold call_and_wait. count_calls. Qed.

Lemma calls_at_most_propagate_and_wait r error_pk :
  calls_at_most 0 (propagate_and_wait E r error_pk).
Proof. unfold propagate_and_wait. count_calls. Qed.

#[local] Hint Resolve calls_at_most_allocate_transaction_id
  calls_at_most_call_action calls_at_most_call_and_wait
  calls_at_most_propagate_and_wait : pk_calls.

Lemma calls_at_most_retry_with_privilege method args :
  calls_at_most 2 (retry_with_privilege E (call_action E method args)).
Proof. unfold retry_with_privilege. count_calls. Qed.

Lemma calls_at_most_cancel : calls_at_most 1 (pk_client_cancel E).
Proof. unfold pk_client_cancel. count_calls. Qed.

Lemma calls_at_most_run_action a : calls_at_most 2 (run_action E a).
Proof.
  pose proof calls_at_most_retry_with_privilege as Hretry.
  destruct a; simpl;
    unfold pk_client_get_updates, pk_client_update_system,
      pk_client_update_system_action,
      pk_client_search_name, pk_client_search_details, pk_client_search_group,
      pk_client_search_file, pk_client_search, pk_client_get_depends,
      pk_client_get_packages, pk_client_get_requires, pk_client_what_provides,
      pk_client_get_update_detail, pk_client_rollback, pk_client_resolve,
      pk_client_get_details, pk_client_get_files,
      pk_client_update_package, pk_client_install_package,
      pk_client_remove_package, pk_client_install_file,
      pk_client_remove_packages, pk_client_remove_packages_action,
      pk_client_refresh_cache, pk_client_refresh_cache_action,
      pk_client_install_packages, pk_client_install_package_action,
      pk_client_install_signature, pk_client_install_signature_action,
      pk_client_update_packages, pk_client_update_packages_action,
      pk_client_install_files, pk_client_install_files_action,
      pk_client_get_repo_list, pk_client_accept_eula,
      pk_client_accept_eula_action, pk_client_repo_enable,
      pk_client_repo_enable_action, pk_client_repo_set_data,
      pk_client_repo_set_data_action, pk_client_get_old_transactions;
    cbv zeta;
    repeat first
      [ apply (calls_at_most_bind 2 0); [ apply Hretry | intros ? ]
      | progress count_calls
      | apply (calls_at_most_weaken 1 2); [ lia | ] ].
Qed.

Lemma calls_at_most_run_action_once a :
  asks_for_privilege a = false -> calls_at_most 1 (run_action E a).
Proof.
  intros Ha.
  destruct a; try discriminate Ha; simpl;
    unfold pk_client_get_updates,
      pk_client_search_name, pk_client_search_details, pk_client_search_group,
      pk_client_search_file, pk_client_search, pk_client_get_depends,
      pk_client_get_packages, pk_client_get_requires, pk_client_what_provides,
      pk_client_get_update_detail, pk_client_rollback, pk_client_resolve,
      pk_client_get_details, pk_client_get_files,
      pk_client_get_repo_list, pk_client_get_old_transactions;
    cbv zeta; count_calls.
Qed.

End Calls.

(** X21.  An action calls the daemon at most twice on its transaction,
    whatever the daemon and PolicyKit answer and whether or not the call
    returns: once, and once more only after a refusal by policy with the
    privilege gained.  The actions that do not ask for the privilege call at
    most once.  The wait of the synchronous mode adds no call. *)
Theorem an_action_calls_at_most_twice (E : Env) (a : Action) (s : Sys) :
  (method_calls (trace (snd (run_action E a s))) <= method_calls (trace s) + 2)%nat
  /\ (asks_for_privilege a = false ->
      (method_calls (trace (snd (run_action E a s)))
       <= method_calls (trace s) + 1)%nat).
Proof.
  split.
  - apply calls_at_most_run_action.
  - intros Ha. apply calls_at_most_run_action_once. exact Ha.
Qed.

Lemma an_action_calls_at_most_twice_witness :
  let no := Script.refused_by_policy "install no" in
  let E := Script.env (inr "/7_dcaeaaab_data") [Some no; Some no] true [] in
  (method_calls (trace (snd (run_action E (SearchName 1%Z (Some "power")) pk_client_new)))
   <= 0 + 1)%nat.
Proof.
  intros no E.
  exact (proj2 (an_action_calls_at_most_twice E (SearchName 1 (Some "power"))
                  pk_client_new) eq_refl).
Defined.

Section OldTransactions.

Variable E : Env.

Lemma always_returns_ret {A : Type} (a : A) : always_returns (ret a).
Proof. intros s. exists a. reflexivity. Qed.

Lemma always_returns_bind {A B : Type} (m : M A) (f : A -> M B) :
  always_returns m -> (forall a, always_returns (f a)) ->
  always_returns (bind m f).
Proof.
  intros Hm Hf s. destruct (Hm s) as [a Ha]. unfold bind.
  destruct (m s) as [[a'|] s1]; [ apply Hf | discriminate Ha ].
Qed.

Lemma always_returns_primitives :
  always_returns get_priv /\ always_returns history
  /\ (forall f, always_returns (modify f)) /\ (forall e, always_returns (record e)).
Proof. repeat split; intros; intros s; eexists; reflexivity. Qed.

(** The allocation returns, or reads the error through a location that was
    not passed; what follows it is run only when it returns. *)
Lemma allocate_transaction_id_then {B : Type} (f : Ret -> M B) s :
  (forall x, always_returns (f x)) ->
  let outcome := bind (pk_client_allocate_transaction_id E) f s in
  (error_location E (trace s) = true -> exists b, fst outcome = Some b)
  /\ (forall x s1, pk_client_allocate_transaction_id E s = (Some x, s1) ->
      exists b, fst outcome = Some b)
  /\ ((exists b, fst outcome = Some b)
      \/ (error_location E (trace s) = false
          /\ fst outcome = None
          /\ exists h, trace (snd outcome) = h ++ [NullDereference])).
Proof.
  intros Hf outcome.
  destruct always_returns_primitives as (H1 & H2 & H3 & H4).
  assert (Hset : forall tid', always_returns (pk_client_set_tid E tid')).
  { intros tid'. unfold pk_client_set_tid.
    repeat match goal with
      | |- always_returns (bind _ _) => apply always_returns_bind; [ | intros ? ]
      | |- always_returns (ret _) => apply always_returns_ret
      | |- always_returns (if ?b then _ else _) => destruct b
      | |- always_returns (match ?x with _ => _ end) => destruct x
      | |- always_returns _ => solve [ auto ]
      end. }
  assert (Hcases :
            (exists x s1, pk_client_allocate_transaction_id E s = (Some x, s1))
            \/ (error_location E (trace s) = false
                /\ exists s1 h, pk_client_allocate_transaction_id E s = (None, s1)
                               /\ trace s1 = h ++ [NullDereference])).
  { unfold pk_client_allocate_transaction_id.
    rewrite bind_history, bind_record.
    destruct (pk_control_allocate_transaction_id E (trace s)) as [error|tid'].
    - destruct (error_location E (trace s)).
      + left. eexists; eexists; reflexivity.
      + right. split; [ reflexivity | ]. eexists; eexists.
        split; reflexivity.
    - destruct (Hset tid' (mkSys (priv s) (trace s ++ [ControlAllocateTid])))
        as [[r error] Hr].
      unfold bind.
      destruct (pk_client_set_tid E tid' _) as [[[r' error']|] s1];
        [ | discriminate Hr ].
      destruct r'; cbn [negb]; cbv iota.
      + left. eexists; eexists; reflexivity.
      + destruct (error_location E (trace s)).
        * left. eexists; eexists; reflexivity.
        * right. split; [ reflexivity | ]. eexists; eexists.
          split; reflexivity. }
  assert (Hret : forall x s1,
             pk_client_allocate_transaction_id E s = (Some x, s1) ->
             exists b, fst outcome = Some b).
  { intros x s1 Ha. unfold outcome. rewrite (bind_returns _ _ _ _ _ Ha). apply Hf. }
  assert (Hor : (exists b, fst outcome = Some b)
                \/ (error_location E (trace s) = false
                    /\ fst outcome = None
                    /\ exists h, trace (snd outcome) = h ++ [NullDereference])).
  { destruct Hcases as [(x & s1 & Ha) | (Hl & s1 & h & Ha & Htr)].
    - left. exact (Hret x s1 Ha).
    - right. split; [ exact Hl | ]. unfold outcome.
      rewrite (bind_stops _ _ _ _ Ha).
      split; [ reflexivity | ]. exists h. exact Htr. }
  split; [ | split; [ exact Hret | exact Hor ] ].
  intros Hl. destruct Hor as [H | [Hl' _]]; [ exact H | ].
  rewrite Hl in Hl'. discriminate Hl'.
Qed.

Lemma get_old_transactions_returns number s :
  let outcome := pk_client_get_old_transactions E number s in
  (error_location E (trace s) = true -> exists x, fst outcome = Some x)
  /\ (forall x s1, pk_client_allocate_transaction_id E s = (Some x, s1) ->
      exists b, fst outcome = Some b)
  /\ ((exists x, fst outcome = Some x)
      \/ (error_location E (trace s) = false
          /\ fst outcome = None
          /\ exists h, trace (snd outcome) = h ++ [NullDereference])).
Proof.
  destruct always_returns_primitives as (H1 & H2 & H3 & H4).
  unfold pk_client_get_old_transactions.
  apply allocate_transaction_id_then. intros [r error].
  unfold dbus_g_proxy_call, pk_client_change_status, g_signal_emit.
  cbv zeta.
  repeat match goal with
    | |- always_returns (bind _ _) => apply always_returns_bind; [ | intros ? ]
    | |- always_returns (ret _) => apply always_returns_ret
    | |- always_returns (if ?b then _ else _) => destruct b
    | |- always_returns (match ?x with _ => _ end) => destruct x
    | |- always_returns _ => solve [ auto ]
    end.
Qed.

Lemma role_kept_by_get_old_transactions number ro :
  preserves (fun c => role c = ro) (pk_client_get_old_transactions E number).
Proof.
  assert (Hsig : forall c c', written_by_signals_only c c' -> role c = ro -> role c' = ro).
  { intros c c' Hw Hc.
    destruct (written_by_signals_only_frame c c' Hw) as (_ & _ & -> & _). exact Hc. }
  assert (Hset : forall tid', preserves (fun c => role c = ro) (pk_client_set_tid E tid')).
  { intros tid'. unfold pk_client_set_tid. repeat keep_step;
      apply preserves_modify; intros c Hc; destruct c; exact Hc. }
  pose proof (keeps_allocate_transaction_id E _ Hset) as K1.
  pose proof (keeps_dbus_g_proxy_call E (fun c => role c = ro)) as K2.
  pose proof (keeps_change_status _ Hsig) as K3.
  unfold pk_client_get_old_transactions. cbv zeta. repeat keep_step.
Qed.

End OldTransactions.

(** X22.  [pk_client_get_old_transactions] never waits: alone among the
    actions it has no wait for the Finished signal, so on a synchronous
    client too, in every state and whatever the daemon answers, it returns
    to a caller that passed an error location, and to every caller when the
    transaction is allocated.  Where it does not return, the caller passed
    [NULL] as error location and the call stopped in the read of the error
    through [NULL].  It saves no role: the role of the client is afterwards
    what it was. *)
Theorem get_old_transactions_never_waits (E : Env) (number : Z) (s : Sys) :
  let outcome := pk_client_get_old_transactions E number s in
  (error_location E (trace s) = true ->
   exists r error, fst outcome = Some (r, error))
  /\ (forall tid', allocates E s tid' ->
      exists r error, fst outcome = Some (r, error))
  /\ ((exists r error, fst outcome = Some (r, error))
      \/ (error_location E (trace s) = false
          /\ fst outcome = None
          /\ exists h, trace (snd outcome) = h ++ [NullDereference]))
  /\ role (priv (snd outcome)) = role (priv s).
Proof.
  intros outcome.
  destruct (get_old_transactions_returns E number s) as (H1 & H2 & H3).
  split; [ | split; [ | split ] ].
  - intros Hl. destruct (H1 Hl) as [[r error] H]. exists r, error. exact H.
  - intros tid' Ha.
    destruct (H2 _ _ (pk_client_allocate_transaction_id_allocates E s tid' Ha))
      as [[r error] H].
    exists r, error. exact H.
  - destruct H3 as [[[r error] H] | H]; [ left | right; exact H ].
    exists r, error. exact H.
  - exact (role_kept_by_get_old_transactions E number (role (priv s)) s eq_refl).
Qed.

(** The old transactions are asked for on a synchronous client. *)
Lemma get_old_transactions_never_waits_witness :
  let E := Script.env (inr "/7_dcaeaaab_data") [None] false [] in
  let s := snd (run_ops E [SetSynchronous true] pk_client_new) in
  exists r error, fst (pk_client_get_old_transactions E 5 s) = Some (r, error).
Proof.
  intros E s.
  refine (proj1 (get_old_transactions_never_waits E 5 s) _).
  reflexivity.
Defined.
(** * The roles a requeue cannot repeat *)

(** X23.  Five actions save their role but cannot be requeued: after a
    get-packages, a what-provides, an accept-eula, a repo-enable or a
    repo-set-data that got as far as the daemon, which allocated its tid,
    and once the transaction has finished, [pk_client_requeue] fails with
    the RoleUnknown error and makes no call, though the role is known; it
    has by then cleared the tid, the status, the finished flag and the
    package list. *)
Theorem five_roles_cannot_be_requeued (E : Env) (s : Sys) (tid' : string)
    (a : Action) (ro : PkRoleEnum) (evs : list BusSignal) :
  allocates E s tid' ->
  trace (snd (run_action E a s)) <> trace s ->
  action_role a = Some ro ->
  reissued E a = None ->
  let s1 := snd (proxy_signals E evs (snd (run_action E a s))) in
  is_finished (priv s1) = true ->
  role (priv s1) = ro
  /\ pk_client_requeue E s1 = (Some (false, Some role_unknown), requeued s1).
Proof.
  intros Ha Hneq Hro Hre s1 Hfin.
  pose proof (keeps_proxy_signals E _ (saved_as_signal E a tid') evs _
                (run_action_saved_as E a s tid' Ha Hneq)) as (_ & _ & Hr & _).
  fold s1 in Hr. specialize (Hr ro Hro).
  split; [ exact Hr | ].
  assert (Hcase : role (priv s1) <> PK_ROLE_ENUM_UNKNOWN
                  /\ requeue_action (priv s1) = None).
  { unfold requeue_action. rewrite Hr.
    destruct a; try discriminate Hre; try discriminate Hro;
      try (injection Hro as <-; split; [ discriminate | reflexivity ]);
      match goal with
      | x : option _ |- _ =>
          destruct x; [ discriminate Hre | contradiction Hneq; reflexivity ]
      end. }
  destruct Hcase as [Hk Hq].
  exact (pk_client_requeue_no_branch E s1 Hk Hfin Hq).
Qed.

Lemma five_roles_cannot_be_requeued_witness :
  let E := Script.env (inr "/7_dcaeaaab_data") [None] false [] in
  let s1 := snd (proxy_signals E [Finished "success" 3]
                   (snd (run_action E (WhatProvides 1 PK_PROVIDES_ENUM_CODEC (Some "mp3"))
                           pk_client_new))) in
  pk_client_requeue E s1 = (Some (false, Some role_unknown), requeued s1).
Proof.
  intros E.
  refine (proj2 (five_roles_cannot_be_requeued E pk_client_new "/7_dcaeaaab_data"
                   (WhatProvides 1 PK_PROVIDES_ENUM_CODEC (Some "mp3"))
                   PK_ROLE_ENUM_WHAT_PROVIDES [Finished "success" 3] _ _ _ _ _)).
  - repeat split; vm_compute; reflexivity.
  - vm_compute. discriminate.
  - reflexivity.
  - reflexivity.
  - vm_compute. reflexivity.
Defined.
